(** * Champions League data fetcher: team registry and fetch stages

    Shallow embedding of [champs_league.py].  The script keeps one global
    registry of teams ([teams_dict], [team_id_counter]), runs three fetch
    stages that resolve team names through it while turning a JSON payload
    into CSV rows, and finally exports the registry itself.

    What is modelled, and how:
    - the value returned by [response.json()] is a [json] tree; JSON numbers
      are integers ([Z]), which is what every numeric field of the API is;
      a string is a [string], one character per element; a JSON object is
      the parsed [dict]: an association list in insertion order whose keys
      are pairwise distinct;
    - Python's dynamic operations on such a value ([in], subscripts, [len],
      [.get], truth value, [==], iteration) are the functions of module
      [Py]; each raises the exception Python raises;
    - the global registry and the files written so far form the [world]
      threaded through the state-and-exception monad [M]; an exception
      keeps the mutations made before it, as in Python;
    - [requests.get], [raise_for_status] and [response.json] are the
      environment: a stage takes their combined outcome as a [response];
      [datetime.now().strftime(...)] is the [ts] argument;
    - a CSV file is its list of rows, a row the list of Python values handed
      to [csv.writer]; opening a file and writing a row are taken to
      succeed, and the [print] calls are left out: what is proved of a run
      is proved of a run whose file writes and prints go through. *)

From Stdlib Require Import ZArith List String Ascii Bool Lia.
Import ListNotations.

Local Open Scope string_scope.
Local Open Scope list_scope.
Local Open Scope Z_scope.

(** String concatenation; [++] is kept for lists. *)
Infix "+++" := String.append (right associativity, at level 60).

(** ** Values and exceptions *)

Set Warnings "-register-all".

Inductive json : Type :=
| JNull
| JBool (b : bool)
| JNum (z : Z)
| JStr (s : string)
| JArr (items : list json)
| JObj (fields : list (string * json)).

(** The exception classes that occur; all but [KeyboardInterrupt] derive
    from [Exception]. *)
Inductive exn : Type :=
| RequestException
| HTTPError
| JSONDecodeError
| KeyError
| TypeError
| IndexError
| AttributeError
| KeyboardInterrupt.

Definition is_Exception (e : exn) : bool :=
  match e with
  | KeyboardInterrupt => false
  | _ => true
  end.

Inductive outcome (A : Type) : Type :=
| Ret (a : A)
| Raise (e : exn).
Arguments Ret {A} a.
Arguments Raise {A} e.

(** ** Python's operations on parsed JSON *)

Module Py.

Fixpoint dict_lookup (k : string) (fields : list (string * json)) : option json :=
  match fields with
  | [] => None
  | (k', v) :: rest => if String.eqb k k' then Some v else dict_lookup k rest
  end.

(** [a == b]. [True] and [False] compare equal to [1] and [0]; lists
    compare element-wise, dicts as key-value sets. *)
Fixpoint eq (a b : json) {struct a} : bool :=
  match a, b with
  | JNull, JNull => true
  | JBool x, JBool y => Bool.eqb x y
  | JBool x, JNum z => Z.eqb (Z.b2z x) z
  | JNum z, JBool x => Z.eqb z (Z.b2z x)
  | JNum x, JNum y => Z.eqb x y
  | JStr s, JStr t => String.eqb s t
  | JArr l, JArr m =>
      (fix go (l m : list json) : bool :=
         match l, m with
         | [], [] => true
         | x :: l', y :: m' => eq x y && go l' m'
         | _, _ => false
         end) l m
  | JObj f, JObj g =>
      Nat.eqb (List.length f) (List.length g) &&
      (fix go (f : list (string * json)) : bool :=
         match f with
         | [] => true
         | (k, v) :: f' =>
             match dict_lookup k g with
             | Some v' => eq v v'
             | None => false
             end && go f'
         end) f
  | _, _ => false
  end.

(** [bool(v)]. *)
Definition truthy (v : json) : bool :=
  match v with
  | JNull => false
  | JBool b => b
  | JNum z => negb (Z.eqb z 0)
  | JStr s => negb (String.eqb s "")
  | JArr l => match l with [] => false | _ => true end
  | JObj f => match f with [] => false | _ => true end
  end.

Fixpoint chars (s : string) : list json :=
  match s with
  | EmptyString => []
  | String c rest => JStr (String c EmptyString) :: chars rest
  end.

Fixpoint is_substring (k s : string) : bool :=
  String.prefix k s ||
  match s with
  | EmptyString => false
  | String _ rest => is_substring k rest
  end.

(** ['k' in v]. *)
Definition contains (k : string) (v : json) : outcome bool :=
  match v with
  | JObj f => Ret (match dict_lookup k f with Some _ => true | None => false end)
  | JArr l => Ret (existsb (fun x => eq x (JStr k)) l)
  | JStr s => Ret (is_substring k s)
  | _ => Raise TypeError
  end.

(** [v['k']]. *)
Definition getitem (v : json) (k : string) : outcome json :=
  match v with
  | JObj f => match dict_lookup k f with Some x => Ret x | None => Raise KeyError end
  | _ => Raise TypeError
  end.

(** [v[0]]; the keys of a parsed object are strings, never [0]. *)
Definition getitem0 (v : json) : outcome json :=
  match v with
  | JArr l => match l with x :: _ => Ret x | [] => Raise IndexError end
  | JStr s => match s with String c _ => Ret (JStr (String c EmptyString))
                      | EmptyString => Raise IndexError end
  | JObj _ => Raise KeyError
  | _ => Raise TypeError
  end.

(** [len(v)]. *)
Definition len (v : json) : outcome Z :=
  match v with
  | JArr l => Ret (Z.of_nat (List.length l))
  | JObj f => Ret (Z.of_nat (List.length f))
  | JStr s => Ret (Z.of_nat (String.length s))
  | _ => Raise TypeError
  end.

(** [v.get('k', default)]; only a dict has the method. *)
Definition get (v : json) (k : string) (default : json) : outcome json :=
  match v with
  | JObj f => Ret (match dict_lookup k f with Some x => x | None => default end)
  | _ => Raise AttributeError
  end.

(** The elements [for x in v] runs through. *)
Definition iter (v : json) : outcome (list json) :=
  match v with
  | JArr l => Ret l
  | JObj f => Ret (map (fun kv => JStr (fst kv)) f)
  | JStr s => Ret (chars s)
  | _ => Raise TypeError
  end.

End Py.

(** ** The registry, the files and the monad *)

(** Hashable values and the class of a value under [hash] and [==]: what a
    [dict] distinguishes its keys by. *)
Inductive key : Type :=
| KNone
| KInt (z : Z)
| KStr (s : string).

Definition key_eqb (a b : key) : bool :=
  match a, b with
  | KNone, KNone => true
  | KInt x, KInt y => Z.eqb x y
  | KStr s, KStr t => String.eqb s t
  | _, _ => false
  end.

Definition is_hashable (v : json) : bool :=
  match v with
  | JArr _ | JObj _ => false
  | _ => true
  end.

Definition key_of (v : json) : key :=
  match v with
  | JBool b => KInt (Z.b2z b)
  | JNum z => KInt z
  | JStr s => KStr s
  | _ => KNone
  end.

(** One value of [teams_dict]: [{'id': .., 'name': .., 'api_id': ..}]. *)
Record team : Type := mkTeam {
  t_id : Z;
  t_name : json;
  t_api_id : json
}.

Record registry : Type := mkRegistry {
  teams_dict : list (key * team);
  team_id_counter : Z
}.

Definition row : Type := list json.

Record world : Type := mkWorld {
  wreg : registry;
  wfiles : list (string * list row)
}.

Definition initial_registry : registry :=
  {| teams_dict := []; team_id_counter := 1 |}.

Definition initial_world : world :=
  {| wreg := initial_registry; wfiles := [] |}.

Definition M (A : Type) : Type := world -> outcome A * world.

Definition ret {A} (a : A) : M A := fun w => (Ret a, w).

Definition raise {A} (e : exn) : M A := fun w => (Raise e, w).

Definition bind {A B} (c : M A) (k : A -> M B) : M B :=
  fun w =>
    match c w with
    | (Ret a, w') => k a w'
    | (Raise e, w') => (Raise e, w')
    end.

Definition lift {A} (o : outcome A) : M A := fun w => (o, w).

Declare Scope py_scope.
Delimit Scope py_scope with py.
Notation "x <- c ;; k" := (bind c (fun x => k))
  (at level 100, c at next level, right associativity) : py_scope.
Notation "c ;;; k" := (bind c (fun _ => k))
  (at level 100, right associativity) : py_scope.
Local Open Scope py_scope.

Definition get_registry : M registry := fun w => (Ret (wreg w), w).

Definition put_registry (r : registry) : M unit :=
  fun w => (Ret tt, {| wreg := r; wfiles := wfiles w |}).

(** [for x in l: s = body(s, x)] with the loop's local variables in [s]. *)
Fixpoint for_each {A S} (body : S -> A -> M S) (l : list A) (s : S) : M S :=
  match l with
  | [] => ret s
  | x :: rest => s' <- body s x ;; for_each body rest s'
  end.

(** [try: body except Exception: return handler]. *)
Definition try_except {A} (body : M A) (handler : A) : M A :=
  fun w =>
    match body w with
    | (Raise e, w') => if is_Exception e then (Ret handler, w') else (Raise e, w')
    | r => r
    end.

(** *** Files *)

Fixpoint remove_file (f : string) (fs : list (string * list row)) : list (string * list row) :=
  match fs with
  | [] => []
  | (g, rows) :: rest =>
      if String.eqb f g then remove_file f rest else (g, rows) :: remove_file f rest
  end.

Fixpoint append_row (f : string) (r : row) (fs : list (string * list row)) : list (string * list row) :=
  match fs with
  | [] => []
  | (g, rows) :: rest =>
      if String.eqb f g then (g, rows ++ [r]) :: rest else (g, rows) :: append_row f r rest
  end.

Fixpoint read_file (f : string) (fs : list (string * list row)) : option (list row) :=
  match fs with
  | [] => None
  | (g, rows) :: rest => if String.eqb f g then Some rows else read_file f rest
  end.

(** [open(filename, 'w')]: the file exists and is empty from here on. *)
Definition open_w (f : string) : M unit :=
  fun w => (Ret tt, {| wreg := wreg w; wfiles := (f, []) :: remove_file f (wfiles w) |}).

(** [writer.writerow(r)] on the file opened as [f]. *)
Definition writerow (f : string) (r : row) : M unit :=
  fun w => (Ret tt, {| wreg := wreg w; wfiles := append_row f r (wfiles w) |}).

(** [writer.writerows(rs)]. *)
Definition writerows (f : string) (rs : list row) : M unit :=
  for_each (fun _ r => writerow f r) rs tt.

(** ** The team registry *)

Fixpoint teams_lookup (k : key) (d : list (key * team)) : option team :=
  match d with
  | [] => None
  | (k', t) :: rest => if key_eqb k k' then Some t else teams_lookup k rest
  end.

(** Hashing the name is what [team_name not in teams_dict] does first. *)
Definition hash_key (v : json) : outcome key :=
  if is_hashable v then Ret (key_of v) else Raise TypeError.

Definition get_or_create_team_id (team_name team_api_id : json) : M Z :=
  k <- lift (hash_key team_name) ;;
  r <- get_registry ;;
  (match teams_lookup k (teams_dict r) with
   | None =>
       put_registry
         {| teams_dict := teams_dict r ++
              [(k, {| t_id := team_id_counter r;
                      t_name := team_name;
                      t_api_id := team_api_id |})];
            team_id_counter := team_id_counter r + 1 |}
   | Some _ => ret tt
   end) ;;;
  r' <- get_registry ;;
  match teams_lookup k (teams_dict r') with
  | Some t => ret (t_id t)
  | None => raise KeyError
  end.

(** [sorted(items, key=lambda x: x[1]['id'])]: a stable sort; an entry
    goes in front of the later entries of the same id. *)
Fixpoint insert_by_id (x : key * team) (l : list (key * team)) : list (key * team) :=
  match l with
  | [] => [x]
  | y :: rest =>
      if Z.leb (t_id (snd x)) (t_id (snd y)) then x :: y :: rest
      else y :: insert_by_id x rest
  end.

Definition sorted_by_id (l : list (key * team)) : list (key * team) :=
  fold_right insert_by_id [] l.

Definition teams_header : row := [JStr "team_id"; JStr "team_name"; JStr "api_id"].

Definition team_row (t : team) : row := [JNum (t_id t); t_name t; t_api_id t].

Definition save_teams_table (ts : string) : M string :=
  let filename := "teams_" +++ ts +++ ".csv" in
  open_w filename ;;;
  writerow filename teams_header ;;;
  r <- get_registry ;;
  for_each (fun _ kt => writerow filename (team_row (snd kt)))
           (sorted_by_id (teams_dict r)) tt ;;;
  ret filename.

(** ** The fetch stages *)

(** What [requests.get(url, headers=headers)], [response.raise_for_status()]
    and [response.json()] do when a stage runs. *)
Inductive response : Type :=
| GetRaises (e : exn)
| StatusError
| JsonError
| Body (data : json).

Definition fetch_json (resp : response) : M json :=
  match resp with
  | GetRaises e => raise e
  | StatusError => raise HTTPError
  | JsonError => raise JSONDecodeError
  | Body data => ret data
  end.

(** ['k' in v and p(v['k'])], the right operand evaluated only when the
    left one holds. *)
Definition contains_and (k : string) (v : json) (p : json -> outcome bool) : M bool :=
  has <- lift (Py.contains k v) ;;
  if has then (x <- lift (Py.getitem v k) ;; lift (p x)) else ret false.

(** *** Standings *)

Definition standings_header : row :=
  map JStr ["standing_id"; "team_id"; "position"; "played"; "won"; "draw";
            "lost"; "points"; "goals_for"; "goals_against"; "goal_difference"].

Definition standings_body (csv_filename : string) (idx : Z) (team : json) : M Z :=
  t <- lift (Py.getitem team "team") ;;
  team_name <- lift (Py.getitem t "name") ;;
  t' <- lift (Py.getitem team "team") ;;
  team_api_id <- lift (Py.getitem t' "id") ;;
  team_id <- get_or_create_team_id team_name team_api_id ;;
  position <- lift (Py.getitem team "position") ;;
  played <- lift (Py.getitem team "playedGames") ;;
  won <- lift (Py.getitem team "won") ;;
  draw <- lift (Py.getitem team "draw") ;;
  lost <- lift (Py.getitem team "lost") ;;
  points <- lift (Py.getitem team "points") ;;
  goals_for <- lift (Py.getitem team "goalsFor") ;;
  goals_against <- lift (Py.getitem team "goalsAgainst") ;;
  goal_difference <- lift (Py.getitem team "goalDifference") ;;
  writerow csv_filename
    [JNum idx; JNum team_id; position; played; won; draw; lost; points;
     goals_for; goals_against; goal_difference] ;;;
  ret (idx + 1).

(** The statements under [try:]. *)
Definition standings_try (ts : string) (resp : response) : M (option string) :=
  data <- fetch_json resp ;;
  nonempty <- contains_and "standings" data
                (fun s => match Py.len s with
                          | Ret n => Ret (Z.ltb 0 n)
                          | Raise e => Raise e
                          end) ;;
  if nonempty then
    s <- lift (Py.getitem data "standings") ;;
    g <- lift (Py.getitem0 s) ;;
    standings <- lift (Py.getitem g "table") ;;
    let csv_filename := "standings_" +++ ts +++ ".csv" in
    open_w csv_filename ;;;
    writerow csv_filename standings_header ;;;
    teams <- lift (Py.iter standings) ;;
    for_each (standings_body csv_filename) teams 1 ;;;
    ret (Some csv_filename)
  else
    ret None.

Definition fetch_champions_league_standings (ts : string) (resp : response)
  : M (option string) :=
  try_except (standings_try ts resp) None.

(** *** Matches and goals *)

Definition matches_header : row :=
  map JStr ["match_id"; "match_day"; "date"; "home_team_id"; "away_team_id";
            "home_score"; "away_score"; "status"].

Definition goals_header : row :=
  map JStr ["goal_id"; "match_id"; "team_id"; "scorer_name"; "minute"; "score"].

(** The local variables of the loop over the matches. *)
Record match_loop : Type := mkLoop {
  matches_data : list row;
  goals_data : list row;
  goal_id : Z
}.

(** [x if x is not None else '']. *)
Definition or_empty (x : json) : json :=
  match x with
  | JNull => JStr ""
  | _ => x
  end.

Definition goal_body (match_ match_id : json) (home_team_id away_team_id : Z)
  (s : match_loop) (goal : json) : M match_loop :=
  t <- lift (Py.get goal "team" (JObj [])) ;;
  scorer_team <- lift (Py.get t "name" (JStr "")) ;;
  h <- lift (Py.getitem match_ "homeTeam") ;;
  home_name <- lift (Py.getitem h "name") ;;
  let scorer_team_id :=
    if Py.eq scorer_team home_name then home_team_id else away_team_id in
  sc <- lift (Py.get goal "scorer" JNull) ;;
  scorer_name <- (if Py.truthy sc
                  then (sc' <- lift (Py.get goal "scorer" (JObj [])) ;;
                        lift (Py.get sc' "name" (JStr "Unknown")))
                  else ret (JStr "Unknown")) ;;
  minute <- lift (Py.get goal "minute" (JStr "")) ;;
  score <- lift (Py.get goal "score" (JObj [])) ;;
  ret {| matches_data := matches_data s;
         goals_data := goals_data s ++
           [[JNum (goal_id s); match_id; JNum scorer_team_id; scorer_name;
             minute; score]];
         goal_id := goal_id s + 1 |}.

Definition match_body (s : match_loop) (match_ : json) : M match_loop :=
  h <- lift (Py.getitem match_ "homeTeam") ;;
  home_name <- lift (Py.getitem h "name") ;;
  h' <- lift (Py.getitem match_ "homeTeam") ;;
  home_api_id <- lift (Py.getitem h' "id") ;;
  home_team_id <- get_or_create_team_id home_name home_api_id ;;
  a <- lift (Py.getitem match_ "awayTeam") ;;
  away_name <- lift (Py.getitem a "name") ;;
  a' <- lift (Py.getitem match_ "awayTeam") ;;
  away_api_id <- lift (Py.getitem a' "id") ;;
  away_team_id <- get_or_create_team_id away_name away_api_id ;;
  match_id <- lift (Py.getitem match_ "id") ;;
  sc <- lift (Py.getitem match_ "score") ;;
  ft <- lift (Py.getitem sc "fullTime") ;;
  home_score <- lift (Py.getitem ft "home") ;;
  sc' <- lift (Py.getitem match_ "score") ;;
  ft' <- lift (Py.getitem sc' "fullTime") ;;
  away_score <- lift (Py.getitem ft' "away") ;;
  match_day <- lift (Py.get match_ "matchday" (JStr "N/A")) ;;
  date <- lift (Py.getitem match_ "utcDate") ;;
  status <- lift (Py.getitem match_ "status") ;;
  let s1 := {| matches_data := matches_data s ++
                 [[match_id; match_day; date; JNum home_team_id;
                   JNum away_team_id; or_empty home_score;
                   or_empty away_score; status]];
               goals_data := goals_data s;
               goal_id := goal_id s |} in
  has_goals <- contains_and "goals" match_ (fun g => Ret (Py.truthy g)) ;;
  if has_goals then
    g <- lift (Py.getitem match_ "goals") ;;
    goals <- lift (Py.iter g) ;;
    for_each (goal_body match_ match_id home_team_id away_team_id) goals s1
  else
    ret s1.

(** The statements under [try:]. The result is [None] when the function
    falls off its end (there is no [else] branch), [Some (a, b)] for a
    returned tuple [a, b]. *)
Definition matches_try (ts : string) (resp : response)
  : M (option (option string * option string)) :=
  data <- fetch_json resp ;;
  has <- lift (Py.contains "matches" data) ;;
  if has then
    m <- lift (Py.getitem data "matches") ;;
    let matches_filename := "matches_" +++ ts +++ ".csv" in
    let goals_filename := "goals_" +++ ts +++ ".csv" in
    matches <- lift (Py.iter m) ;;
    s <- for_each match_body matches
           {| matches_data := []; goals_data := []; goal_id := 1 |} ;;
    open_w matches_filename ;;;
    writerow matches_filename matches_header ;;;
    writerows matches_filename (matches_data s) ;;;
    open_w goals_filename ;;;
    writerow goals_filename goals_header ;;;
    writerows goals_filename (goals_data s) ;;;
    ret (Some (Some matches_filename, Some goals_filename))
  else
    ret None.

Definition fetch_champions_league_matches (ts : string) (resp : response)
  : M (option (option string * option string)) :=
  try_except (matches_try ts resp) (Some (None, None)).

(** *** Top scorers *)

Definition scorers_header : row :=
  map JStr ["scorer_id"; "player_name"; "team_id"; "goals"; "assists"; "penalties"].

Definition scorers_body (filename : string) (idx : Z) (scorer : json) : M Z :=
  t <- lift (Py.getitem scorer "team") ;;
  team_name <- lift (Py.getitem t "name") ;;
  t' <- lift (Py.getitem scorer "team") ;;
  team_api_id <- lift (Py.getitem t' "id") ;;
  team_id <- get_or_create_team_id team_name team_api_id ;;
  p <- lift (Py.getitem scorer "player") ;;
  player_name <- lift (Py.getitem p "name") ;;
  goals <- lift (Py.get scorer "goals" (JNum 0)) ;;
  assists <- lift (Py.get scorer "assists" (JNum 0)) ;;
  penalties <- lift (Py.get scorer "penalties" (JNum 0)) ;;
  writerow filename [JNum idx; player_name; JNum team_id; goals; assists; penalties] ;;;
  ret (idx + 1).

(** The statements under [try:]; again no [else] branch. *)
Definition scorers_try (ts : string) (resp : response) : M (option string) :=
  data <- fetch_json resp ;;
  has <- lift (Py.contains "scorers" data) ;;
  if has then
    scorers <- lift (Py.getitem data "scorers") ;;
    let filename := "scorers_" +++ ts +++ ".csv" in
    open_w filename ;;;
    writerow filename scorers_header ;;;
    l <- lift (Py.iter scorers) ;;
    for_each (scorers_body filename) l 1 ;;;
    ret (Some filename)
  else
    ret None.

Definition fetch_top_scorers (ts : string) (resp : response) : M (option string) :=
  try_except (scorers_try ts resp) None.

(** *** The script's main block, after the check of [API_KEY] *)

Record tables : Type := mkTables {
  teams_table : string;
  matches_table : option string;
  goals_table : option string;
  standings_table : option string;
  scorers_table : option string
}.

(** [a, b = v]: unpacking [None] raises [TypeError]. *)
Definition unpack2 {A B} (v : option (A * B)) : M (A * B) :=
  match v with
  | Some p => ret p
  | None => raise TypeError
  end.

Definition main (ts1 ts2 ts3 ts4 : string) (r1 r2 r3 : response) : M tables :=
  standings <- fetch_champions_league_standings ts1 r1 ;;
  mg <- fetch_champions_league_matches ts2 r2 ;;
  p <- unpack2 mg ;;
  scorers <- fetch_top_scorers ts3 r3 ;;
  teams <- save_teams_table ts4 ;;
  ret {| teams_table := teams;
         matches_table := fst p;
         goals_table := snd p;
         standings_table := standings;
         scorers_table := scorers |}.

(** A sequence of resolutions, in order. *)
Fixpoint resolve_all (calls : list (json * json)) : M (list Z) :=
  match calls with
  | [] => ret []
  | (team_name, team_api_id) :: rest =>
      i <- get_or_create_team_id team_name team_api_id ;;
      ids <- resolve_all rest ;;
      ret (i :: ids)
  end.

(** ** Vocabulary of the statements *)

(** The teams of a list in the order of their first sighting: every later
    occurrence of a key already seen is dropped. *)
Fixpoint first_sightings {A} (kf : A -> key) (l : list A) : list A :=
  match l with
  | [] => []
  | x :: rest =>
      x :: filter (fun y => negb (key_eqb (kf y) (kf x))) (first_sightings kf rest)
  end.

(** Zero-based position of the first occurrence of a key. *)
Fixpoint position (k : key) (ks : list key) : nat :=
  match ks with
  | [] => O
  | k' :: rest => if key_eqb k k' then O else S (position k rest)
  end.

Definition call_key (c : json * json) : key := key_of (fst c).

(** Registry entries for the calls [l], numbered [n], [n+1], ... *)
Fixpoint number_from (n : Z) (l : list (json * json)) : list (key * team) :=
  match l with
  | [] => []
  | c :: rest =>
      (call_key c, {| t_id := n; t_name := fst c; t_api_id := snd c |})
        :: number_from (n + 1) rest
  end.

(** The synthetic id the registry holds for a name. *)
Definition registry_id (r : registry) (team_name : json) : option Z :=
  match teams_lookup (key_of team_name) (teams_dict r) with
  | Some t => Some (t_id t)
  | None => None
  end.

(** ** Predicates and sample inputs of the proofs *)

(** Every entry of [r] is still the entry of its key in [r']. *)
Definition registry_le (r r' : registry) : Prop :=
  forall k t, teams_lookup k (teams_dict r) = Some t ->
              teams_lookup k (teams_dict r') = Some t.

Definition mem_key (k : key) (ks : list key) : bool := existsb (key_eqb k) ks.

Definition keys_of (l : list (json * json)) : list key := map call_key l.

(** What the loop reads off a match and a goal event. *)
Definition obind {A B} (o : outcome A) (k : A -> outcome B) : outcome B :=
  match o with
  | Ret a => k a
  | Raise e => Raise e
  end.

Definition home_name (m : json) : outcome json :=
  obind (Py.getitem m "homeTeam") (fun h => Py.getitem h "name").

Definition away_name (m : json) : outcome json :=
  obind (Py.getitem m "awayTeam") (fun a => Py.getitem a "name").

Definition full_time (m : json) (side : string) : outcome json :=
  obind (Py.getitem m "score") (fun sc =>
  obind (Py.getitem sc "fullTime") (fun ft => Py.getitem ft side)).

Definition goal_team_name (g : json) : outcome json :=
  obind (Py.get g "team" (JObj [])) (fun t => Py.get t "name" (JStr "")).

(** The goal events the inner loop visits for a match. *)
Definition goals_of (m : json) : list json :=
  match Py.contains "goals" m, Py.getitem m "goals" with
  | Ret true, Ret g =>
      if Py.truthy g then match Py.iter g with Ret l => l | Raise _ => [] end
      else []
  | _, _ => []
  end.

Definition goal_events (matches : list json) : list (json * json) :=
  flat_map (fun m => map (pair m) (goals_of m)) matches.

Definition cell (n : nat) (r : row) : json := nth n r JNull.

Definition count_from_1 (n : nat) : list json :=
  map (fun i => JNum (Z.of_nat i)) (seq 1 n).

(** The goal ids written so far are 1, 2, ..., and [goal_id] is the next. *)
Definition gids_ok (s : match_loop) : Prop :=
  map (cell 0) (goals_data s) = count_from_1 (List.length (goals_data s)) /\
  goal_id s = 1 + Z.of_nat (List.length (goals_data s)).

(** Row [rw] is the goal row of goal event [snd mg] of match [fst mg], with
    the ids registry [r] holds for the two teams of the match. *)
Definition goal_row_rel (r : registry) (mg : json * json) (rw : row) : Prop :=
  exists hn an hid aid gn sc gid mid sname minute score,
    home_name (fst mg) = Ret hn /\
    away_name (fst mg) = Ret an /\
    registry_id r hn = Some hid /\
    registry_id r an = Some aid /\
    goal_team_name (snd mg) = Ret gn /\
    Py.get (snd mg) "scorer" JNull = Ret sc /\
    sname = (if Py.truthy sc
             then match sc with
                  | JObj f => match Py.dict_lookup "name" f with
                              | Some x => x
                              | None => JStr "Unknown"
                              end
                  | _ => JNull
                  end
             else JStr "Unknown") /\
    (Py.truthy sc = true -> exists f, sc = JObj f) /\
    rw = [JNum gid; mid; JNum (if Py.eq gn hn then hid else aid);
          sname; minute; score].

(** Row [rw] is the match row of match [m]. *)
Definition match_row_rel (r : registry) (m : json) (rw : row) : Prop :=
  exists hn an hid aid mid md date hs aws st,
    home_name m = Ret hn /\
    away_name m = Ret an /\
    registry_id r hn = Some hid /\
    registry_id r an = Some aid /\
    Py.getitem m "id" = Ret mid /\
    Py.get m "matchday" (JStr "N/A") = Ret md /\
    full_time m "home" = Ret hs /\
    full_time m "away" = Ret aws /\
    rw = [mid; md; date; JNum hid; JNum aid; or_empty hs; or_empty aws; st].

Definition loop_start : match_loop :=
  {| matches_data := []; goals_data := []; goal_id := 1 |}.

(** The matches of a response: the list the loop runs over. *)
Definition matches_of (resp : response) (matches : list json) : Prop :=
  exists data m,
    resp = Body data /\
    Py.contains "matches" data = Ret true /\
    Py.getitem data "matches" = Ret m /\
    Py.iter m = Ret matches.

(** Every exception the computation raises derives from [Exception]. *)
Definition raises_only_Exception {A} (c : M A) : Prop :=
  forall w e w', c w = (Raise e, w') -> is_Exception e = true.

Definition outcome_ok {A} (o : outcome A) : Prop :=
  match o with
  | Ret _ => True
  | Raise e => is_Exception e = true
  end.

(** The name stored in the scorer object of a goal event, if the event has
    a scorer object and that object has a ['name'] key. *)
Definition scorer_name_of (g : json) : option json :=
  match g with
  | JObj gf =>
      match Py.dict_lookup "scorer" gf with
      | Some (JObj sf) => Py.dict_lookup "name" sf
      | _ => None
      end
  | _ => None
  end.

(** The value under the ['matchday'] key of a match, if it has the key. *)
Definition matchday_of (m : json) : option json :=
  match m with
  | JObj f => Py.dict_lookup "matchday" f
  | _ => None
  end.

Definition sample_calls : list (json * json) :=
  [(JStr "Ajax", JNum 678); (JStr "FC Porto", JNum 503); (JStr "Ajax", JNum 999);
   (JNull, JNull); (JStr "SL Benfica", JNum 1903); (JNull, JNum 4);
   (JStr "FC Porto", JNull)].

Definition ajax_world : world :=
  {| wreg := {| teams_dict :=
                  [(KStr "Ajax", {| t_id := 1; t_name := JStr "Ajax"; t_api_id := JNum 678 |})];
                team_id_counter := 2 |};
     wfiles := [] |}.

Definition sample_ts : string := "20260101_120000".

Definition team_obj (api_id : Z) (team_name : string) : json :=
  JObj [("id", JNum api_id); ("name", JStr team_name)].

Definition score_obj (home away : json) : json :=
  JObj [("fullTime", JObj [("home", home); ("away", away)])].

(** Three matches: three goals (one of a team name matching neither side,
    one without scorer, one whose scorer has no name), then a match not
    yet played, with no match day and no goals, then a match with one. *)
Definition sample_matches : list json :=
  [JObj [("id", JNum 101); ("matchday", JNum 1); ("utcDate", JStr "2026-01-01T20:00:00Z");
         ("status", JStr "FINISHED");
         ("homeTeam", team_obj 678 "Ajax"); ("awayTeam", team_obj 503 "FC Porto");
         ("score", score_obj (JNum 2) (JNum 1));
         ("goals",
          JArr [JObj [("minute", JNum 10); ("team", team_obj 678 "Ajax");
                      ("scorer", JObj [("id", JNum 7); ("name", JStr "Tadic")])];
                JObj [("minute", JNum 55); ("team", team_obj 503 "Porto");
                      ("scorer", JNull)];
                JObj [("minute", JNum 80); ("team", team_obj 678 "Ajax");
                      ("scorer", JObj [("id", JNum 9)])]])];
   JObj [("id", JNum 102); ("utcDate", JStr "2026-02-01T20:00:00Z");
         ("status", JStr "TIMED");
         ("homeTeam", team_obj 503 "FC Porto"); ("awayTeam", team_obj 1903 "SL Benfica");
         ("score", score_obj JNull JNull)];
   JObj [("id", JNum 103); ("matchday", JNum 2); ("utcDate", JStr "2026-01-08T20:00:00Z");
         ("status", JStr "FINISHED");
         ("homeTeam", team_obj 1903 "SL Benfica"); ("awayTeam", team_obj 678 "Ajax");
         ("score", score_obj (JNum 0) (JNum 1));
         ("goals",
          JArr [JObj [("minute", JNum 33); ("team", team_obj 678 "Ajax");
                      ("scorer", JObj [("id", JNum 7); ("name", JStr "Tadic")])]])]].

Definition sample_payload : json := JObj [("matches", JArr sample_matches)].

Definition sample_run : outcome (option (option string * option string)) * world :=
  fetch_champions_league_matches sample_ts (Body sample_payload) initial_world.

Definition sample_world : world := snd sample_run.

(** A goal whose scorer object holds a null name. *)
Definition null_name_goal : json :=
  JObj [("minute", JNum 10); ("team", team_obj 678 "Ajax");
        ("scorer", JObj [("id", JNum 7); ("name", JNull)])].

(** One finished match with the given match day and goal events. *)
Definition one_match (matchday : json) (goals : list json) : json :=
  JObj [("id", JNum 201); ("matchday", matchday); ("utcDate", JStr "2026-03-01T20:00:00Z");
        ("status", JStr "FINISHED");
        ("homeTeam", team_obj 678 "Ajax"); ("awayTeam", team_obj 503 "FC Porto");
        ("score", score_obj (JNum 1) (JNum 0));
        ("goals", JArr goals)].

Definition null_name_payload : json :=
  JObj [("matches", JArr [one_match (JNum 1) [null_name_goal]])].

Definition null_matchday_payload : json :=
  JObj [("matches", JArr [one_match JNull []])].

(** A good match followed by one without teams. *)
Definition broken_payload : json :=
  JObj [("matches", JArr [one_match (JNum 1) []; JObj [("id", JNum 202)]])].

(** ** Predicates of the whole-run properties *)

(** Whatever its outcome, the computation takes a world to one related to
    it by [R]. *)
Definition keeps (R : world -> world -> Prop) {A} (c : M A) : Prop :=
  forall w o w', c w = (o, w') -> R w w'.

(** The ids are 1, 2, ..., n in insertion order, the counter is n + 1, no
    key occurs twice, and each entry sits under the key of its own name. *)
Definition well_numbered (r : registry) : Prop :=
  map (fun kt => t_id (snd kt)) (teams_dict r)
    = map Z.of_nat (seq 1 (List.length (teams_dict r))) /\
  team_id_counter r = 1 + Z.of_nat (List.length (teams_dict r)) /\
  NoDup (map fst (teams_dict r)) /\
  Forall (fun kt => fst kt = key_of (t_name (snd kt))) (teams_dict r).

(** From [w] to [w']: the registry keeps its entries and stays well
    numbered, and only the files named in [fs] are touched. *)
Definition grows (fs : list string) (w w' : world) : Prop :=
  registry_le (wreg w) (wreg w') /\
  (well_numbered (wreg w) -> well_numbered (wreg w')) /\
  (forall f, ~ In f fs -> read_file f (wfiles w') = read_file f (wfiles w)).

(** Either the outcome is one of those in [Q], or the two worlds are
    related by [R]. *)
Definition ends_in_or_keeps (R : world -> world -> Prop) {A}
  (Q : outcome A -> Prop) (c : M A) : Prop :=
  forall w o w', c w = (o, w') -> Q o \/ R w w'.

(** The files [main] can write. *)
Definition main_files (ts1 ts2 ts3 ts4 : string) : list string :=
  ["standings_" +++ ts1 +++ ".csv"; "matches_" +++ ts2 +++ ".csv";
   "goals_" +++ ts2 +++ ".csv"; "scorers_" +++ ts3 +++ ".csv";
   "teams_" +++ ts4 +++ ".csv"].

(** ** Predicates of the standings and scorers rows *)

(** The value stored under a key of an object, if there is one. *)
Definition field_of (v : json) (k : string) : option json :=
  match v with
  | JObj f => Py.dict_lookup k f
  | _ => None
  end.

(** The keys a standings row copies, in column order. *)
Definition standings_keys : list string :=
  ["position"; "playedGames"; "won"; "draw"; "lost"; "points";
   "goalsFor"; "goalsAgainst"; "goalDifference"].

(** The keys a scorers row copies with default 0, in column order. *)
Definition scorer_stat_keys : list string := ["goals"; "assists"; "penalties"].

(** [entry['team']['name']] of a standings or scorers entry. *)
Definition team_name_of (entry : json) : outcome json :=
  obind (Py.getitem entry "team") (fun t => Py.getitem t "name").

(** [scorer['player']['name']]. *)
Definition player_name_of (scorer : json) : outcome json :=
  obind (Py.getitem scorer "player") (fun p => Py.getitem p "name").

(** The entries of the table of the first standings group of a response. *)
Definition standings_table_of (resp : response) (entries : list json) : Prop :=
  exists data s g tbl,
    resp = Body data /\
    Py.contains "standings" data = Ret true /\
    Py.getitem data "standings" = Ret s /\
    Py.getitem0 s = Ret g /\
    Py.getitem g "table" = Ret tbl /\
    Py.iter tbl = Ret entries.

(** The scorers of a response. *)
Definition scorers_of (resp : response) (scorers : list json) : Prop :=
  exists data l,
    resp = Body data /\
    Py.contains "scorers" data = Ret true /\
    Py.getitem data "scorers" = Ret l /\
    Py.iter l = Ret scorers.

(** Row [rw] is the standings row of [entry]: the id registry [r] holds for
    its team, then the nine copied values. *)
Definition standing_row_rel (r : registry) (entry : json) (rw : row) : Prop :=
  exists team_name tid,
    team_name_of entry = Ret team_name /\
    registry_id r team_name = Some tid /\
    cell 1 rw = JNum tid /\
    map Ret (skipn 2 rw) = map (Py.getitem entry) standings_keys.

(** Row [rw] is the scorers row of [scorer]: the player's name, the id
    registry [r] holds for the team, then the three counts, 0 where the
    scorer has no such key. *)
Definition scorer_row_rel (r : registry) (scorer : json) (rw : row) : Prop :=
  exists team_name tid,
    team_name_of scorer = Ret team_name /\
    registry_id r team_name = Some tid /\
    player_name_of scorer = Ret (cell 1 rw) /\
    cell 2 rw = JNum tid /\
    skipn 3 rw = map (fun k => match field_of scorer k with
                               | Some x => x
                               | None => JNum 0
                               end) scorer_stat_keys.

(** ** Predicates of the copied cells of match and goal rows *)

(** Row [rw] copies the id, the date and the status of match [m]. *)
Definition match_cells (m : json) (rw : row) : Prop :=
  Py.getitem m "id" = Ret (cell 0 rw) /\
  Py.getitem m "utcDate" = Ret (cell 2 rw) /\
  Py.getitem m "status" = Ret (cell 7 rw) /\
  List.length rw = 8%nat.

(** Row [rw] carries the id of the match of the goal event, and the
    event's minute and score, [''] and [{}] where it has none. *)
Definition goal_cells (mg : json * json) (rw : row) : Prop :=
  Py.getitem (fst mg) "id" = Ret (cell 1 rw) /\
  cell 4 rw = match field_of (snd mg) "minute" with
              | Some x => x
              | None => JStr ""
              end /\
  cell 5 rw = match field_of (snd mg) "score" with
              | Some x => x
              | None => JObj []
              end /\
  List.length rw = 6%nat.

(** ** The resolutions a stage makes *)

(** The value of a lookup that succeeded. *)
Definition oget (o : outcome json) : json :=
  match o with
  | Ret x => x
  | Raise _ => JNull
  end.

(** [entry['team']['id']] of a standings or scorers entry. *)
Definition team_api_id_of (entry : json) : outcome json :=
  obind (Py.getitem entry "team") (fun t => Py.getitem t "id").

(** The resolution made for a standings or scorers entry. *)
Definition entry_call (entry : json) : json * json :=
  (oget (team_name_of entry), oget (team_api_id_of entry)).

(** The two resolutions made for a match: home team, then away team. *)
Definition match_calls (m : json) : list (json * json) :=
  [(oget (home_name m),
    oget (obind (Py.getitem m "homeTeam") (fun h => Py.getitem h "id")));
   (oget (away_name m),
    oget (obind (Py.getitem m "awayTeam") (fun a => Py.getitem a "id")))].

(** Resolving [calls] in order takes registry [r] to registry [r']. *)
Definition resolves (calls : list (json * json)) (r r' : registry) : Prop :=
  Forall (fun c => is_hashable (fst c) = true) calls /\
  forall fs, exists ids,
    resolve_all calls {| wreg := r; wfiles := fs |}
      = (Ret ids, {| wreg := r'; wfiles := fs |}).

(** ** Sample inputs of the whole-run properties *)

Definition standings_entry (position : Z) (t : json) (points : Z) : json :=
  JObj [("position", JNum position); ("team", t); ("playedGames", JNum 4);
        ("won", JNum 3); ("draw", JNum 1); ("lost", JNum 0);
        ("points", JNum points); ("goalsFor", JNum 9); ("goalsAgainst", JNum 2);
        ("goalDifference", JNum 7)].

(** Two groups; the first lists rank 2 before rank 1. *)
Definition sample_standings_payload : json :=
  JObj [("standings",
         JArr [JObj [("stage", JStr "LEAGUE_STAGE");
                     ("table", JArr [standings_entry 2 (team_obj 1903 "SL Benfica") 7;
                                     standings_entry 1 (team_obj 678 "Ajax") 10])];
               JObj [("stage", JStr "PLAYOFFS");
                     ("table", JArr [standings_entry 1 (team_obj 503 "FC Porto") 3])]])].

(** The same first group alone. *)
Definition one_group_standings_payload : json :=
  JObj [("standings",
         JArr [JObj [("stage", JStr "LEAGUE_STAGE");
                     ("table", JArr [standings_entry 2 (team_obj 1903 "SL Benfica") 7;
                                     standings_entry 1 (team_obj 678 "Ajax") 10])]])].

(** A table whose second entry has a team and nothing else. *)
Definition broken_standings_payload : json :=
  JObj [("standings",
         JArr [JObj [("table", JArr [standings_entry 1 (team_obj 678 "Ajax") 10;
                                     JObj [("team", team_obj 503 "FC Porto")];
                                     standings_entry 3 (team_obj 1903 "SL Benfica") 7])]])].

(** Two scorers, the second without any count. *)
Definition sample_scorers_payload : json :=
  JObj [("scorers",
         JArr [JObj [("player", JObj [("id", JNum 7); ("name", JStr "Tadic")]);
                     ("team", team_obj 678 "Ajax");
                     ("goals", JNum 5); ("assists", JNum 2)];
               JObj [("player", JObj [("id", JNum 8); ("name", JStr "Taremi")]);
                     ("team", team_obj 503 "FC Porto")]])].

Definition sample_main_run : outcome tables * world :=
  main "20260101_120000" "20260101_120001" "20260101_120002" "20260101_120003"
       (Body sample_standings_payload) (Body sample_payload)
       (Body sample_scorers_payload) initial_world.

Definition sample_tables : tables :=
  {| teams_table := "teams_20260101_120003.csv";
     matches_table := Some "matches_20260101_120001.csv";
     goals_table := Some "goals_20260101_120001.csv";
     standings_table := Some "standings_20260101_120000.csv";
     scorers_table := Some "scorers_20260101_120002.csv" |}.

(** The three fetch calls of the main block with the unpacking of the
    second result: the statements before [save_teams_table()]. *)
Definition main_fetches (ts1 ts2 ts3 : string) (r1 r2 r3 : response)
  : M (option string * (option string * option string) * option string) :=
  standings <- fetch_champions_league_standings ts1 r1 ;;
  mg <- fetch_champions_league_matches ts2 r2 ;;
  p <- unpack2 mg ;;
  scorers <- fetch_top_scorers ts3 r3 ;;
  ret (standings, p, scorers).

(** * Proofs *)

(** ** The monad *)

Lemma bind_ret_inv {A B} (c : M A) (k : A -> M B) w b w' :
  bind c k w = (Ret b, w') ->
  exists a w1, c w = (Ret a, w1) /\ k a w1 = (Ret b, w').
Proof.
  unfold bind. destruct (c w) as [[a | e] w1]; intro H.
  - exists a, w1. split; [reflexivity | exact H].
  - discriminate H.
Qed.

Lemma lift_ret_inv {A} (o : outcome A) w a w' :
  lift o w = (Ret a, w') -> o = Ret a /\ w' = w.
Proof.
  unfold lift. intro H. inversion H. split; reflexivity.
Qed.

Lemma ret_inv {A} (a b : A) w w' :
  ret a w = (Ret b, w') -> b = a /\ w' = w.
Proof.
  unfold ret. intro H. inversion H. split; reflexivity.
Qed.

(** Peel one statement off a computation known to return. *)
Ltac step H :=
  let a := fresh "v" in
  let w1 := fresh "w" in
  let H1 := fresh "E" in
  apply bind_ret_inv in H; destruct H as (a & w1 & H1 & H);
  try (apply lift_ret_inv in H1; destruct H1 as [H1 ?]; subst w1).

(** An invariant of the loop variables and the world, indexed by the
    elements already visited, holds when the loop returns. *)
Lemma for_each_prefix {A S} (body : S -> A -> M S)
  (I : list A -> S -> world -> Prop) :
  (forall pre x s w s' w',
      I pre s w -> body s x w = (Ret s', w') -> I (pre ++ [x]) s' w') ->
  forall l pre s w s' w',
    I pre s w -> for_each body l s w = (Ret s', w') -> I (pre ++ l) s' w'.
Proof.
  intros Hstep l. induction l as [| x rest IH]; intros pre s w s' w' HI H.
  - simpl in H. apply ret_inv in H. destruct H; subst. now rewrite app_nil_r.
  - simpl in H. step H.
    replace (pre ++ x :: rest) with ((pre ++ [x]) ++ rest)
      by (rewrite <- app_assoc; reflexivity).
    eapply IH; [| exact H]. eapply Hstep; eassumption.
Qed.

(** ** Keys *)

Lemma key_eqb_eq a b : key_eqb a b = true <-> a = b.
Proof.
  destruct a, b; simpl; split; intro H; try discriminate; try reflexivity.
  - apply Z.eqb_eq in H. now subst.
  - inversion H. apply Z.eqb_refl.
  - apply String.eqb_eq in H. now subst.
  - inversion H. apply String.eqb_refl.
Qed.

Lemma key_eqb_refl a : key_eqb a a = true.
Proof. now apply key_eqb_eq. Qed.

(** ** The registry *)

Lemma get_or_create_known team_name team_api_id k t w :
  hash_key team_name = Ret k ->
  teams_lookup k (teams_dict (wreg w)) = Some t ->
  get_or_create_team_id team_name team_api_id w = (Ret (t_id t), w).
Proof.
  intros Hk Hl. unfold get_or_create_team_id, bind, lift, get_registry.
  rewrite Hk, Hl. unfold ret. now rewrite Hl.
Qed.

Lemma teams_lookup_app_new k d t :
  teams_lookup k d = None -> teams_lookup k (d ++ [(k, t)]) = Some t.
Proof.
  induction d as [| [k' t'] rest IH]; simpl; intro H.
  - now rewrite key_eqb_refl.
  - destruct (key_eqb k k'); [discriminate | auto].
Qed.

Lemma teams_lookup_app_old k d t x :
  teams_lookup k d = Some t -> teams_lookup k (d ++ x) = Some t.
Proof.
  induction d as [| [k' t'] rest IH]; simpl; intro H.
  - discriminate.
  - destruct (key_eqb k k'); auto.
Qed.

Lemma get_or_create_new team_name team_api_id k w :
  hash_key team_name = Ret k ->
  teams_lookup k (teams_dict (wreg w)) = None ->
  get_or_create_team_id team_name team_api_id w =
    (Ret (team_id_counter (wreg w)),
     {| wreg := {| teams_dict := teams_dict (wreg w) ++
                     [(k, {| t_id := team_id_counter (wreg w);
                             t_name := team_name;
                             t_api_id := team_api_id |})];
                   team_id_counter := team_id_counter (wreg w) + 1 |};
        wfiles := wfiles w |}).
Proof.
  intros Hk Hl. unfold get_or_create_team_id, bind, lift, get_registry, put_registry.
  rewrite Hk, Hl. simpl. now rewrite (teams_lookup_app_new _ _ _ Hl).
Qed.

Lemma registry_le_refl r : registry_le r r.
Proof. intros k t H. exact H. Qed.

Lemma registry_le_trans r1 r2 r3 :
  registry_le r1 r2 -> registry_le r2 r3 -> registry_le r1 r3.
Proof. intros H1 H2 k t H. apply H2, H1, H. Qed.

Lemma registry_id_le r r' n i :
  registry_le r r' -> registry_id r n = Some i -> registry_id r' n = Some i.
Proof.
  unfold registry_id. intros Hle H.
  destruct (teams_lookup (key_of n) (teams_dict r)) as [t |] eqn:E; [| discriminate].
  now rewrite (Hle _ _ E).
Qed.

(** What a resolution that returns has done. *)
Lemma get_or_create_ret team_name team_api_id w i w' :
  get_or_create_team_id team_name team_api_id w = (Ret i, w') ->
  is_hashable team_name = true /\
  wfiles w' = wfiles w /\
  registry_le (wreg w) (wreg w') /\
  registry_id (wreg w') team_name = Some i.
Proof.
  intro H.
  destruct (is_hashable team_name) eqn:Hh.
  2:{ unfold get_or_create_team_id, bind, lift, hash_key in H.
      rewrite Hh in H. discriminate H. }
  assert (Hk : hash_key team_name = Ret (key_of team_name))
    by (unfold hash_key; now rewrite Hh).
  split; [reflexivity |].
  destruct (teams_lookup (key_of team_name) (teams_dict (wreg w))) as [t |] eqn:Hl.
  - rewrite (get_or_create_known _ team_api_id _ _ _ Hk Hl) in H.
    inversion H; subst. repeat split.
    + apply registry_le_refl.
    + unfold registry_id. now rewrite Hl.
  - rewrite (get_or_create_new _ team_api_id _ _ Hk Hl) in H.
    inversion H; subst. simpl. repeat split.
    + intros k t Hkt. simpl. now apply teams_lookup_app_old.
    + unfold registry_id. simpl. now rewrite (teams_lookup_app_new _ _ _ Hl).
Qed.

(** ** Resolving a sequence of names *)

Lemma number_from_app n a b :
  number_from n (a ++ b) =
  number_from n a ++ number_from (n + Z.of_nat (List.length a)) b.
Proof.
  revert n. induction a as [| c a IH]; intro n.
  - simpl. now rewrite Z.add_0_r.
  - cbn [app number_from List.length]. rewrite IH. simpl app.
    do 3 f_equal. lia.
Qed.

Lemma lookup_number_from_absent k l n :
  mem_key k (keys_of l) = false -> teams_lookup k (number_from n l) = None.
Proof.
  revert n. induction l as [| c l IH]; intros n H; simpl in *.
  - reflexivity.
  - apply orb_false_iff in H. destruct H as [H1 H2]. rewrite H1. now apply IH.
Qed.

Lemma lookup_number_from_present k l n :
  mem_key k (keys_of l) = true ->
  exists t, teams_lookup k (number_from n l) = Some t /\
            t_id t = n + Z.of_nat (position k (keys_of l)).
Proof.
  revert n. induction l as [| c l IH]; intros n H; simpl in *.
  - discriminate.
  - destruct (key_eqb k (call_key c)) eqn:E.
    + eexists. split; [reflexivity |]. simpl. lia.
    + simpl in H. destruct (IH (n + 1) H) as (t & Ht & Hid).
      exists t. split; [exact Ht |]. rewrite Hid. lia.
Qed.

Lemma position_app_present k a b :
  mem_key k a = true -> position k (a ++ b) = position k a.
Proof.
  induction a as [| x a IH]; simpl; intro H.
  - discriminate.
  - destruct (key_eqb k x); [reflexivity |]. simpl in H. now rewrite IH.
Qed.

Lemma position_app_absent k a b :
  mem_key k a = false -> position k (a ++ k :: b) = List.length a.
Proof.
  induction a as [| x a IH]; simpl; intro H.
  - now rewrite key_eqb_refl.
  - apply orb_false_iff in H. destruct H as [H1 H2]. rewrite H1. now rewrite IH.
Qed.

Lemma filter_filter {A} (p q : A -> bool) l :
  filter p (filter q l) = filter (fun x => q x && p x) l.
Proof.
  induction l as [| x l IH]; simpl; [reflexivity |].
  destruct (q x); simpl; [destruct (p x) |]; now rewrite IH.
Qed.

Lemma mem_key_app k a b : mem_key k (a ++ b) = mem_key k a || mem_key k b.
Proof. apply existsb_app. Qed.

(** From a registry holding the teams [base] numbered from 1, a sequence
    of calls returns, for each call, the number of its key among [base]
    followed by the first sightings that are not in [base]. *)
Lemma resolve_all_from calls :
  forall base w,
    Forall (fun c => is_hashable (fst c) = true) calls ->
    teams_dict (wreg w) = number_from 1 base ->
    team_id_counter (wreg w) = 1 + Z.of_nat (List.length base) ->
    let fresh := filter (fun c => negb (mem_key (call_key c) (keys_of base)))
                        (first_sightings call_key calls) in
    resolve_all calls w =
      (Ret (map (fun c => 1 + Z.of_nat (position (call_key c)
                                          (keys_of (base ++ fresh)))) calls),
       {| wreg := {| teams_dict := number_from 1 (base ++ fresh);
                     team_id_counter := 1 + Z.of_nat (List.length (base ++ fresh)) |};
          wfiles := wfiles w |}).
Proof.
  induction calls as [| [nm api] calls IH]; intros base w Hh Hd Hc; cbn zeta.
  - cbn [resolve_all first_sightings filter map].
    rewrite app_nil_r, <- Hd, <- Hc.
    destruct w as [[d c] fs]. reflexivity.
  - inversion Hh as [| ? ? Hnm Hrest]; subst. simpl in Hnm.
    assert (Hk : hash_key nm = Ret (key_of nm))
      by (unfold hash_key; now rewrite Hnm).
    cbn [resolve_all first_sightings filter map].
    change (call_key (nm, api)) with (key_of nm).
    destruct (mem_key (key_of nm) (keys_of base)) eqn:Hmem; cbn [negb].
    + (* known team *)
      destruct (lookup_number_from_present _ _ 1 Hmem) as (t & Ht & Hid).
      rewrite <- Hd in Ht.
      unfold bind at 1. rewrite (get_or_create_known _ api _ _ _ Hk Ht).
      rewrite filter_filter.
      assert (Hf : filter (fun x => negb (key_eqb (call_key x) (key_of nm)) &&
                                    negb (mem_key (call_key x) (keys_of base)))
                          (first_sightings call_key calls)
                   = filter (fun c => negb (mem_key (call_key c) (keys_of base)))
                          (first_sightings call_key calls)).
      { apply filter_ext. intro c.
        destruct (key_eqb (call_key c) (key_of nm)) eqn:E; [| reflexivity].
        apply key_eqb_eq in E. rewrite E, Hmem. reflexivity. }
      rewrite Hf. unfold bind. rewrite (IH base w Hrest Hd Hc). unfold ret.
      f_equal. f_equal. f_equal. rewrite Hid.
      unfold keys_of at 2. rewrite map_app. now rewrite position_app_present.
    + (* first sighting *)
      pose proof (lookup_number_from_absent _ _ 1 Hmem) as Hn.
      rewrite <- Hd in Hn.
      unfold bind at 1. rewrite (get_or_create_new _ api _ _ Hk Hn).
      rewrite filter_filter.
      set (w1 := {| wreg := _; wfiles := wfiles w |}).
      assert (Hd1 : teams_dict (wreg w1) = number_from 1 (base ++ [(nm, api)])).
      { simpl. rewrite Hd, number_from_app. simpl. rewrite Hc. reflexivity. }
      assert (Hc1 : team_id_counter (wreg w1)
                    = 1 + Z.of_nat (List.length (base ++ [(nm, api)]))).
      { unfold w1. cbn [wreg team_id_counter].
        rewrite Hc, length_app. cbn [List.length]. lia. }
      unfold bind. rewrite (IH (base ++ [(nm, api)]) w1 Hrest Hd1 Hc1). unfold ret.
      assert (Hf : filter (fun c => negb (mem_key (call_key c)
                                            (keys_of (base ++ [(nm, api)]))))
                          (first_sightings call_key calls)
                   = filter (fun x => negb (key_eqb (call_key x) (key_of nm)) &&
                                      negb (mem_key (call_key x) (keys_of base)))
                          (first_sightings call_key calls)).
      { apply filter_ext. intro c. unfold keys_of. rewrite map_app, mem_key_app.
        simpl. change (call_key (nm, api)) with (key_of nm).
        rewrite orb_false_r, negb_orb. apply andb_comm. }
      rewrite Hf, <- app_assoc. simpl app.
      f_equal. f_equal. f_equal. rewrite Hc. f_equal. f_equal.
      unfold keys_of. rewrite map_app. simpl map.
      change (call_key (nm, api)) with (key_of nm).
      rewrite position_app_absent; [now rewrite length_map | exact Hmem].
Qed.

Lemma filter_true {A} (l : list A) : filter (fun _ => true) l = l.
Proof. induction l as [| x l IH]; simpl; [| rewrite IH]; reflexivity. Qed.

(** The same from the empty registry. *)
Lemma resolve_all_initial calls w :
  Forall (fun c => is_hashable (fst c) = true) calls ->
  wreg w = initial_registry ->
  let firsts := first_sightings call_key calls in
  resolve_all calls w =
    (Ret (map (fun c => 1 + Z.of_nat (position (call_key c) (keys_of firsts))) calls),
     {| wreg := {| teams_dict := number_from 1 firsts;
                   team_id_counter := 1 + Z.of_nat (List.length firsts) |};
        wfiles := wfiles w |}).
Proof.
  intros Hh Hw. cbn zeta.
  pose proof (resolve_all_from calls [] w Hh) as H. cbn zeta in H.
  rewrite Hw in H. specialize (H eq_refl eq_refl).
  simpl in H. rewrite filter_true in H. exact H.
Qed.

(** ** Files *)

Lemma read_file_head f rows fs : read_file f ((f, rows) :: fs) = Some rows.
Proof. simpl. now rewrite String.eqb_refl. Qed.

Lemma read_append_same f r fs rows :
  read_file f fs = Some rows ->
  read_file f (append_row f r fs) = Some (rows ++ [r]).
Proof.
  induction fs as [| [g rs] fs IH]; simpl; intro H; [discriminate |].
  destruct (String.eqb f g) eqn:E; simpl; rewrite E.
  - now inversion H.
  - now apply IH.
Qed.

Lemma read_append_other f g r fs :
  String.eqb f g = false ->
  read_file f (append_row g r fs) = read_file f fs.
Proof.
  intro Hfg. induction fs as [| [h rs] fs IH]; simpl; [reflexivity |].
  destruct (String.eqb g h) eqn:E; simpl.
  - apply String.eqb_eq in E. subst h. now rewrite Hfg.
  - now rewrite IH.
Qed.

Lemma read_remove_other f g fs :
  String.eqb f g = false ->
  read_file f (remove_file g fs) = read_file f fs.
Proof.
  intro Hfg. induction fs as [| [h rs] fs IH]; simpl; [reflexivity |].
  destruct (String.eqb g h) eqn:E; simpl.
  - apply String.eqb_eq in E. subst h. now rewrite Hfg.
  - now rewrite IH.
Qed.

(** A loop that only writes rows to [f] returns, and appends them. *)
Lemma write_loop {A} f (g : A -> row) l w :
  for_each (fun _ x => writerow f (g x)) l tt w =
    (Ret tt, {| wreg := wreg w;
                wfiles := fold_left (fun fs x => append_row f (g x) fs) l (wfiles w) |}).
Proof.
  revert w. induction l as [| x l IH]; intro w.
  - simpl. destruct w. reflexivity.
  - cbn [for_each fold_left]. unfold bind, writerow at 1. now rewrite IH.
Qed.

Lemma read_write_loop_same {A} f (g : A -> row) l fs rows :
  read_file f fs = Some rows ->
  read_file f (fold_left (fun fs x => append_row f (g x) fs) l fs)
    = Some (rows ++ map g l).
Proof.
  revert fs rows. induction l as [| x l IH]; intros fs rows H; simpl.
  - now rewrite app_nil_r.
  - rewrite (IH _ (rows ++ [g x])).
    + now rewrite <- app_assoc.
    + now apply read_append_same.
Qed.

Lemma read_write_loop_other {A} f f' (g : A -> row) l fs :
  String.eqb f' f = false ->
  read_file f' (fold_left (fun fs x => append_row f (g x) fs) l fs)
    = read_file f' fs.
Proof.
  intro Hf. revert fs. induction l as [| x l IH]; intro fs; simpl.
  - reflexivity.
  - rewrite IH. now apply read_append_other.
Qed.

(** ** The export of the registry *)

Lemma sorted_number_from l : forall n, sorted_by_id (number_from n l) = number_from n l.
Proof.
  induction l as [| c l IH]; intro n; [reflexivity |].
  cbn [number_from]. unfold sorted_by_id. cbn [fold_right].
  fold (sorted_by_id (number_from (n + 1) l)). rewrite IH.
  destruct l as [| c' l]; [reflexivity |].
  cbn [number_from insert_by_id snd t_id].
  replace (n <=? n + 1) with true by (symmetry; apply Z.leb_le; lia).
  reflexivity.
Qed.

Lemma rows_number_from l : forall n : nat,
  map (fun kt => team_row (snd kt)) (number_from (Z.of_nat n) l) =
  map (fun ic => [JNum (Z.of_nat (fst ic)); fst (snd ic); snd (snd ic)])
      (combine (seq n (List.length l)) l).
Proof.
  induction l as [| c l IH]; intro n; [reflexivity |].
  cbn [number_from List.length seq combine map].
  replace (Z.of_nat n + 1) with (Z.of_nat (S n)) by lia.
  now rewrite IH.
Qed.

Lemma save_teams_table_spec ts w :
  let f := "teams_" +++ ts +++ ".csv" in
  exists w',
    save_teams_table ts w = (Ret f, w') /\
    wreg w' = wreg w /\
    read_file f (wfiles w') =
      Some (teams_header ::
            map (fun kt => team_row (snd kt)) (sorted_by_id (teams_dict (wreg w)))).
Proof.
  cbn zeta. unfold save_teams_table.
  unfold bind at 1, open_w at 1. unfold bind at 1, writerow at 1.
  unfold bind at 1, get_registry at 1. cbn [wreg wfiles].
  unfold bind at 1. rewrite write_loop. unfold ret. cbn [wreg wfiles].
  eexists. split; [reflexivity |]. split; [reflexivity |]. cbn [wfiles].
  rewrite (read_write_loop_same _ _ _ _ [teams_header]); [reflexivity |].
  cbn [append_row]. rewrite String.eqb_refl. apply read_file_head.
Qed.

(** ** The loop over the matches *)

Lemma goal_row_rel_le r r' mg rw :
  registry_le r r' -> goal_row_rel r mg rw -> goal_row_rel r' mg rw.
Proof.
  intros Hle (hn & an & hid & aid & gn & sc & gid & mid & sname & minute & score
              & H1 & H2 & H3 & H4 & H5 & H6 & H7 & H8 & H9).
  exists hn, an, hid, aid, gn, sc, gid, mid, sname, minute, score.
  repeat split; eauto using registry_id_le.
Qed.

Lemma match_row_rel_le r r' m rw :
  registry_le r r' -> match_row_rel r m rw -> match_row_rel r' m rw.
Proof.
  intros Hle (hn & an & hid & aid & mid & md & date & hs & aws & st
              & H1 & H2 & H3 & H4 & H5 & H6 & H7 & H8 & H9).
  exists hn, an, hid, aid, mid, md, date, hs, aws, st.
  repeat split; eauto using registry_id_le.
Qed.

Lemma count_from_1_S n :
  count_from_1 (S n) = count_from_1 n ++ [JNum (1 + Z.of_nat n)].
Proof.
  unfold count_from_1. rewrite seq_S, map_app. cbn [map].
  do 3 f_equal. lia.
Qed.

Lemma gids_ok_append s rest :
  gids_ok s ->
  gids_ok {| matches_data := matches_data s;
             goals_data := goals_data s ++ [JNum (goal_id s) :: rest];
             goal_id := goal_id s + 1 |}.
Proof.
  intros [H1 H2]. unfold gids_ok. cbn [goals_data goal_id].
  rewrite map_app, length_app, H1. cbn [map List.length cell nth].
  rewrite Nat.add_1_r, count_from_1_S, H2. split; [reflexivity | lia].
Qed.

(** One goal event: the world is untouched and one row is appended. *)
Lemma goal_body_ret m mid hid aid s g s' w w' :
  goal_body m mid hid aid s g w = (Ret s', w') ->
  w' = w /\
  matches_data s' = matches_data s /\
  (gids_ok s -> gids_ok s') /\
  exists gn hn sc sname minute score,
    goal_team_name g = Ret gn /\
    home_name m = Ret hn /\
    Py.get g "scorer" JNull = Ret sc /\
    sname = (if Py.truthy sc
             then match sc with
                  | JObj f => match Py.dict_lookup "name" f with
                              | Some x => x
                              | None => JStr "Unknown"
                              end
                  | _ => JNull
                  end
             else JStr "Unknown") /\
    (Py.truthy sc = true -> exists f, sc = JObj f) /\
    goals_data s' = goals_data s ++
      [[JNum (goal_id s); mid; JNum (if Py.eq gn hn then hid else aid);
        sname; minute; score]].
Proof.
  intro H. unfold goal_body in H.
  step H. step H. step H. step H. step H.
  apply bind_ret_inv in H. destruct H as (sname & w1 & Hs & H).
  step H. step H. apply ret_inv in H. destruct H as [Hs' Hw]. subst s' w'.
  assert (Hsn : w1 = w /\
                sname = (if Py.truthy v3
                         then match v3 with
                              | JObj f => match Py.dict_lookup "name" f with
                                          | Some x => x
                                          | None => JStr "Unknown"
                                          end
                              | _ => JNull
                              end
                         else JStr "Unknown") /\
                (Py.truthy v3 = true -> exists f, v3 = JObj f)).
  { destruct (Py.truthy v3) eqn:Ht.
    - step Hs. apply lift_ret_inv in Hs. destruct Hs as [Hs ?]. subst w1.
      destruct g as [| | | | | gf]; try discriminate E.
      simpl in E3, E6. inversion E3; subst v3. inversion E6; subst v6.
      destruct (Py.dict_lookup "scorer" gf) as [x |] eqn:Hx.
      + destruct x as [| | | | | f]; try discriminate Hs.
        simpl in Hs. inversion Hs. split; [reflexivity |].
        split; [reflexivity |]. intros _. now exists f.
      + discriminate Ht.
    - apply ret_inv in Hs. destruct Hs; subst.
      split; [reflexivity |]. split; [reflexivity |]. discriminate. }
  destruct Hsn as (-> & Hsn & Hobj).
  split; [reflexivity |]. split; [reflexivity |].
  split; [apply gids_ok_append |].
  exists v0, v2, v3, sname, v4, v5.
  unfold goal_team_name, home_name. rewrite E, E1. cbn [obind].
  repeat split; assumption.
Qed.

(** The inner loop over the goal events of one match. *)
Lemma goal_loop_ret m mid hid aid goals s s' w w' :
  for_each (goal_body m mid hid aid) goals s w = (Ret s', w') ->
  w' = w /\
  matches_data s' = matches_data s /\
  (gids_ok s -> gids_ok s') /\
  exists rows,
    goals_data s' = goals_data s ++ rows /\
    forall r hn an,
      home_name m = Ret hn -> away_name m = Ret an ->
      registry_id r hn = Some hid -> registry_id r an = Some aid ->
      Forall2 (fun g rw => goal_row_rel r (m, g) rw) goals rows.
Proof.
  intro H.
  pose (I := fun (pre : list json) (t : match_loop) (u : world) =>
    u = w /\ matches_data t = matches_data s /\ (gids_ok s -> gids_ok t) /\
    exists rows,
      goals_data t = goals_data s ++ rows /\
      forall r hn an,
        home_name m = Ret hn -> away_name m = Ret an ->
        registry_id r hn = Some hid -> registry_id r an = Some aid ->
        Forall2 (fun g rw => goal_row_rel r (m, g) rw) pre rows).
  apply (for_each_prefix (goal_body m mid hid aid) I) with (pre := []) in H.
  - exact H.
  - clear H. intros pre g t u t' u' (-> & Hm & Hg & rows & Hd & HF) Hb.
    apply goal_body_ret in Hb.
    destruct Hb as (-> & Hm' & Hg' & gn & hn0 & sc & sname & minute & score
                    & G1 & G2 & G3 & G4 & G5 & G6).
    split; [reflexivity |]. split; [congruence |]. split; [auto |].
    eexists. split.
    + rewrite G6, Hd, <- app_assoc. reflexivity.
    + intros r hn an Hh Ha Rh Ra. apply Forall2_app; [eauto |].
      constructor; [| constructor].
      exists hn, an, hid, aid, gn, sc, (goal_id t), mid, sname, minute, score.
      cbn [fst snd]. assert (hn0 = hn) by congruence. subst hn0.
      repeat split; assumption.
  - split; [reflexivity |]. split; [reflexivity |]. split; [auto |].
    exists []. split; [now rewrite app_nil_r | intros; constructor].
Qed.

Lemma contains_and_truthy k v w b w' :
  contains_and k v (fun g => Ret (Py.truthy g)) w = (Ret b, w') ->
  w' = w /\
  match Py.contains k v, Py.getitem v k with
  | Ret true, Ret g => b = Py.truthy g
  | Ret true, Raise _ => False
  | Ret false, _ => b = false
  | Raise _, _ => False
  end.
Proof.
  unfold contains_and. intro H. step H. rewrite E.
  destruct v0.
  - step H. apply lift_ret_inv in H. destruct H as [H ->].
    rewrite E0. inversion H. split; reflexivity.
  - apply ret_inv in H. destruct H as [-> ->]. split; reflexivity.
Qed.

Lemma Forall2_map_pair {A B C} (R : A * B -> C -> Prop) (a : A) (l : list B) rows :
  Forall2 (fun b rw => R (a, b) rw) l rows -> Forall2 R (map (pair a) l) rows.
Proof. induction 1; simpl; constructor; auto. Qed.

(** One match: one match row, and one goal row per goal event. *)
Lemma match_body_ret s m s' w w' :
  match_body s m w = (Ret s', w') ->
  wfiles w' = wfiles w /\
  registry_le (wreg w) (wreg w') /\
  (gids_ok s -> gids_ok s') /\
  (exists mrow,
      matches_data s' = matches_data s ++ [mrow] /\
      match_row_rel (wreg w') m mrow) /\
  (exists grows,
      goals_data s' = goals_data s ++ grows /\
      Forall2 (goal_row_rel (wreg w')) (map (pair m) (goals_of m)) grows).
Proof.
  intro H. unfold match_body in H.
  step H. step H. step H. step H.
  apply bind_ret_inv in H. destruct H as (hid & w1 & Hhome & H).
  step H. step H. step H. step H.
  apply bind_ret_inv in H. destruct H as (aid & w2 & Haway & H).
  do 10 step H.
  apply bind_ret_inv in H. destruct H as (has & w3 & Hhas & H).
  apply contains_and_truthy in Hhas. destruct Hhas as [-> Hhas].
  apply get_or_create_ret in Hhome. destruct Hhome as (_ & Hf1 & Hle1 & Hid1).
  apply get_or_create_ret in Haway. destruct Haway as (_ & Hf2 & Hle2 & Hid2).
  assert (Hhn : home_name m = Ret v0)
    by (unfold home_name; rewrite E; exact E0).
  assert (Han : away_name m = Ret v4)
    by (unfold away_name; rewrite E3; exact E4).
  assert (Hrow : match_row_rel (wreg w2) m
            [v7; v14; v15; JNum hid; JNum aid; or_empty v10; or_empty v13; v16]).
  { exists v0, v4, hid, aid, v7, v14, v15, v10, v13, v16.
    assert (v11 = v8) by congruence. subst v11.
    assert (v12 = v9) by congruence. subst v12.
    unfold full_time. rewrite E8. cbn [obind]. rewrite E9. cbn [obind].
    repeat split; eauto using registry_id_le. }
  destruct has.
  - step H. step H.
    apply goal_loop_ret in H.
    destruct H as (-> & Hm & Hg & rows & Hd & HF).
    cbn [matches_data goals_data goal_id] in *.
    split; [congruence |]. split; [eauto using registry_le_trans |].
    split.
    { intro Hs. apply Hg. destruct Hs as [G1 G2]. split; assumption. }
    split; [exists [v7; v14; v15; JNum hid; JNum aid; or_empty v10; or_empty v13; v16];
            split; assumption |].
    exists rows. split; [exact Hd |].
    apply Forall2_map_pair.
    assert (Hgo : goals_of m = v18).
    { unfold goals_of. destruct (Py.contains "goals" m) as [[|] |]; try contradiction;
        try discriminate Hhas.
      rewrite E17 in *. rewrite <- Hhas, E18. reflexivity. }
    rewrite Hgo. apply (HF (wreg w2) v0 v4); eauto using registry_id_le.
  - apply ret_inv in H. destruct H as [-> ->].
    cbn [matches_data goals_data goal_id].
    split; [congruence |]. split; [eauto using registry_le_trans |].
    split.
    { intros [G1 G2]. split; assumption. }
    split; [exists [v7; v14; v15; JNum hid; JNum aid; or_empty v10; or_empty v13; v16];
            split; [reflexivity | assumption] |].
    exists []. split; [now rewrite app_nil_r |].
    assert (Hgo : goals_of m = []).
    { unfold goals_of. destruct (Py.contains "goals" m) as [[|] |]; try reflexivity.
      destruct (Py.getitem m "goals"); [| reflexivity].
      now rewrite <- Hhas. }
    rewrite Hgo. constructor.
Qed.

Lemma goal_events_app a b : goal_events (a ++ b) = goal_events a ++ goal_events b.
Proof. apply flat_map_app. Qed.

(** The whole loop, from its initial variables. *)
Lemma match_loop_ret matches w s w' :
  for_each match_body matches loop_start w = (Ret s, w') ->
  wfiles w' = wfiles w /\
  registry_le (wreg w) (wreg w') /\
  Forall2 (match_row_rel (wreg w')) matches (matches_data s) /\
  Forall2 (goal_row_rel (wreg w')) (goal_events matches) (goals_data s) /\
  gids_ok s.
Proof.
  intro H.
  pose (I := fun (pre : list json) (t : match_loop) (u : world) =>
    wfiles u = wfiles w /\
    registry_le (wreg w) (wreg u) /\
    Forall2 (match_row_rel (wreg u)) pre (matches_data t) /\
    Forall2 (goal_row_rel (wreg u)) (goal_events pre) (goals_data t) /\
    gids_ok t).
  apply (for_each_prefix match_body I) with (pre := []) in H.
  - exact H.
  - clear H. intros pre m t u t' u' (Hf & Hle & Hm & Hg & Hok) Hb.
    apply match_body_ret in Hb.
    destruct Hb as (Hf' & Hle' & Hok' & (mrow & Hmd & Hmr) & (grows & Hgd & Hgr)).
    split; [congruence |]. split; [eauto using registry_le_trans |].
    split.
    { rewrite Hmd. apply Forall2_app.
      - eapply Forall2_impl; [| exact Hm]. intros; eapply match_row_rel_le; eauto.
      - constructor; [assumption | constructor]. }
    split; [| auto].
    rewrite Hgd, goal_events_app. apply Forall2_app.
    + eapply Forall2_impl; [| exact Hg]. intros; eapply goal_row_rel_le; eauto.
    + cbn [goal_events flat_map]. now rewrite app_nil_r.
  - split; [reflexivity |]. split; [apply registry_le_refl |].
    split; [constructor |]. split; [constructor |].
    split; reflexivity.
Qed.

(** ** Stage boundaries *)

Lemma try_except_ret_inv {A} (body : M A) (h v : A) w w' :
  try_except body h w = (Ret v, w') ->
  body w = (Ret v, w') \/
  (exists e, body w = (Raise e, w') /\ is_Exception e = true /\ v = h).
Proof.
  unfold try_except. destruct (body w) as [[a | e] w1]; intro H.
  - left. exact H.
  - destruct (is_Exception e) eqn:E; [| discriminate H].
    inversion H; subst. right. exists e. repeat split; assumption.
Qed.

Lemma writerows_spec f rs w :
  writerows f rs w =
    (Ret tt, {| wreg := wreg w;
                wfiles := fold_left (fun fs r => append_row f r fs) rs (wfiles w) |}).
Proof. exact (write_loop f (fun r => r) rs w). Qed.

Lemma read_writerows_same f rs fs rows :
  read_file f fs = Some rows ->
  read_file f (fold_left (fun fs r => append_row f r fs) rs fs) = Some (rows ++ rs).
Proof.
  intro H. rewrite (read_write_loop_same f (fun r => r) rs fs rows H).
  now rewrite map_id.
Qed.

Lemma read_writerows_other f f' rs fs :
  String.eqb f' f = false ->
  read_file f' (fold_left (fun fs r => append_row f r fs) rs fs) = read_file f' fs.
Proof. exact (read_write_loop_other f f' (fun r => r) rs fs). Qed.

(** A run of the stage that returns two filenames. *)
Lemma fetch_matches_ret ts resp w mf gf w' :
  fetch_champions_league_matches ts resp w = (Ret (Some (Some mf, Some gf)), w') ->
  exists matches mrows grows,
    matches_of resp matches /\
    mf = "matches_" +++ ts +++ ".csv" /\
    gf = "goals_" +++ ts +++ ".csv" /\
    registry_le (wreg w) (wreg w') /\
    read_file mf (wfiles w') = Some (matches_header :: mrows) /\
    read_file gf (wfiles w') = Some (goals_header :: grows) /\
    Forall2 (match_row_rel (wreg w')) matches mrows /\
    Forall2 (goal_row_rel (wreg w')) (goal_events matches) grows /\
    map (cell 0) grows = count_from_1 (List.length grows).
Proof.
  intro H. unfold fetch_champions_league_matches in H.
  apply try_except_ret_inv in H.
  destruct H as [H | (e & _ & _ & Habs)]; [| discriminate Habs].
  unfold matches_try in H.
  apply bind_ret_inv in H. destruct H as (data & w0 & Hdata & H).
  destruct resp as [e | | | d]; try discriminate Hdata.
  cbn [fetch_json] in Hdata. apply ret_inv in Hdata. destruct Hdata as [-> ->].
  step H. destruct v; [| apply ret_inv in H; destruct H; discriminate].
  step H. step H.
  apply bind_ret_inv in H. destruct H as (s & w1 & Hloop & H).
  apply match_loop_ret in Hloop.
  destruct Hloop as (Hf & Hle & Hm & Hg & Hok1 & Hok2).
  assert (Hne : String.eqb ("matches_" +++ ts +++ ".csv")
                           ("goals_" +++ ts +++ ".csv") = false) by reflexivity.
  cbv zeta in H.
  remember ("matches_" +++ ts +++ ".csv") as mfile eqn:Hmfile.
  remember ("goals_" +++ ts +++ ".csv") as gfile eqn:Hgfile.
  unfold bind at 1, open_w at 1 in H. unfold bind at 1, writerow at 1 in H.
  unfold bind at 1 in H. rewrite writerows_spec in H.
  unfold bind at 1, open_w at 1 in H. unfold bind at 1, writerow at 1 in H.
  unfold bind at 1 in H. rewrite writerows_spec in H.
  unfold ret in H. cbn [wreg wfiles] in H.
  injection H as Hmf Hgf Hw'. subst mf gf w'.
  exists v0, (matches_data s), (goals_data s).
  split; [exists d, v; repeat split; assumption |].
  split; [reflexivity |]. split; [reflexivity |]. split; [exact Hle |].
  cbn [wfiles wreg].
  split.
  { rewrite read_writerows_other by exact Hne.
    rewrite !String.eqb_refl. cbn [read_file]. rewrite Hne.
    rewrite read_remove_other by exact Hne.
    rewrite (read_writerows_same _ _ _ [matches_header]);
      [reflexivity | apply read_file_head]. }
  split.
  { rewrite !String.eqb_refl.
    rewrite (read_writerows_same _ _ _ [goals_header]);
      [reflexivity | apply read_file_head]. }
  repeat split; assumption.
Qed.

(** ** What a stage body can raise *)

Create HintDb raises.

Lemma roe_ret {A} (a : A) : raises_only_Exception (ret a).
Proof. intros w e w' H. discriminate H. Qed.

Lemma roe_raise {A} e : is_Exception e = true -> raises_only_Exception (@raise A e).
Proof. intros He w e' w' H. inversion H. now subst. Qed.

Lemma roe_lift {A} (o : outcome A) : outcome_ok o -> raises_only_Exception (lift o).
Proof.
  intros Ho w e w' H. unfold lift in H. inversion H; subst. exact Ho.
Qed.

Lemma roe_bind {A B} (c : M A) (k : A -> M B) :
  raises_only_Exception c -> (forall a, raises_only_Exception (k a)) ->
  raises_only_Exception (bind c k).
Proof.
  intros Hc Hk w e w' H. unfold bind in H.
  destruct (c w) as [[a | e0] w1] eqn:E.
  - eapply Hk; eassumption.
  - inversion H; subst. eapply Hc; eassumption.
Qed.

Lemma roe_for_each {A S} (body : S -> A -> M S) l :
  (forall s x, raises_only_Exception (body s x)) ->
  forall s, raises_only_Exception (for_each body l s).
Proof.
  intro Hb. induction l as [| x l IH]; intro s; simpl.
  - apply roe_ret.
  - apply roe_bind; [apply Hb | exact IH].
Qed.

Lemma roe_if {A} (b : bool) (c d : M A) :
  raises_only_Exception c -> raises_only_Exception d ->
  raises_only_Exception (if b then c else d).
Proof. destruct b; auto. Qed.

Lemma ok_contains k v : outcome_ok (Py.contains k v).
Proof. destruct v; simpl; trivial. Qed.

Lemma ok_getitem v k : outcome_ok (Py.getitem v k).
Proof. destruct v; simpl; trivial. destruct (Py.dict_lookup k fields); simpl; trivial. Qed.

Lemma ok_getitem0 v : outcome_ok (Py.getitem0 v).
Proof. destruct v as [| | | s | l |]; simpl; trivial; [destruct s | destruct l]; simpl; trivial. Qed.

Lemma ok_len v : outcome_ok (Py.len v).
Proof. destruct v; simpl; trivial. Qed.

Lemma ok_get v k d : outcome_ok (Py.get v k d).
Proof. destruct v; simpl; trivial. Qed.

Lemma ok_iter v : outcome_ok (Py.iter v).
Proof. destruct v; simpl; trivial. Qed.

Lemma ok_hash_key v : outcome_ok (hash_key v).
Proof. unfold hash_key. destruct (is_hashable v); simpl; trivial. Qed.

Lemma roe_get_registry : raises_only_Exception get_registry.
Proof. intros w e w' H. discriminate H. Qed.

Lemma roe_put_registry r : raises_only_Exception (put_registry r).
Proof. intros w e w' H. discriminate H. Qed.

Lemma roe_open_w f : raises_only_Exception (open_w f).
Proof. intros w e w' H. discriminate H. Qed.

Lemma roe_writerow f r : raises_only_Exception (writerow f r).
Proof. intros w e w' H. discriminate H. Qed.

Lemma roe_writerows f rs : raises_only_Exception (writerows f rs).
Proof. apply roe_for_each. intros _ r. apply roe_writerow. Qed.

#[local] Hint Resolve roe_ret roe_lift roe_get_registry roe_put_registry
  roe_open_w roe_writerow roe_writerows ok_contains ok_getitem ok_getitem0
  ok_len ok_get ok_iter ok_hash_key : raises.

(** Walk down a body: binds, branches, loops, then the leaves. *)
Ltac raises :=
  repeat first
    [ solve [auto with raises]
    | apply roe_raise; reflexivity
    | apply roe_for_each; intros
    | apply roe_if
    | apply roe_bind; [| intro] ].

Lemma roe_get_or_create n a : raises_only_Exception (get_or_create_team_id n a).
Proof.
  unfold get_or_create_team_id. raises.
  - destruct (teams_lookup _ _); raises.
  - destruct (teams_lookup _ _); raises.
Qed.

#[local] Hint Resolve roe_get_or_create : raises.

Lemma roe_contains_and k v p :
  (forall x, outcome_ok (p x)) -> raises_only_Exception (contains_and k v p).
Proof. intro Hp. unfold contains_and. raises. Qed.

Lemma roe_fetch_json resp :
  (forall e, resp = GetRaises e -> is_Exception e = true) ->
  raises_only_Exception (fetch_json resp).
Proof.
  intro H. destruct resp; simpl; raises. apply roe_raise. now apply H.
Qed.

Lemma roe_goal_body m mid hid aid s g :
  raises_only_Exception (goal_body m mid hid aid s g).
Proof. unfold goal_body. raises. Qed.

#[local] Hint Resolve roe_goal_body : raises.

Lemma roe_match_body s m : raises_only_Exception (match_body s m).
Proof.
  unfold match_body. raises.
  all: apply roe_lift; exact I.
Qed.

Lemma roe_standings_body f idx team : raises_only_Exception (standings_body f idx team).
Proof. unfold standings_body. raises. Qed.

Lemma roe_scorers_body f idx scorer : raises_only_Exception (scorers_body f idx scorer).
Proof. unfold scorers_body. raises. Qed.

#[local] Hint Resolve roe_match_body roe_standings_body roe_scorers_body : raises.

(** A guarded body that raises only [Exception]s always returns. *)
Lemma try_except_total {A} (body : M A) (h : A) w :
  raises_only_Exception body ->
  exists v w', try_except body h w = (Ret v, w').
Proof.
  intro Hb. unfold try_except. destruct (body w) as [[a | e] w1] eqn:E.
  - now exists a, w1.
  - rewrite (Hb _ _ _ E). now exists h, w1.
Qed.

(** An [Exception] raised under [try:] becomes the handler's value; the
    world stays as the exception left it. *)
Lemma try_except_caught {A} (body : M A) (h : A) w e w' :
  body w = (Raise e, w') -> is_Exception e = true ->
  try_except body h w = (Ret h, w').
Proof. intros Hb He. unfold try_except. now rewrite Hb, He. Qed.

(** A failed request: the handler's value, and the world as it was. *)
Lemma try_except_fetch_fails {A} resp (k : json -> M A) (h : A) w :
  (forall e, resp = GetRaises e -> is_Exception e = true) ->
  (forall data, resp <> Body data) ->
  try_except (bind (fetch_json resp) k) h w = (Ret h, w).
Proof.
  intros He Hb. unfold try_except, bind.
  destruct resp as [e | | | d]; simpl.
  - now rewrite (He e eq_refl).
  - reflexivity.
  - reflexivity.
  - now destruct (Hb d).
Qed.

(** The statements under [try:] of the three stages. *)
Lemma roe_standings_try ts resp :
  (forall e, resp = GetRaises e -> is_Exception e = true) ->
  raises_only_Exception (standings_try ts resp).
Proof.
  intro He. unfold standings_try.
  apply roe_bind; [now apply roe_fetch_json | intro data].
  apply roe_bind.
  - apply roe_contains_and. intro x. destruct x; simpl; trivial.
  - intro b. apply roe_if; [| apply roe_ret]. cbv zeta. raises.
Qed.

Lemma roe_matches_try ts resp :
  (forall e, resp = GetRaises e -> is_Exception e = true) ->
  raises_only_Exception (matches_try ts resp).
Proof.
  intro He. unfold matches_try.
  apply roe_bind; [now apply roe_fetch_json | intro data].
  apply roe_bind; [raises | intro b].
  apply roe_if; [| apply roe_ret]. cbv zeta.
  apply roe_bind; [raises | intro m].
  apply roe_bind; [raises | intro l].
  apply roe_bind; [raises | intro s]. raises.
Qed.

Lemma roe_scorers_try ts resp :
  (forall e, resp = GetRaises e -> is_Exception e = true) ->
  raises_only_Exception (scorers_try ts resp).
Proof.
  intro He. unfold scorers_try.
  apply roe_bind; [now apply roe_fetch_json | intro data].
  apply roe_bind; [raises | intro b].
  apply roe_if; [| apply roe_ret]. cbv zeta. raises.
Qed.

(** * The registry: [get_or_create_team_id] and [save_teams_table] *)

Lemma ids_number_from l : forall n : nat,
  map (fun kt => t_id (snd kt)) (number_from (Z.of_nat n) l) =
  map Z.of_nat (seq n (List.length l)).
Proof.
  induction l as [| c l IH]; intro n; [reflexivity |].
  cbn [number_from List.length seq map snd t_id].
  replace (Z.of_nat n + 1) with (Z.of_nat (S n)) by lia.
  now rewrite IH.
Qed.

(** C1. For every sequence of resolutions starting from the empty registry,
    the call for a name returns 1 plus the position of that name among the
    names in order of first sighting: the registry ends up holding the first
    sightings numbered 1, 2, 3, ..., and two calls with the same name return
    the same id. *)
Theorem ids_follow_first_sighting calls w :
  Forall (fun c => is_hashable (fst c) = true) calls ->
  wreg w = initial_registry ->
  exists ids w',
    resolve_all calls w = (Ret ids, w') /\
    ids = map (fun c => 1 + Z.of_nat (position (call_key c)
                          (keys_of (first_sightings call_key calls)))) calls /\
    teams_dict (wreg w') = number_from 1 (first_sightings call_key calls) /\
    map (fun kt => t_id (snd kt)) (teams_dict (wreg w')) =
      map Z.of_nat (seq 1 (List.length (first_sightings call_key calls))) /\
    (forall i j c c',
        nth_error calls i = Some c -> nth_error calls j = Some c' ->
        call_key c = call_key c' -> nth_error ids i = nth_error ids j).
Proof.
  intros Hh Hw. pose proof (resolve_all_initial calls w Hh Hw) as H.
  cbv zeta in H. eexists. eexists. split; [exact H |].
  split; [reflexivity |]. cbn [wreg teams_dict].
  split; [reflexivity |].
  split; [exact (ids_number_from _ 1%nat) |].
  intros i j c c' Hi Hj Hk.
  rewrite !nth_error_map, Hi, Hj. cbn [option_map]. now rewrite Hk.
Qed.

(** C8. Resolving a name the registry already holds returns the stored id
    and leaves the whole world as it was: the stored entry, the counter
    and the files; the [team_api_id] of the repeated call plays no part. *)
Theorem resolve_known_name_changes_nothing team_name team_api_id k t w :
  hash_key team_name = Ret k ->
  teams_lookup k (teams_dict (wreg w)) = Some t ->
  get_or_create_team_id team_name team_api_id w = (Ret (t_id t), w).
Proof. apply get_or_create_known. Qed.

(** C4. After any sequence of resolutions from the empty registry, the
    teams export writes the header and then exactly one row
    [synthetic id, name, api id] per registered team, in the order of the
    registry; that is the order of first sighting, the i-th row carrying
    id i and the name and api id of the i-th first sighting. *)
Theorem teams_export_in_first_sighting_order calls ts w :
  Forall (fun c => is_hashable (fst c) = true) calls ->
  wreg w = initial_registry ->
  exists ids w1 w2 rows,
    resolve_all calls w = (Ret ids, w1) /\
    save_teams_table ts w1 = (Ret ("teams_" +++ ts +++ ".csv"), w2) /\
    read_file ("teams_" +++ ts +++ ".csv") (wfiles w2) = Some (teams_header :: rows) /\
    rows = map (fun kt => team_row (snd kt)) (teams_dict (wreg w1)) /\
    rows = map (fun ic => [JNum (Z.of_nat (fst ic)); fst (snd ic); snd (snd ic)])
               (combine (seq 1 (List.length (first_sightings call_key calls)))
                        (first_sightings call_key calls)).
Proof.
  intros Hh Hw. pose proof (resolve_all_initial calls w Hh Hw) as H.
  cbv zeta in H.
  destruct (save_teams_table_spec ts
              {| wreg := {| teams_dict := number_from 1 (first_sightings call_key calls);
                            team_id_counter :=
                              1 + Z.of_nat (List.length (first_sightings call_key calls)) |};
                 wfiles := wfiles w |}) as (w2 & Hs & _ & Hr).
  eexists. eexists. exists w2. eexists.
  split; [exact H |]. split; [exact Hs |].
  cbn [wreg teams_dict] in *. rewrite sorted_number_from in Hr.
  split; [exact Hr |]. split; [reflexivity |].
  exact (rows_number_from _ 1%nat).
Qed.

(** * The stage boundaries: failures and missing data *)

(** C5. When the parsed matches response has no matches collection, the
    stage writes nothing and leaves the registry alone, but what it
    returns is a bare [None], not the pair [(None, None)]. *)
Theorem matches_without_collection_returns_bare_None ts data w :
  Py.contains "matches" data = Ret false ->
  fetch_champions_league_matches ts (Body data) w = (Ret None, w) /\
  fetch_champions_league_matches ts (Body data) w <> (Ret (Some (None, None)), w).
Proof.
  intro H.
  assert (E : fetch_champions_league_matches ts (Body data) w = (Ret None, w)).
  { unfold fetch_champions_league_matches, matches_try, try_except, bind, lift. simpl.
    rewrite H. reflexivity. }
  split; [exact E |]. rewrite E. discriminate.
Qed.

(** The caller unpacks the result into two names, so the run stops there
    with a [TypeError], before the scorers and the teams export. *)
Lemma main_stops_without_matches_collection ts1 ts2 ts3 ts4 r1 data r3 w :
  (forall e, r1 = GetRaises e -> is_Exception e = true) ->
  Py.contains "matches" data = Ret false ->
  exists w', main ts1 ts2 ts3 ts4 r1 (Body data) r3 w = (Raise TypeError, w').
Proof.
  intros H1 Hd.
  destruct (try_except_total (standings_try ts1 r1) None w (roe_standings_try ts1 r1 H1))
    as (v & w1 & Hs).
  fold (fetch_champions_league_standings ts1 r1) in Hs.
  assert (E : fetch_champions_league_matches ts2 (Body data) w1 = (Ret None, w1)).
  { unfold fetch_champions_league_matches, matches_try, try_except, bind, lift. simpl.
    rewrite Hd. reflexivity. }
  exists w1. unfold main. unfold bind at 1. rewrite Hs.
  unfold bind at 1. rewrite E. reflexivity.
Qed.

(** C6. Provided [requests.get] raises nothing but [Exception]s, in every
    stage an exception raised under [try:] (by the request, by the status
    check, by the JSON decoding or by a payload of the wrong shape) is
    caught: the stage returns its absent value, [None] for standings and
    scorers and the pair [(None, None)] for matches; so every stage
    returns normally whatever the response is; and when the request fails
    before a body is parsed, the registry and the files are untouched. *)
Theorem no_exception_leaves_a_stage ts resp :
  (forall e, resp = GetRaises e -> is_Exception e = true) ->
  (forall w e w',
      standings_try ts resp w = (Raise e, w') ->
      fetch_champions_league_standings ts resp w = (Ret None, w')) /\
  (forall w e w',
      matches_try ts resp w = (Raise e, w') ->
      fetch_champions_league_matches ts resp w = (Ret (Some (None, None)), w')) /\
  (forall w e w',
      scorers_try ts resp w = (Raise e, w') ->
      fetch_top_scorers ts resp w = (Ret None, w')) /\
  (forall w,
      (exists v w', fetch_champions_league_standings ts resp w = (Ret v, w')) /\
      (exists v w', fetch_champions_league_matches ts resp w = (Ret v, w')) /\
      (exists v w', fetch_top_scorers ts resp w = (Ret v, w'))) /\
  ((forall data, resp <> Body data) ->
   forall w,
     fetch_champions_league_standings ts resp w = (Ret None, w) /\
     fetch_champions_league_matches ts resp w = (Ret (Some (None, None)), w) /\
     fetch_top_scorers ts resp w = (Ret None, w)).
Proof.
  intro He.
  pose proof (roe_standings_try ts resp He) as R1.
  pose proof (roe_matches_try ts resp He) as R2.
  pose proof (roe_scorers_try ts resp He) as R3.
  split; [intros w e w' H; eapply try_except_caught; eauto |].
  split; [intros w e w' H; eapply try_except_caught; eauto |].
  split; [intros w e w' H; eapply try_except_caught; eauto |].
  split.
  - intro w. split; [| split]; apply try_except_total; assumption.
  - intros Hb w. split; [| split]; apply try_except_fetch_fails; assumption.
Qed.

(** C7. When the standings collection of the parsed response is present
    and empty, the statements under [try:] take the [else] branch: they
    return [None] without raising anything and without touching the files
    or the registry; so the stage returns [None], and not by way of its
    exception handler. *)
Theorem empty_standings_is_a_no_op ts data v w :
  Py.contains "standings" data = Ret true ->
  Py.getitem data "standings" = Ret v ->
  Py.len v = Ret 0 ->
  standings_try ts (Body data) w = (Ret None, w) /\
  fetch_champions_league_standings ts (Body data) w = (Ret None, w).
Proof.
  intros Hc Hg Hl.
  assert (E : standings_try ts (Body data) w = (Ret None, w)).
  { unfold standings_try, contains_and, bind, lift.
    simpl. rewrite Hc, Hg, Hl. reflexivity. }
  split; [exact E |].
  unfold fetch_champions_league_standings, try_except. now rewrite E.
Qed.

(** * The matches stage: the rows it writes *)

Lemma goal_row_scorer_cell r mg rw :
  goal_row_rel r mg rw ->
  cell 3 rw = match scorer_name_of (snd mg) with
              | Some x => x
              | None => JStr "Unknown"
              end.
Proof.
  intros (hn & an & hid & aid & gn & sc & gid & mid & sname & minute & score
          & _ & _ & _ & _ & _ & Hsc & Hsn & Hobj & ->).
  cbn [cell nth]. destruct (snd mg) as [| | | | | gf]; try discriminate Hsc.
  simpl in Hsc. inversion Hsc as [Hsc']. clear Hsc. cbn [scorer_name_of].
  destruct (Py.dict_lookup "scorer" gf) as [x |].
  - subst sc. destruct (Py.truthy x) eqn:Ht.
    + destruct (Hobj eq_refl) as (f & ->). subst sname. reflexivity.
    + subst sname. destruct x as [| | | | | sf]; try reflexivity.
      destruct sf; [reflexivity | discriminate Ht].
  - subst sc. simpl in Hsn. now subst sname.
Qed.

Lemma match_row_matchday_cell r m rw :
  match_row_rel r m rw ->
  cell 1 rw = match matchday_of m with
              | Some x => x
              | None => JStr "N/A"
              end.
Proof.
  intros (hn & an & hid & aid & mid & md & date & hs & aws & st
          & _ & _ & _ & _ & _ & Hmd & _ & _ & ->).
  cbn [cell nth]. destruct m as [| | | | | f]; try discriminate Hmd.
  simpl in Hmd. inversion Hmd. reflexivity.
Qed.

(** C2. In a run of the matches stage that writes its files, the goal ids
    in the goals file are 1, 2, ..., n in row order, where n is the total
    number of goal events of all matches of the payload: one counter for
    the whole run, whatever the number of goals of each match. *)
Theorem goal_ids_count_across_matches ts resp w mf gf w' :
  fetch_champions_league_matches ts resp w = (Ret (Some (Some mf, Some gf)), w') ->
  exists matches grows,
    matches_of resp matches /\
    read_file gf (wfiles w') = Some (goals_header :: grows) /\
    List.length grows = List.length (goal_events matches) /\
    map (cell 0) grows = count_from_1 (List.length grows).
Proof.
  intro H. apply fetch_matches_ret in H.
  destruct H as (matches & mrows & grows & Hm & _ & _ & _ & _ & Hg & _ & HF & Hid).
  exists matches, grows. repeat split; try assumption.
  symmetry. eapply Forall2_length. exact HF.
Qed.

(** C3. In a run of the matches stage that writes its files, the row of
    every goal event carries the home team's synthetic id when the
    goal's team name equals the match's home-team name, and the away
    team's synthetic id otherwise, whatever the away-team name is; when
    the two ids differ, the row carries the home id exactly when the names
    are equal. *)
Theorem goal_team_by_home_name_equality ts resp w mf gf w' :
  fetch_champions_league_matches ts resp w = (Ret (Some (Some mf, Some gf)), w') ->
  exists matches grows,
    matches_of resp matches /\
    read_file gf (wfiles w') = Some (goals_header :: grows) /\
    Forall2
      (fun mg rw =>
         exists hn an hid aid gn,
           home_name (fst mg) = Ret hn /\
           away_name (fst mg) = Ret an /\
           registry_id (wreg w') hn = Some hid /\
           registry_id (wreg w') an = Some aid /\
           goal_team_name (snd mg) = Ret gn /\
           (Py.eq gn hn = true -> cell 2 rw = JNum hid) /\
           (Py.eq gn hn = false -> cell 2 rw = JNum aid) /\
           (hid <> aid -> (cell 2 rw = JNum hid <-> Py.eq gn hn = true)))
      (goal_events matches) grows.
Proof.
  intro H. apply fetch_matches_ret in H.
  destruct H as (matches & mrows & grows & Hm & _ & _ & _ & _ & Hg & _ & HF & _).
  exists matches, grows. split; [exact Hm |]. split; [exact Hg |].
  eapply Forall2_impl; [| exact HF].
  intros mg rw (hn & an & hid & aid & gn & sc & gid & mid & sname & minute & score
                & H1 & H2 & H3 & H4 & H5 & _ & _ & _ & ->).
  exists hn, an, hid, aid, gn. cbn [cell nth].
  repeat (split; [assumption |]).
  destruct (Py.eq gn hn).
  - split; [reflexivity |]. split; [discriminate |].
    intros _. split; reflexivity.
  - split; [discriminate |]. split; [reflexivity |].
    intro Hne. split; [| discriminate].
    intro Hc. inversion Hc. congruence.
Qed.

(** The scorer name where the code supplies it: in a run of the matches
    stage that writes its files, the scorer name of a goal row is
    "Unknown" whenever the goal event has no scorer object holding a
    ['name'] key (no scorer, a null or empty scorer, or a scorer object
    without the key); the value stored under the key is passed on. *)
Theorem scorer_name_defaults_to_Unknown ts resp w mf gf w' :
  fetch_champions_league_matches ts resp w = (Ret (Some (Some mf, Some gf)), w') ->
  exists matches grows,
    matches_of resp matches /\
    read_file gf (wfiles w') = Some (goals_header :: grows) /\
    Forall2
      (fun mg rw =>
         (scorer_name_of (snd mg) = None -> cell 3 rw = JStr "Unknown") /\
         (forall x, scorer_name_of (snd mg) = Some x -> cell 3 rw = x))
      (goal_events matches) grows.
Proof.
  intro H. apply fetch_matches_ret in H.
  destruct H as (matches & mrows & grows & Hm & _ & _ & _ & _ & Hg & _ & HF & _).
  exists matches, grows. split; [exact Hm |]. split; [exact Hg |].
  eapply Forall2_impl; [| exact HF].
  intros mg rw Hrel. rewrite (goal_row_scorer_cell _ _ _ Hrel).
  split.
  - intros ->. reflexivity.
  - intros x ->. reflexivity.
Qed.

(** C10, as amended. In a run of the matches stage that writes its files,
    the match day of a match row is "N/A" whenever the match has no
    ['matchday'] key; a value stored under the key is written as it is, a
    null match day included; a null full-time score is written as the
    empty string. *)
Theorem match_day_defaults_to_NA ts resp w mf gf w' :
  fetch_champions_league_matches ts resp w = (Ret (Some (Some mf, Some gf)), w') ->
  exists matches mrows,
    matches_of resp matches /\
    read_file mf (wfiles w') = Some (matches_header :: mrows) /\
    Forall2
      (fun m rw =>
         (matchday_of m = None -> cell 1 rw = JStr "N/A") /\
         (forall x, matchday_of m = Some x -> cell 1 rw = x) /\
         (full_time m "home" = Ret JNull -> cell 5 rw = JStr "") /\
         (full_time m "away" = Ret JNull -> cell 6 rw = JStr ""))
      matches mrows.
Proof.
  intro H. apply fetch_matches_ret in H.
  destruct H as (matches & mrows & grows & Hm & _ & _ & _ & Hr & _ & HF & _ & _).
  exists matches, mrows. split; [exact Hm |]. split; [exact Hr |].
  eapply Forall2_impl; [| exact HF].
  intros m rw Hrel. rewrite (match_row_matchday_cell _ _ _ Hrel).
  split; [intros ->; reflexivity |]. split; [intros x ->; reflexivity |].
  destruct Hrel as (hn & an & hid & aid & mid & md & date & hs & aws & st
                    & _ & _ & _ & _ & _ & _ & Hh & Ha & ->).
  cbn [cell nth]. split; intro E.
  - rewrite E in Hh. inversion Hh. reflexivity.
  - rewrite E in Ha. inversion Ha. reflexivity.
Qed.

(** * Concrete runs *)

Example sample_run_files :
  sample_run =
    (Ret (Some (Some "matches_20260101_120000.csv", Some "goals_20260101_120000.csv")),
     sample_world) /\
  read_file "goals_20260101_120000.csv" (wfiles sample_world) =
    Some [goals_header;
          [JNum 1; JNum 101; JNum 1; JStr "Tadic"; JNum 10; JObj []];
          [JNum 2; JNum 101; JNum 2; JStr "Unknown"; JNum 55; JObj []];
          [JNum 3; JNum 101; JNum 1; JStr "Unknown"; JNum 80; JObj []];
          [JNum 4; JNum 103; JNum 1; JStr "Tadic"; JNum 33; JObj []]] /\
  read_file "matches_20260101_120000.csv" (wfiles sample_world) =
    Some [matches_header;
          [JNum 101; JNum 1; JStr "2026-01-01T20:00:00Z"; JNum 1; JNum 2;
           JNum 2; JNum 1; JStr "FINISHED"];
          [JNum 102; JStr "N/A"; JStr "2026-02-01T20:00:00Z"; JNum 2; JNum 3;
           JStr ""; JStr ""; JStr "TIMED"];
          [JNum 103; JNum 2; JStr "2026-01-08T20:00:00Z"; JNum 3; JNum 1;
           JNum 0; JNum 1; JStr "FINISHED"]].
Proof. repeat split; vm_compute; reflexivity. Qed.

(** A payload that breaks in the second match: nothing is written, the
    pair of [None]s is returned, and the teams of the first match stay in
    the registry. *)
Example broken_match_is_caught :
  fetch_champions_league_matches sample_ts (Body broken_payload) initial_world =
    (Ret (Some (None, None)),
     {| wreg := {| teams_dict :=
                     [(KStr "Ajax",
                       {| t_id := 1; t_name := JStr "Ajax"; t_api_id := JNum 678 |});
                      (KStr "FC Porto",
                       {| t_id := 2; t_name := JStr "FC Porto"; t_api_id := JNum 503 |})];
                   team_id_counter := 3 |};
        wfiles := [] |}).
Proof. vm_compute. reflexivity. Qed.

Lemma ids_follow_first_sighting_witness :
  exists ids w',
    resolve_all sample_calls initial_world = (Ret ids, w') /\
    ids = [1; 2; 1; 3; 4; 3; 2] /\
    map (fun kt => t_name (snd kt)) (teams_dict (wreg w')) =
      [JStr "Ajax"; JStr "FC Porto"; JNull; JStr "SL Benfica"].
Proof.
  destruct (ids_follow_first_sighting sample_calls initial_world)
    as (ids & w' & Hrun & Hids & Hdict & _).
  - unfold sample_calls. repeat constructor.
  - reflexivity.
  - exists ids, w'. split; [exact Hrun |]. split.
    + rewrite Hids. vm_compute. reflexivity.
    + rewrite Hdict. vm_compute. reflexivity.
Defined.

Lemma resolve_known_name_changes_nothing_witness :
  hash_key (JStr "Ajax") = Ret (KStr "Ajax") /\
  get_or_create_team_id (JStr "Ajax") (JNum 999) ajax_world = (Ret 1, ajax_world).
Proof.
  split; [reflexivity |].
  apply (resolve_known_name_changes_nothing (JStr "Ajax") (JNum 999) (KStr "Ajax")
           {| t_id := 1; t_name := JStr "Ajax"; t_api_id := JNum 678 |} ajax_world).
  - reflexivity.
  - reflexivity.
Defined.

Lemma teams_export_in_first_sighting_order_witness :
  exists ids w1 w2,
    resolve_all sample_calls initial_world = (Ret ids, w1) /\
    save_teams_table sample_ts w1 = (Ret "teams_20260101_120000.csv", w2) /\
    read_file "teams_20260101_120000.csv" (wfiles w2) =
      Some [teams_header;
            [JNum 1; JStr "Ajax"; JNum 678];
            [JNum 2; JStr "FC Porto"; JNum 503];
            [JNum 3; JNull; JNull];
            [JNum 4; JStr "SL Benfica"; JNum 1903]].
Proof.
  destruct (teams_export_in_first_sighting_order sample_calls sample_ts initial_world)
    as (ids & w1 & w2 & rows & Hrun & Hsave & Hread & _ & Hrows).
  - unfold sample_calls. repeat constructor.
  - reflexivity.
  - exists ids, w1, w2. split; [exact Hrun |]. split; [exact Hsave |].
    refine (eq_trans Hread _). rewrite Hrows. vm_compute. reflexivity.
Defined.

Lemma matches_without_collection_witness :
  Py.contains "matches" (JObj [("message", JStr "no data")]) = Ret false /\
  fetch_champions_league_matches sample_ts
    (Body (JObj [("message", JStr "no data")])) initial_world = (Ret None, initial_world).
Proof.
  split; [reflexivity |].
  apply (matches_without_collection_returns_bare_None sample_ts
           (JObj [("message", JStr "no data")]) initial_world).
  reflexivity.
Defined.

Lemma no_exception_leaves_a_stage_witness :
  fetch_champions_league_standings sample_ts (GetRaises RequestException) ajax_world
    = (Ret None, ajax_world) /\
  fetch_champions_league_matches sample_ts (GetRaises RequestException) ajax_world
    = (Ret (Some (None, None)), ajax_world) /\
  fetch_top_scorers sample_ts (GetRaises RequestException) ajax_world
    = (Ret None, ajax_world).
Proof.
  apply (no_exception_leaves_a_stage sample_ts (GetRaises RequestException)).
  - intros e H. inversion H. reflexivity.
  - intros data H. discriminate H.
Defined.

Lemma empty_standings_is_a_no_op_witness :
  standings_try sample_ts (Body (JObj [("standings", JArr [])])) ajax_world
    = (Ret None, ajax_world) /\
  fetch_champions_league_standings sample_ts
    (Body (JObj [("standings", JArr [])])) ajax_world = (Ret None, ajax_world).
Proof.
  apply (empty_standings_is_a_no_op sample_ts (JObj [("standings", JArr [])])
           (JArr []) ajax_world); reflexivity.
Defined.

Lemma goal_ids_count_across_matches_witness :
  exists matches grows,
    matches_of (Body sample_payload) matches /\
    read_file "goals_20260101_120000.csv" (wfiles sample_world)
      = Some (goals_header :: grows) /\
    List.length grows = List.length (goal_events matches) /\
    map (cell 0) grows = count_from_1 (List.length grows).
Proof.
  apply (goal_ids_count_across_matches sample_ts (Body sample_payload) initial_world
           "matches_20260101_120000.csv" "goals_20260101_120000.csv" sample_world).
  vm_compute. reflexivity.
Defined.

Lemma goal_team_by_home_name_equality_witness :
  sample_run =
    (Ret (Some (Some "matches_20260101_120000.csv", Some "goals_20260101_120000.csv")),
     sample_world) /\
  exists matches grows,
    matches_of (Body sample_payload) matches /\
    read_file "goals_20260101_120000.csv" (wfiles sample_world)
      = Some (goals_header :: grows) /\
    Forall2
      (fun mg rw =>
         exists hn an hid aid gn,
           home_name (fst mg) = Ret hn /\
           away_name (fst mg) = Ret an /\
           registry_id (wreg sample_world) hn = Some hid /\
           registry_id (wreg sample_world) an = Some aid /\
           goal_team_name (snd mg) = Ret gn /\
           (Py.eq gn hn = true -> cell 2 rw = JNum hid) /\
           (Py.eq gn hn = false -> cell 2 rw = JNum aid) /\
           (hid <> aid -> (cell 2 rw = JNum hid <-> Py.eq gn hn = true)))
      (goal_events matches) grows.
Proof.
  split; [vm_compute; reflexivity |].
  apply (goal_team_by_home_name_equality sample_ts (Body sample_payload) initial_world
           "matches_20260101_120000.csv" "goals_20260101_120000.csv" sample_world).
  vm_compute. reflexivity.
Defined.

Lemma scorer_name_defaults_to_Unknown_witness :
  sample_run =
    (Ret (Some (Some "matches_20260101_120000.csv", Some "goals_20260101_120000.csv")),
     sample_world) /\
  exists matches grows,
    matches_of (Body sample_payload) matches /\
    read_file "goals_20260101_120000.csv" (wfiles sample_world)
      = Some (goals_header :: grows) /\
    Forall2
      (fun mg rw =>
         (scorer_name_of (snd mg) = None -> cell 3 rw = JStr "Unknown") /\
         (forall x, scorer_name_of (snd mg) = Some x -> cell 3 rw = x))
      (goal_events matches) grows.
Proof.
  split; [vm_compute; reflexivity |].
  apply (scorer_name_defaults_to_Unknown sample_ts (Body sample_payload) initial_world
           "matches_20260101_120000.csv" "goals_20260101_120000.csv" sample_world).
  vm_compute. reflexivity.
Defined.

Lemma match_day_defaults_to_NA_witness :
  sample_run =
    (Ret (Some (Some "matches_20260101_120000.csv", Some "goals_20260101_120000.csv")),
     sample_world) /\
  exists matches mrows,
    matches_of (Body sample_payload) matches /\
    read_file "matches_20260101_120000.csv" (wfiles sample_world)
      = Some (matches_header :: mrows) /\
    Forall2
      (fun m rw =>
         (matchday_of m = None -> cell 1 rw = JStr "N/A") /\
         (forall x, matchday_of m = Some x -> cell 1 rw = x) /\
         (full_time m "home" = Ret JNull -> cell 5 rw = JStr "") /\
         (full_time m "away" = Ret JNull -> cell 6 rw = JStr ""))
      matches mrows.
Proof.
  split; [vm_compute; reflexivity |].
  apply (match_day_defaults_to_NA sample_ts (Body sample_payload) initial_world
           "matches_20260101_120000.csv" "goals_20260101_120000.csv" sample_world).
  vm_compute. reflexivity.
Defined.

(** C9. The default misses one case: for a goal event whose scorer object
    holds a null name the goal has no scorer name, yet the row carries
    [None], which [csv.writer] writes as an empty field, and not
    "Unknown" as it does for a null scorer, an empty scorer and a scorer
    object without the key. *)
Lemma null_scorer_name_is_not_Unknown :
  Py.get null_name_goal "scorer" JNull = Ret (JObj [("id", JNum 7); ("name", JNull)]) /\
  goal_events [one_match (JNum 1) [null_name_goal]]
    = [(one_match (JNum 1) [null_name_goal], null_name_goal)] /\
  exists w',
    fetch_champions_league_matches sample_ts (Body null_name_payload) initial_world =
      (Ret (Some (Some "matches_20260101_120000.csv", Some "goals_20260101_120000.csv")),
       w') /\
    read_file "goals_20260101_120000.csv" (wfiles w') =
      Some [goals_header; [JNum 1; JNum 201; JNum 1; JNull; JNum 10; JObj []]] /\
    cell 3 [JNum 1; JNum 201; JNum 1; JNull; JNum 10; JObj []] <> JStr "Unknown".
Proof.
  split; [reflexivity |]. split; [reflexivity |].
  eexists. split; [vm_compute; reflexivity |].
  split; [vm_compute; reflexivity |].
  cbn [cell nth]. discriminate.
Qed.

(** A match whose match day is null: the match has no match day value, and
    the row carries [None], which [csv.writer] writes as an empty field,
    not "N/A". *)
Lemma null_match_day_is_not_NA :
  Py.getitem (one_match JNull []) "matchday" = Ret JNull /\
  exists w',
    fetch_champions_league_matches sample_ts (Body null_matchday_payload) initial_world =
      (Ret (Some (Some "matches_20260101_120000.csv", Some "goals_20260101_120000.csv")),
       w') /\
    read_file "matches_20260101_120000.csv" (wfiles w') =
      Some [matches_header;
            [JNum 201; JNull; JStr "2026-03-01T20:00:00Z"; JNum 1; JNum 2;
             JNum 1; JNum 0; JStr "FINISHED"]] /\
    cell 1 [JNum 201; JNull; JStr "2026-03-01T20:00:00Z"; JNum 1; JNum 2;
            JNum 1; JNum 0; JStr "FINISHED"] <> JStr "N/A".
Proof.
  split; [reflexivity |].
  eexists. split; [vm_compute; reflexivity |].
  split; [vm_compute; reflexivity |].
  cbn [cell nth]. discriminate.
Qed.

(** * Whole-run properties: what every outcome of a stage preserves *)

Section Keeps.

Variable R : world -> world -> Prop.
Hypothesis R_refl : forall w, R w w.
Hypothesis R_trans : forall a b c, R a b -> R b c -> R a c.

Lemma keeps_pure {A} (c : M A) :
  (forall w, exists o, c w = (o, w)) -> keeps R c.
Proof.
  intros Hc w o w' H. destruct (Hc w) as (o' & E). rewrite E in H.
  inversion H; subst. apply R_refl.
Qed.

Lemma keeps_bind {A B} (c : M A) (k : A -> M B) :
  keeps R c -> (forall a, keeps R (k a)) -> keeps R (bind c k).
Proof.
  intros Hc Hk w o w' H. unfold bind in H.
  destruct (c w) as [[a | e] w1] eqn:E.
  - eapply R_trans; [eapply Hc; exact E | eapply Hk; exact H].
  - inversion H; subst. eapply Hc; exact E.
Qed.

Lemma keeps_for_each {A S} (body : S -> A -> M S) l :
  (forall s x, keeps R (body s x)) -> forall s, keeps R (for_each body l s).
Proof.
  intro Hb. induction l as [| x l IH]; intro s; simpl.
  - apply keeps_pure. intro w. now exists (Ret s).
  - apply keeps_bind; [apply Hb | exact IH].
Qed.

Lemma keeps_if {A} (b : bool) (c d : M A) :
  keeps R c -> keeps R d -> keeps R (if b then c else d).
Proof. destruct b; auto. Qed.

Lemma keeps_try_except {A} (body : M A) (h : A) :
  keeps R body -> keeps R (try_except body h).
Proof.
  intros Hb w o w' H. unfold try_except in H.
  destruct (body w) as [[a | e] w1] eqn:E.
  - inversion H; subst. eapply Hb; exact E.
  - destruct (is_Exception e); inversion H; subst; eapply Hb; exact E.
Qed.

End Keeps.

Lemma grows_refl fs w : grows fs w w.
Proof.
  split; [apply registry_le_refl |]. split; [auto | reflexivity].
Qed.

Lemma grows_trans fs a b c : grows fs a b -> grows fs b c -> grows fs a c.
Proof.
  intros (H1 & H2 & H3) (G1 & G2 & G3).
  split; [eauto using registry_le_trans |]. split; [auto |].
  intros f Hf. now rewrite G3, H3.
Qed.

Lemma grows_weaken fs fs' w w' :
  (forall f, In f fs -> In f fs') -> grows fs w w' -> grows fs' w w'.
Proof.
  intros Hsub (H1 & H2 & H3). split; [exact H1 |]. split; [exact H2 |].
  intros f Hf. apply H3. intro Hin. apply Hf, Hsub, Hin.
Qed.

Lemma grows_ret fs {A} (a : A) : keeps (grows fs) (ret a).
Proof. apply keeps_pure; [apply grows_refl |]. intro w. now exists (Ret a). Qed.

Lemma grows_raise fs {A} e : keeps (grows fs) (@raise A e).
Proof. apply keeps_pure; [apply grows_refl |]. intro w. now exists (Raise e). Qed.

Lemma grows_lift fs {A} (o : outcome A) : keeps (grows fs) (lift o).
Proof. apply keeps_pure; [apply grows_refl |]. intro w. now exists o. Qed.

Lemma grows_get_registry fs : keeps (grows fs) get_registry.
Proof. apply keeps_pure; [apply grows_refl |]. intro w. now exists (Ret (wreg w)). Qed.

Lemma grows_fetch_json fs resp : keeps (grows fs) (fetch_json resp).
Proof. destruct resp; simpl; auto using grows_ret, grows_raise. Qed.

Lemma read_open_other f f' fs :
  f' <> f -> read_file f' ((f, []) :: remove_file f fs) = read_file f' fs.
Proof.
  intro Hne. assert (E : String.eqb f' f = false) by now apply String.eqb_neq.
  simpl. rewrite E. now apply read_remove_other.
Qed.

Lemma grows_open_w fs f : In f fs -> keeps (grows fs) (open_w f).
Proof.
  intros Hin w o w' H. unfold open_w in H. inversion H; subst. clear H.
  split; [apply registry_le_refl |]. split; [auto |].
  intros f' Hf'. cbn [wfiles]. apply read_open_other. intro E. now subst.
Qed.

Lemma grows_writerow fs f r : In f fs -> keeps (grows fs) (writerow f r).
Proof.
  intros Hin w o w' H. unfold writerow in H. inversion H; subst. clear H.
  split; [apply registry_le_refl |]. split; [auto |].
  intros f' Hf'. cbn [wfiles]. apply read_append_other.
  apply String.eqb_neq. intro E. now subst.
Qed.

Lemma grows_writerows fs f rs : In f fs -> keeps (grows fs) (writerows f rs).
Proof.
  intro Hin. apply keeps_for_each; [apply grows_refl | apply grows_trans |].
  intros _ r. now apply grows_writerow.
Qed.

Lemma teams_lookup_none_not_in k d :
  teams_lookup k d = None -> ~ In k (map fst d).
Proof.
  induction d as [| [k' t] d IH]; simpl; intro H; [tauto |].
  destruct (key_eqb k k') eqn:E; [discriminate |].
  intros [Hk | Hin]; [| now apply IH].
  subst. now rewrite key_eqb_refl in E.
Qed.

Lemma NoDup_snoc {A} (l : list A) x : NoDup l -> ~ In x l -> NoDup (l ++ [x]).
Proof.
  intros Hl Hx. induction Hl as [| y l Hy Hl IH]; simpl.
  - constructor; [tauto | constructor].
  - constructor.
    + rewrite in_app_iff. simpl. intros [H | [H | []]]; [tauto |].
      subst. apply Hx. now left.
    + apply IH. intro H. apply Hx. now right.
Qed.

(** A first sighting keeps the registry well numbered. *)
Lemma well_numbered_insert r team_name team_api_id :
  is_hashable team_name = true ->
  teams_lookup (key_of team_name) (teams_dict r) = None ->
  well_numbered r ->
  well_numbered
    {| teams_dict := teams_dict r ++
         [(key_of team_name,
           {| t_id := team_id_counter r; t_name := team_name;
              t_api_id := team_api_id |})];
       team_id_counter := team_id_counter r + 1 |}.
Proof.
  intros Hh Hl (Hids & Hc & Hnd & Hk). unfold well_numbered. cbn [teams_dict team_id_counter].
  rewrite !map_app, length_app. cbn [map List.length fst snd t_id t_name].
  rewrite Nat.add_1_r, seq_S, map_app, Hids. cbn [map].
  split; [do 2 f_equal; rewrite Hc; lia |].
  split; [rewrite Hc; lia |].
  split; [apply NoDup_snoc; [exact Hnd | now apply teams_lookup_none_not_in] |].
  apply Forall_app. split; [exact Hk |]. constructor; [reflexivity | constructor].
Qed.

Lemma grows_get_or_create fs n a : keeps (grows fs) (get_or_create_team_id n a).
Proof.
  intros w o w' H.
  destruct (is_hashable n) eqn:Hh.
  - assert (Hk : hash_key n = Ret (key_of n)) by (unfold hash_key; now rewrite Hh).
    destruct (teams_lookup (key_of n) (teams_dict (wreg w))) as [t |] eqn:Hl.
    + rewrite (get_or_create_known _ a _ _ _ Hk Hl) in H. inversion H; subst.
      apply grows_refl.
    + rewrite (get_or_create_new _ a _ _ Hk Hl) in H. inversion H; subst. clear H.
      split; [| split].
      * intros k t Hkt. cbn [wreg teams_dict]. now apply teams_lookup_app_old.
      * cbn [wreg]. now apply well_numbered_insert.
      * reflexivity.
  - unfold get_or_create_team_id, bind, lift, hash_key in H. rewrite Hh in H.
    inversion H; subst. apply grows_refl.
Qed.

Create HintDb grows.

#[local] Hint Resolve grows_ret grows_raise grows_lift grows_get_registry
  grows_fetch_json grows_open_w grows_writerow grows_writerows
  grows_get_or_create in_eq in_cons : grows.

(** Walk down a body, leaves first. *)
Ltac grows_tac :=
  repeat first
    [ solve [auto with grows]
    | apply keeps_for_each; [apply grows_refl | apply grows_trans | intros]
    | apply keeps_if
    | apply keeps_try_except
    | apply keeps_bind; [apply grows_trans | | intro] ].

Lemma grows_goal_body fs m mid hid aid s g : keeps (grows fs) (goal_body m mid hid aid s g).
Proof. unfold goal_body. grows_tac. Qed.

#[local] Hint Resolve grows_goal_body : grows.

Lemma grows_match_body fs s m : keeps (grows fs) (match_body s m).
Proof. unfold match_body. grows_tac. Qed.

Lemma grows_standings_body fs f idx team :
  In f fs -> keeps (grows fs) (standings_body f idx team).
Proof. intro Hin. unfold standings_body. grows_tac. Qed.

Lemma grows_scorers_body fs f idx scorer :
  In f fs -> keeps (grows fs) (scorers_body f idx scorer).
Proof. intro Hin. unfold scorers_body. grows_tac. Qed.

#[local] Hint Resolve grows_match_body grows_standings_body grows_scorers_body : grows.

Lemma grows_standings ts resp :
  keeps (grows ["standings_" +++ ts +++ ".csv"])
        (fetch_champions_league_standings ts resp).
Proof.
  unfold fetch_champions_league_standings, standings_try, contains_and.
  cbv zeta. grows_tac.
Qed.

Lemma grows_matches ts resp :
  keeps (grows ["matches_" +++ ts +++ ".csv"; "goals_" +++ ts +++ ".csv"])
        (fetch_champions_league_matches ts resp).
Proof.
  unfold fetch_champions_league_matches, matches_try. cbv zeta. grows_tac.
Qed.

Lemma grows_scorers ts resp :
  keeps (grows ["scorers_" +++ ts +++ ".csv"]) (fetch_top_scorers ts resp).
Proof.
  unfold fetch_top_scorers, scorers_try. cbv zeta. grows_tac.
Qed.

Lemma grows_save_teams ts :
  keeps (grows ["teams_" +++ ts +++ ".csv"]) (save_teams_table ts).
Proof.
  unfold save_teams_table. cbv zeta. grows_tac.
Qed.

Lemma keeps_weaken fs fs' {A} (c : M A) :
  (forall f, In f fs -> In f fs') -> keeps (grows fs) c -> keeps (grows fs') c.
Proof.
  intros Hsub Hc w o w' H. eapply grows_weaken; [exact Hsub |]. eapply Hc; exact H.
Qed.

Lemma grows_main ts1 ts2 ts3 ts4 r1 r2 r3 :
  keeps (grows (main_files ts1 ts2 ts3 ts4)) (main ts1 ts2 ts3 ts4 r1 r2 r3).
Proof.
  unfold main.
  apply keeps_bind; [apply grows_trans | | intro v1].
  { eapply keeps_weaken; [| apply grows_standings].
    unfold main_files. simpl. tauto. }
  apply keeps_bind; [apply grows_trans | | intro v2].
  { eapply keeps_weaken; [| apply grows_matches].
    unfold main_files. simpl. tauto. }
  apply keeps_bind; [apply grows_trans | | intro v3].
  { destruct v2; simpl; auto with grows. }
  apply keeps_bind; [apply grows_trans | | intro v4].
  { eapply keeps_weaken; [| apply grows_scorers].
    unfold main_files. simpl. tauto. }
  apply keeps_bind; [apply grows_trans | | intro v5].
  { eapply keeps_weaken; [| apply grows_save_teams].
    unfold main_files. simpl. tauto. }
  apply grows_ret.
Qed.

Lemma initial_well_numbered : well_numbered initial_registry.
Proof.
  unfold well_numbered, initial_registry. simpl.
  repeat split; constructor.
Qed.

Lemma teams_lookup_In k d t : teams_lookup k d = Some t -> In (k, t) d.
Proof.
  induction d as [| [k' t'] d IH]; simpl; intro H; [discriminate |].
  destruct (key_eqb k k') eqn:E.
  - apply key_eqb_eq in E. inversion H; subst. now left.
  - right. now apply IH.
Qed.

Lemma NoDup_map_inj {A B} (f : A -> B) l x y :
  NoDup (map f l) -> In x l -> In y l -> f x = f y -> x = y.
Proof.
  induction l as [| z l IH]; simpl; intros Hnd Hx Hy Hf; [contradiction |].
  inversion Hnd as [| ? ? Hz Hl]; subst.
  destruct Hx as [-> | Hx], Hy as [-> | Hy]; auto.
  - exfalso. apply Hz. rewrite Hf. now apply in_map.
  - exfalso. apply Hz. rewrite <- Hf. now apply in_map.
Qed.

Lemma NoDup_map_of_inj {A B} (f : A -> B) l :
  (forall a b, f a = f b -> a = b) -> NoDup l -> NoDup (map f l).
Proof.
  intros Hf Hl. induction Hl as [| x l Hx Hl IH]; simpl; constructor; [| exact IH].
  intro Hin. apply in_map_iff in Hin. destruct Hin as (y & Hy & Hin).
  apply Hf in Hy. now subst.
Qed.

Lemma well_numbered_ids_NoDup r :
  well_numbered r -> NoDup (map (fun kt => t_id (snd kt)) (teams_dict r)).
Proof.
  intros (Hids & _). rewrite Hids.
  apply NoDup_map_of_inj; [| apply seq_NoDup].
  intros a b H. now apply Nat2Z.inj.
Qed.

Lemma well_numbered_unique r n1 n2 i :
  well_numbered r ->
  registry_id r n1 = Some i -> registry_id r n2 = Some i ->
  key_of n1 = key_of n2.
Proof.
  intros Hwn H1 H2. unfold registry_id in *.
  destruct (teams_lookup (key_of n1) (teams_dict r)) as [t1 |] eqn:E1; [| discriminate].
  destruct (teams_lookup (key_of n2) (teams_dict r)) as [t2 |] eqn:E2; [| discriminate].
  inversion H1; inversion H2; subst.
  apply teams_lookup_In in E1, E2.
  assert (E : (key_of n1, t1) = (key_of n2, t2)).
  { eapply (NoDup_map_inj (fun kt => t_id (snd kt)));
      [apply well_numbered_ids_NoDup | | |]; eauto. }
  now inversion E.
Qed.

Lemma well_numbered_range r n i :
  well_numbered r -> registry_id r n = Some i -> 1 <= i < team_id_counter r.
Proof.
  intros (Hids & Hc & _) H. unfold registry_id in H.
  destruct (teams_lookup (key_of n) (teams_dict r)) as [t |] eqn:E; [| discriminate].
  inversion H; subst. apply teams_lookup_In in E.
  apply (in_map (fun kt => t_id (snd kt))) in E. rewrite Hids in E.
  apply in_map_iff in E. destruct E as (m & Hm & Hin). apply in_seq in Hin.
  cbn [snd] in Hm. lia.
Qed.

(** X1. Whatever a stage, the export or the whole run does, and however
    it ends, an entry the registry held before is still there afterwards,
    with the same id, name and api id. *)
Theorem registry_entries_are_never_changed ts ts2 ts3 ts4 resp r2 r3 :
  (forall w o w', fetch_champions_league_standings ts resp w = (o, w') ->
                  registry_le (wreg w) (wreg w')) /\
  (forall w o w', fetch_champions_league_matches ts resp w = (o, w') ->
                  registry_le (wreg w) (wreg w')) /\
  (forall w o w', fetch_top_scorers ts resp w = (o, w') ->
                  registry_le (wreg w) (wreg w')) /\
  (forall w o w', save_teams_table ts w = (o, w') ->
                  registry_le (wreg w) (wreg w')) /\
  (forall w o w', main ts ts2 ts3 ts4 resp r2 r3 w = (o, w') ->
                  registry_le (wreg w) (wreg w')).
Proof.
  split; [intros w o w' H; exact (proj1 (grows_standings ts resp w o w' H)) |].
  split; [intros w o w' H; exact (proj1 (grows_matches ts resp w o w' H)) |].
  split; [intros w o w' H; exact (proj1 (grows_scorers ts resp w o w' H)) |].
  split; [intros w o w' H; exact (proj1 (grows_save_teams ts w o w' H)) |].
  intros w o w' H. exact (proj1 (grows_main ts ts2 ts3 ts4 resp r2 r3 w o w' H)).
Qed.

(** X2. A registry whose ids are 1..n in insertion order, with counter
    n + 1 and no key twice, is again such a registry after any stage and
    after the whole run, however they end. *)
Theorem stages_keep_the_registry_well_numbered ts ts2 ts3 ts4 resp r2 r3 w :
  well_numbered (wreg w) ->
  (forall o w', fetch_champions_league_standings ts resp w = (o, w') ->
                well_numbered (wreg w')) /\
  (forall o w', fetch_champions_league_matches ts resp w = (o, w') ->
                well_numbered (wreg w')) /\
  (forall o w', fetch_top_scorers ts resp w = (o, w') ->
                well_numbered (wreg w')) /\
  (forall o w', main ts ts2 ts3 ts4 resp r2 r3 w = (o, w') ->
                well_numbered (wreg w')).
Proof.
  intro Hwn.
  split; [intros o w' H; exact (proj1 (proj2 (grows_standings ts resp w o w' H)) Hwn) |].
  split; [intros o w' H; exact (proj1 (proj2 (grows_matches ts resp w o w' H)) Hwn) |].
  split; [intros o w' H; exact (proj1 (proj2 (grows_scorers ts resp w o w' H)) Hwn) |].
  intros o w' H.
  exact (proj1 (proj2 (grows_main ts ts2 ts3 ts4 resp r2 r3 w o w' H)) Hwn).
Qed.

(** X3. After a whole run from the empty registry, however it ends, two
    names that resolve to the same synthetic id are the same dictionary
    key, and every id lies between 1 and the counter. *)
Theorem run_gives_each_team_its_own_id ts1 ts2 ts3 ts4 r1 r2 r3 w o w' :
  wreg w = initial_registry ->
  main ts1 ts2 ts3 ts4 r1 r2 r3 w = (o, w') ->
  (forall n1 n2 i,
      registry_id (wreg w') n1 = Some i -> registry_id (wreg w') n2 = Some i ->
      key_of n1 = key_of n2) /\
  (forall n i, registry_id (wreg w') n = Some i ->
               1 <= i < team_id_counter (wreg w')).
Proof.
  intros Hw H.
  assert (Hwn : well_numbered (wreg w')).
  { apply (proj1 (proj2 (grows_main ts1 ts2 ts3 ts4 r1 r2 r3 w o w' H))).
    rewrite Hw. apply initial_well_numbered. }
  split.
  - intros n1 n2 i. now apply well_numbered_unique.
  - intros n i. now apply well_numbered_range.
Qed.

(** X4. A stage touches no file but its own: the standings stage only
    [standings_<ts>.csv], the matches stage only [matches_<ts>.csv] and
    [goals_<ts>.csv], the scorers stage only [scorers_<ts>.csv], the
    export only [teams_<ts>.csv]; every other file reads the same after
    as before, however the stage ends. *)
Theorem a_stage_writes_only_its_own_files ts resp f :
  (forall w o w',
      f <> "standings_" +++ ts +++ ".csv" ->
      fetch_champions_league_standings ts resp w = (o, w') ->
      read_file f (wfiles w') = read_file f (wfiles w)) /\
  (forall w o w',
      f <> "matches_" +++ ts +++ ".csv" -> f <> "goals_" +++ ts +++ ".csv" ->
      fetch_champions_league_matches ts resp w = (o, w') ->
      read_file f (wfiles w') = read_file f (wfiles w)) /\
  (forall w o w',
      f <> "scorers_" +++ ts +++ ".csv" ->
      fetch_top_scorers ts resp w = (o, w') ->
      read_file f (wfiles w') = read_file f (wfiles w)) /\
  (forall w o w',
      f <> "teams_" +++ ts +++ ".csv" ->
      save_teams_table ts w = (o, w') ->
      read_file f (wfiles w') = read_file f (wfiles w)).
Proof.
  split; [| split; [| split]].
  - intros w o w' Hf H.
    apply (proj2 (proj2 (grows_standings ts resp w o w' H))).
    simpl. intros [E | []]. now apply Hf.
  - intros w o w' Hf Hg H.
    apply (proj2 (proj2 (grows_matches ts resp w o w' H))).
    simpl. intros [E | [E | []]]; [now apply Hf | now apply Hg].
  - intros w o w' Hf H.
    apply (proj2 (proj2 (grows_scorers ts resp w o w' H))).
    simpl. intros [E | []]. now apply Hf.
  - intros w o w' Hf H.
    apply (proj2 (proj2 (grows_save_teams ts w o w' H))).
    simpl. intros [E | []]. now apply Hf.
Qed.

Section EndsOrKeeps.

Variable R : world -> world -> Prop.
Hypothesis R_trans : forall a b c, R a b -> R b c -> R a c.

Lemma ends_bind {A B} (Q : outcome B -> Prop) (c : M A) (k : A -> M B) :
  keeps R c -> (forall a, ends_in_or_keeps R Q (k a)) ->
  ends_in_or_keeps R Q (bind c k).
Proof.
  intros Hc Hk w o w' H. unfold bind in H.
  destruct (c w) as [[a | e] w1] eqn:E.
  - destruct (Hk a _ _ _ H) as [HQ | HR]; [now left | right].
    eapply R_trans; [eapply Hc; exact E | exact HR].
  - inversion H; subst. right. eapply Hc; exact E.
Qed.

End EndsOrKeeps.

(** X5. The matches stage opens its files only after the loop over the
    matches: when processing a match raises (a missing key, a team name
    that cannot be a dictionary key, a goal that is not an object), the
    stage returns the pair [(None, None)], no file has been touched,
    whatever its name, and the teams registered up to that point stay in
    the registry. *)
Theorem a_failing_match_leaves_no_file ts resp matches w e w1 :
  matches_of resp matches ->
  for_each match_body matches loop_start w = (Raise e, w1) ->
  fetch_champions_league_matches ts resp w = (Ret (Some (None, None)), w1) /\
  (forall f, read_file f (wfiles w1) = read_file f (wfiles w)) /\
  registry_le (wreg w) (wreg w1).
Proof.
  intros (data & m & -> & Hc & Hm & Hi) Hloop.
  assert (He : is_Exception e = true)
    by exact (roe_for_each match_body matches roe_match_body loop_start w e w1 Hloop).
  assert (Hg : grows [] w w1).
  { eapply (keeps_for_each (grows [])); [apply grows_refl | apply grows_trans | | exact Hloop].
    intros. apply grows_match_body. }
  destruct Hg as (Hle & _ & Hf).
  split; [| split; [| exact Hle]].
  - assert (E : matches_try ts (Body data) w = (Raise e, w1)).
    { unfold matches_try, bind, lift. cbn [fetch_json ret].
      rewrite Hc. cbv beta iota. rewrite Hm. cbv beta iota.
      rewrite Hi. cbv beta iota zeta.
      unfold loop_start in Hloop. rewrite Hloop. reflexivity. }
    unfold fetch_champions_league_matches, try_except. now rewrite E, He.
  - intro f. apply Hf. simpl. tauto.
Qed.

(** ** The export after a run *)

Lemma sorted_of_numbered l : forall m : nat,
  map (fun kt => t_id (snd kt)) l = map Z.of_nat (seq m (List.length l)) ->
  sorted_by_id l = l.
Proof.
  induction l as [| x l IH]; intros m H; [reflexivity |].
  cbn [List.length seq map] in H. inversion H as [[Hx Hl]].
  unfold sorted_by_id. cbn [fold_right]. fold (sorted_by_id l).
  rewrite (IH (S m) Hl).
  destruct l as [| y l]; [reflexivity |].
  cbn [List.length seq map] in Hl. inversion Hl as [[Hy Hl']].
  cbn [insert_by_id].
  assert (Hlt : (t_id (snd x) <=? t_id (snd y)) = true)
    by (apply Z.leb_le; rewrite Hx, Hy; lia).
  now rewrite Hlt.
Qed.

Lemma main_ret_inv ts1 ts2 ts3 ts4 r1 r2 r3 w tbl w' :
  main ts1 ts2 ts3 ts4 r1 r2 r3 w = (Ret tbl, w') ->
  exists w1 w2 w3,
    fetch_champions_league_standings ts1 r1 w = (Ret (standings_table tbl), w1) /\
    fetch_champions_league_matches ts2 r2 w1
      = (Ret (Some (matches_table tbl, goals_table tbl)), w2) /\
    fetch_top_scorers ts3 r3 w2 = (Ret (scorers_table tbl), w3) /\
    save_teams_table ts4 w3 = (Ret (teams_table tbl), w').
Proof.
  intro H. unfold main in H.
  apply bind_ret_inv in H. destruct H as (v1 & w1 & H1 & H).
  apply bind_ret_inv in H. destruct H as (v2 & w2 & H2 & H).
  apply bind_ret_inv in H. destruct H as (p & w2' & Hp & H).
  apply bind_ret_inv in H. destruct H as (v3 & w3 & H3 & H).
  apply bind_ret_inv in H. destruct H as (f & w4 & H4 & H).
  apply ret_inv in H. destruct H as [-> ->].
  destruct v2 as [q |]; [| discriminate Hp].
  simpl in Hp. apply ret_inv in Hp. destruct Hp as [-> ->].
  exists w1, w2, w3. cbn [standings_table matches_table goals_table
                          scorers_table teams_table].
  destruct q as [a b]. cbn [fst snd]. repeat split; assumption.
Qed.

(** X6. When a whole run from the empty registry ends with its tables, the
    teams file holds the header and then one row per team of the final
    registry, in insertion order, with ids 1, 2, ..., n: every team any of
    the three stages registered, and nothing else. *)
Theorem run_exports_every_registered_team ts1 ts2 ts3 ts4 r1 r2 r3 w tbl w' :
  wreg w = initial_registry ->
  main ts1 ts2 ts3 ts4 r1 r2 r3 w = (Ret tbl, w') ->
  teams_table tbl = "teams_" +++ ts4 +++ ".csv" /\
  read_file (teams_table tbl) (wfiles w') =
    Some (teams_header :: map (fun kt => team_row (snd kt)) (teams_dict (wreg w'))) /\
  map (fun kt => cell 0 (team_row (snd kt))) (teams_dict (wreg w'))
    = count_from_1 (List.length (teams_dict (wreg w'))).
Proof.
  intros Hw H.
  assert (Hwn : well_numbered (wreg w')).
  { apply (proj1 (proj2 (grows_main ts1 ts2 ts3 ts4 r1 r2 r3 w _ w' H))).
    rewrite Hw. apply initial_well_numbered. }
  apply main_ret_inv in H. destruct H as (w1 & w2 & w3 & _ & _ & _ & Hs).
  destruct (save_teams_table_spec ts4 w3) as (w4 & Hs' & Hreg & Hread).
  cbv zeta in Hs'. rewrite Hs in Hs'.
  assert (Hf : teams_table tbl = "teams_" +++ ts4 +++ ".csv") by congruence.
  assert (Hw4 : w4 = w') by congruence. subst w4.
  split; [exact Hf |]. rewrite Hf, Hread, <- Hreg.
  destruct Hwn as (Hids & _).
  rewrite (sorted_of_numbered _ 1%nat Hids).
  split; [reflexivity |].
  unfold count_from_1. rewrite <- map_map with (g := JNum) (f := Z.of_nat).
  rewrite <- Hids, map_map. reflexivity.
Qed.

(** * The standings and scorers stages: the rows they write *)

Lemma standing_row_rel_le r r' entry rw :
  registry_le r r' -> standing_row_rel r entry rw -> standing_row_rel r' entry rw.
Proof.
  intros Hle (n & tid & H1 & H2 & H3 & H4).
  exists n, tid. repeat split; eauto using registry_id_le.
Qed.

Lemma scorer_row_rel_le r r' scorer rw :
  registry_le r r' -> scorer_row_rel r scorer rw -> scorer_row_rel r' scorer rw.
Proof.
  intros Hle (n & tid & H1 & H2 & H3 & H4 & H5).
  exists n, tid. repeat split; eauto using registry_id_le.
Qed.

Lemma writerow_inv f r w o w' :
  writerow f r w = (o, w') ->
  o = Ret tt /\ wreg w' = wreg w /\ wfiles w' = append_row f r (wfiles w).
Proof. unfold writerow. intro H. inversion H. repeat split. Qed.

(** One entry of the table: one row appended to the file. *)
Lemma standings_body_ret f idx team idx' w w' :
  standings_body f idx team w = (Ret idx', w') ->
  idx' = idx + 1 /\
  registry_le (wreg w) (wreg w') /\
  exists rw,
    wfiles w' = append_row f rw (wfiles w) /\
    cell 0 rw = JNum idx /\
    standing_row_rel (wreg w') team rw.
Proof.
  intro H. unfold standings_body in H.
  do 4 step H.
  apply bind_ret_inv in H. destruct H as (tid & w1 & Hid & H).
  do 9 step H.
  apply bind_ret_inv in H. destruct H as (u & w2 & Hw & H).
  apply ret_inv in H. destruct H as [-> ->].
  apply writerow_inv in Hw. destruct Hw as (_ & Hr & Hf).
  apply get_or_create_ret in Hid. destruct Hid as (_ & Hf1 & Hle & Hreg).
  split; [reflexivity |]. split; [now rewrite Hr |].
  eexists. split; [rewrite Hf, Hf1; reflexivity |].
  split; [reflexivity |].
  exists v0, tid. rewrite Hr. unfold team_name_of. rewrite E. cbn [obind].
  split; [exact E0 |]. split; [exact Hreg |]. split; [reflexivity |].
  cbn [skipn map standings_keys].
  now rewrite E3, E4, E5, E6, E7, E8, E9, E10, E11.
Qed.

(** The loop over a table, on a file that holds its header and rows. *)
Lemma standings_loop_ret f entries w w' idx' rows0 :
  for_each (standings_body f) entries 1 w = (Ret idx', w') ->
  read_file f (wfiles w) = Some rows0 ->
  registry_le (wreg w) (wreg w') /\
  exists rows,
    read_file f (wfiles w') = Some (rows0 ++ rows) /\
    map (cell 0) rows = count_from_1 (List.length rows) /\
    Forall2 (standing_row_rel (wreg w')) entries rows.
Proof.
  intros H Hread.
  pose (I := fun (pre : list json) (idx : Z) (u : world) =>
    registry_le (wreg w) (wreg u) /\
    exists rows,
      idx = 1 + Z.of_nat (List.length rows) /\
      read_file f (wfiles u) = Some (rows0 ++ rows) /\
      map (cell 0) rows = count_from_1 (List.length rows) /\
      Forall2 (standing_row_rel (wreg u)) pre rows).
  apply (for_each_prefix (standings_body f) I) with (pre := []) in H.
  - destruct H as (Hle & rows & _ & H1 & H2 & H3).
    split; [exact Hle |]. now exists rows.
  - clear H. intros pre x idx u idx2 u' (Hle & rows & Hidx & Hr & Hc & HF) Hb.
    apply standings_body_ret in Hb.
    destruct Hb as (-> & Hle' & rw & Hf & Hc0 & Hrel).
    split; [eauto using registry_le_trans |].
    exists (rows ++ [rw]). rewrite length_app. cbn [List.length].
    split; [lia |]. split.
    { rewrite Hf, app_assoc. now apply read_append_same. }
    split.
    { rewrite map_app. cbn [map]. rewrite Hc, Hc0, Hidx, Nat.add_1_r.
      now rewrite count_from_1_S. }
    apply Forall2_app.
    + eapply Forall2_impl; [| exact HF]. intros; eapply standing_row_rel_le; eauto.
    + constructor; [exact Hrel | constructor].
  - split; [apply registry_le_refl |]. exists [].
    rewrite app_nil_r. repeat split; [exact Hread | constructor].
Qed.

Lemma contains_and_inv k v p w b w' :
  contains_and k v p w = (Ret b, w') ->
  w' = w /\
  ((Py.contains k v = Ret false /\ b = false) \/
   (Py.contains k v = Ret true /\
    exists x, Py.getitem v k = Ret x /\ p x = Ret b)).
Proof.
  unfold contains_and. intro H. step H. destruct v0.
  - step H. apply lift_ret_inv in H. destruct H as [H ->].
    split; [reflexivity |]. right. split; [exact E |]. now exists v0.
  - apply ret_inv in H. destruct H as [-> ->].
    split; [reflexivity |]. left. now split.
Qed.

(** A run of the standings stage that returns a file name. *)
Lemma fetch_standings_ret ts resp w f w' :
  fetch_champions_league_standings ts resp w = (Ret (Some f), w') ->
  exists entries rows,
    standings_table_of resp entries /\
    f = "standings_" +++ ts +++ ".csv" /\
    registry_le (wreg w) (wreg w') /\
    read_file f (wfiles w') = Some (standings_header :: rows) /\
    map (cell 0) rows = count_from_1 (List.length rows) /\
    Forall2 (standing_row_rel (wreg w')) entries rows.
Proof.
  intro H. unfold fetch_champions_league_standings in H.
  apply try_except_ret_inv in H.
  destruct H as [H | (e & _ & _ & Habs)]; [| discriminate Habs].
  unfold standings_try in H.
  apply bind_ret_inv in H. destruct H as (data & w0 & Hdata & H).
  destruct resp as [e | | | d]; try discriminate Hdata.
  cbn [fetch_json] in Hdata. apply ret_inv in Hdata. destruct Hdata as [-> ->].
  apply bind_ret_inv in H. destruct H as (ne & w0 & Hne & H).
  apply contains_and_inv in Hne. destruct Hne as [-> Hne].
  destruct ne; [| apply ret_inv in H; destruct H; discriminate].
  destruct Hne as [[_ Habs] | (Hc & x & Hx & _)]; [discriminate Habs |].
  do 3 step H. cbv zeta in H.
  remember ("standings_" +++ ts +++ ".csv") as file eqn:Hfile.
  unfold bind at 1, open_w at 1 in H. unfold bind at 1, writerow at 1 in H.
  cbn [wreg wfiles append_row] in H. rewrite String.eqb_refl in H.
  step H.
  apply bind_ret_inv in H. destruct H as (idx' & w1 & Hloop & H).
  apply ret_inv in H. destruct H as [Hf ->]. inversion Hf; subst f. clear Hf.
  apply (standings_loop_ret _ _ _ _ _ [standings_header]) in Hloop;
    [| apply read_file_head].
  destruct Hloop as (Hle & rows & Hread & Hc0 & HF).
  exists v2, rows.
  split; [exists d, v, v0, v1; repeat split; assumption |].
  repeat split; assumption.
Qed.

(** X7. In a run of the standings stage that returns its file name, the
    file holds the header and one row per entry of the first group's table,
    in the order of the response; the standing ids are 1, 2, ..., n by
    that order (the entry's own position is copied as data), the team id
    is the id the registry holds for the entry's team name, and the nine
    statistics are copied as they are. *)
Theorem standings_rows_follow_the_table ts resp w f w' :
  fetch_champions_league_standings ts resp w = (Ret (Some f), w') ->
  exists entries rows,
    standings_table_of resp entries /\
    f = "standings_" +++ ts +++ ".csv" /\
    read_file f (wfiles w') = Some (standings_header :: rows) /\
    map (cell 0) rows = count_from_1 (List.length rows) /\
    Forall2 (standing_row_rel (wreg w')) entries rows.
Proof.
  intro H. apply fetch_standings_ret in H.
  destruct H as (entries & rows & H1 & H2 & _ & H3 & H4 & H5).
  exists entries, rows. repeat split; assumption.
Qed.

(** X8. The standings stage reads the first group only: two parsed
    responses whose standings lists start with the same group give the
    same result, the same registry and the same files, whatever groups
    follow. *)
Theorem standings_read_only_the_first_group ts data data' g rest rest' w :
  Py.contains "standings" data = Ret true ->
  Py.getitem data "standings" = Ret (JArr (g :: rest)) ->
  Py.contains "standings" data' = Ret true ->
  Py.getitem data' "standings" = Ret (JArr (g :: rest')) ->
  fetch_champions_league_standings ts (Body data) w =
  fetch_champions_league_standings ts (Body data') w.
Proof.
  intros Hc Hg Hc' Hg'.
  unfold fetch_champions_league_standings, standings_try, try_except,
    contains_and, bind, lift.
  cbn [fetch_json ret]. rewrite Hc, Hg, Hc', Hg'. reflexivity.
Qed.

Lemma get_default v k d x :
  Py.get v k d = Ret x ->
  x = match field_of v k with Some y => y | None => d end.
Proof.
  destruct v; simpl; intro H; try discriminate H. now inversion H.
Qed.

(** One scorer: one row appended to the file. *)
Lemma scorers_body_ret f idx scorer idx' w w' :
  scorers_body f idx scorer w = (Ret idx', w') ->
  idx' = idx + 1 /\
  registry_le (wreg w) (wreg w') /\
  exists rw,
    wfiles w' = append_row f rw (wfiles w) /\
    cell 0 rw = JNum idx /\
    scorer_row_rel (wreg w') scorer rw.
Proof.
  intro H. unfold scorers_body in H.
  do 4 step H.
  apply bind_ret_inv in H. destruct H as (tid & w1 & Hid & H).
  do 5 step H.
  apply bind_ret_inv in H. destruct H as (u & w2 & Hw & H).
  apply ret_inv in H. destruct H as [-> ->].
  apply writerow_inv in Hw. destruct Hw as (_ & Hr & Hf).
  apply get_or_create_ret in Hid. destruct Hid as (_ & Hf1 & Hle & Hreg).
  split; [reflexivity |]. split; [now rewrite Hr |].
  eexists. split; [rewrite Hf, Hf1; reflexivity |].
  split; [reflexivity |].
  exists v0, tid. rewrite Hr. unfold team_name_of, player_name_of.
  rewrite E, E3. cbn [obind cell nth].
  split; [exact E0 |]. split; [exact Hreg |]. split; [exact E4 |].
  split; [reflexivity |].
  cbn [skipn map scorer_stat_keys].
  now rewrite (get_default _ _ _ _ E5), (get_default _ _ _ _ E6),
    (get_default _ _ _ _ E7).
Qed.

Lemma scorers_loop_ret f scorers w w' idx' rows0 :
  for_each (scorers_body f) scorers 1 w = (Ret idx', w') ->
  read_file f (wfiles w) = Some rows0 ->
  registry_le (wreg w) (wreg w') /\
  exists rows,
    read_file f (wfiles w') = Some (rows0 ++ rows) /\
    map (cell 0) rows = count_from_1 (List.length rows) /\
    Forall2 (scorer_row_rel (wreg w')) scorers rows.
Proof.
  intros H Hread.
  pose (I := fun (pre : list json) (idx : Z) (u : world) =>
    registry_le (wreg w) (wreg u) /\
    exists rows,
      idx = 1 + Z.of_nat (List.length rows) /\
      read_file f (wfiles u) = Some (rows0 ++ rows) /\
      map (cell 0) rows = count_from_1 (List.length rows) /\
      Forall2 (scorer_row_rel (wreg u)) pre rows).
  apply (for_each_prefix (scorers_body f) I) with (pre := []) in H.
  - destruct H as (Hle & rows & _ & H1 & H2 & H3).
    split; [exact Hle |]. now exists rows.
  - clear H. intros pre x idx u idx2 u' (Hle & rows & Hidx & Hr & Hc & HF) Hb.
    apply scorers_body_ret in Hb.
    destruct Hb as (-> & Hle' & rw & Hf & Hc0 & Hrel).
    split; [eauto using registry_le_trans |].
    exists (rows ++ [rw]). rewrite length_app. cbn [List.length].
    split; [lia |]. split.
    { rewrite Hf, app_assoc. now apply read_append_same. }
    split.
    { rewrite map_app. cbn [map]. rewrite Hc, Hc0, Hidx, Nat.add_1_r.
      now rewrite count_from_1_S. }
    apply Forall2_app.
    + eapply Forall2_impl; [| exact HF]. intros; eapply scorer_row_rel_le; eauto.
    + constructor; [exact Hrel | constructor].
  - split; [apply registry_le_refl |]. exists [].
    rewrite app_nil_r. repeat split; [exact Hread | constructor].
Qed.

(** A run of the scorers stage that returns a file name. *)
Lemma fetch_scorers_ret ts resp w f w' :
  fetch_top_scorers ts resp w = (Ret (Some f), w') ->
  exists scorers rows,
    scorers_of resp scorers /\
    f = "scorers_" +++ ts +++ ".csv" /\
    registry_le (wreg w) (wreg w') /\
    read_file f (wfiles w') = Some (scorers_header :: rows) /\
    map (cell 0) rows = count_from_1 (List.length rows) /\
    Forall2 (scorer_row_rel (wreg w')) scorers rows.
Proof.
  intro H. unfold fetch_top_scorers in H.
  apply try_except_ret_inv in H.
  destruct H as [H | (e & _ & _ & Habs)]; [| discriminate Habs].
  unfold scorers_try in H.
  apply bind_ret_inv in H. destruct H as (data & w0 & Hdata & H).
  destruct resp as [e | | | d]; try discriminate Hdata.
  cbn [fetch_json] in Hdata. apply ret_inv in Hdata. destruct Hdata as [-> ->].
  step H. destruct v; [| apply ret_inv in H; destruct H; discriminate].
  step H. cbv zeta in H.
  remember ("scorers_" +++ ts +++ ".csv") as file eqn:Hfile.
  unfold bind at 1, open_w at 1 in H. unfold bind at 1, writerow at 1 in H.
  cbn [wreg wfiles append_row] in H. rewrite String.eqb_refl in H.
  step H.
  apply bind_ret_inv in H. destruct H as (idx' & w1 & Hloop & H).
  apply ret_inv in H. destruct H as [Hf ->]. inversion Hf; subst f. clear Hf.
  apply (scorers_loop_ret _ _ _ _ _ [scorers_header]) in Hloop;
    [| apply read_file_head].
  destruct Hloop as (Hle & rows & Hread & Hc0 & HF).
  exists v0, rows.
  split; [exists d, v; repeat split; assumption |].
  repeat split; assumption.
Qed.

(** X9. In a run of the scorers stage that returns its file name, the
    file holds the header and one row per scorer of the response, in its
    order; the scorer ids are 1, 2, ..., n by that order, the player name
    is copied, the team id is the id the registry holds for the scorer's
    team name, and goals, assists and penalties are the stored values, 0
    where the scorer has no such key. *)
Theorem scorers_rows_follow_the_response ts resp w f w' :
  fetch_top_scorers ts resp w = (Ret (Some f), w') ->
  exists scorers rows,
    scorers_of resp scorers /\
    f = "scorers_" +++ ts +++ ".csv" /\
    read_file f (wfiles w') = Some (scorers_header :: rows) /\
    map (cell 0) rows = count_from_1 (List.length rows) /\
    Forall2 (scorer_row_rel (wreg w')) scorers rows.
Proof.
  intro H. apply fetch_scorers_ret in H.
  destruct H as (scorers & rows & H1 & H2 & _ & H3 & H4 & H5).
  exists scorers, rows. repeat split; assumption.
Qed.

(** ** A stage that stops half-way *)

(** A loop that may raise: the invariant holds for the elements visited
    before the one that raised. *)
Lemma for_each_any {A S} (body : S -> A -> M S)
  (I : list A -> S -> world -> Prop) :
  (forall pre x s w s' w',
      I pre s w -> body s x w = (Ret s', w') -> I (pre ++ [x]) s' w') ->
  (forall pre x s w e w',
      I pre s w -> body s x w = (Raise e, w') -> I pre s w') ->
  forall l pre s w o w',
    I pre s w -> for_each body l s w = (o, w') ->
    exists done rest s1,
      l = done ++ rest /\ I (pre ++ done) s1 w' /\
      ((o = Ret s1 /\ rest = []) \/ (exists e, o = Raise e /\ rest <> [])).
Proof.
  intros Hret Hraise l.
  induction l as [| x l IH]; intros pre s w o w' HI H.
  - simpl in H. unfold ret in H. inversion H; subst.
    exists [], [], s. rewrite !app_nil_r.
    split; [reflexivity |]. split; [exact HI |]. left. now split.
  - simpl in H. unfold bind in H.
    destruct (body s x w) as [[s2 | e] w2] eqn:E.
    + destruct (IH (pre ++ [x]) s2 w2 o w' (Hret _ _ _ _ _ _ HI E) H)
        as (done & rest & s1 & Hl & HI' & Ho).
      exists (x :: done), rest, s1. rewrite <- app_assoc in HI'.
      split; [simpl; now rewrite Hl |]. split; [exact HI' | exact Ho].
    + inversion H; subst.
      exists [], (x :: l), s. rewrite app_nil_r.
      split; [reflexivity |]. split; [eapply Hraise; eauto |].
      right. exists e. split; [reflexivity | discriminate].
Qed.

(** An entry of the table either gets its row or changes no file. *)
Lemma standings_body_ends f idx team :
  ends_in_or_keeps (grows []) (fun o => exists v, o = Ret v)
                   (standings_body f idx team).
Proof.
  unfold standings_body.
  repeat (apply ends_bind; [apply grows_trans | solve [auto with grows] | intro]).
  intros w o w' H. left. unfold bind, writerow, ret in H.
  inversion H. eauto.
Qed.


(** * The matches stage: the copied cells *)

Lemma goal_body_cells m mid hid aid s g s' w w' :
  goal_body m mid hid aid s g w = (Ret s', w') ->
  matches_data s' = matches_data s /\
  exists rw,
    goals_data s' = goals_data s ++ [rw] /\
    cell 1 rw = mid /\
    cell 4 rw = match field_of g "minute" with Some x => x | None => JStr "" end /\
    cell 5 rw = match field_of g "score" with Some x => x | None => JObj [] end /\
    List.length rw = 6%nat.
Proof.
  intro H. unfold goal_body in H.
  do 5 step H.
  apply bind_ret_inv in H. destruct H as (sname & w1 & Hs & H).
  step H. step H. apply ret_inv in H. destruct H as [-> ->].
  split; [reflexivity |]. eexists. split; [reflexivity |].
  cbn [cell nth List.length].
  split; [reflexivity |].
  split; [exact (get_default _ _ _ _ E4) |].
  split; [exact (get_default _ _ _ _ E5) | reflexivity].
Qed.

Lemma goal_loop_cells m mid hid aid goals s s' w w' :
  for_each (goal_body m mid hid aid) goals s w = (Ret s', w') ->
  matches_data s' = matches_data s /\
  exists rows,
    goals_data s' = goals_data s ++ rows /\
    Forall2 (fun g rw =>
               cell 1 rw = mid /\
               cell 4 rw = match field_of g "minute" with
                           | Some x => x | None => JStr "" end /\
               cell 5 rw = match field_of g "score" with
                           | Some x => x | None => JObj [] end /\
               List.length rw = 6%nat) goals rows.
Proof.
  intro H.
  pose (I := fun (pre : list json) (t : match_loop) (u : world) =>
    matches_data t = matches_data s /\
    exists rows,
      goals_data t = goals_data s ++ rows /\
      Forall2 (fun g rw =>
                 cell 1 rw = mid /\
                 cell 4 rw = match field_of g "minute" with
                             | Some x => x | None => JStr "" end /\
                 cell 5 rw = match field_of g "score" with
                             | Some x => x | None => JObj [] end /\
                 List.length rw = 6%nat) pre rows).
  apply (for_each_prefix (goal_body m mid hid aid) I) with (pre := []) in H.
  - exact H.
  - clear H. intros pre g t u t' u' (Hm & rows & Hd & HF) Hb.
    apply goal_body_cells in Hb. destruct Hb as (Hm' & rw & Hd' & Hc).
    split; [congruence |]. exists (rows ++ [rw]).
    split; [rewrite Hd', Hd, <- app_assoc; reflexivity |].
    apply Forall2_app; [exact HF |]. constructor; [exact Hc | constructor].
  - split; [reflexivity |]. exists []. split; [now rewrite app_nil_r | constructor].
Qed.

Lemma match_body_cells s m s' w w' :
  match_body s m w = (Ret s', w') ->
  exists mrow grows,
    matches_data s' = matches_data s ++ [mrow] /\
    goals_data s' = goals_data s ++ grows /\
    match_cells m mrow /\
    Forall2 goal_cells (map (pair m) (goals_of m)) grows.
Proof.
  intro H. unfold match_body in H.
  do 4 step H.
  apply bind_ret_inv in H. destruct H as (hid & w1 & Hhome & H).
  do 4 step H.
  apply bind_ret_inv in H. destruct H as (aid & w2 & Haway & H).
  do 10 step H.
  apply bind_ret_inv in H. destruct H as (has & w3 & Hhas & H).
  apply contains_and_truthy in Hhas. destruct Hhas as [-> Hhas].
  assert (Hcells : match_cells m
            [v7; v14; v15; JNum hid; JNum aid; or_empty v10; or_empty v13; v16]).
  { unfold match_cells. cbn [cell nth List.length]. repeat split; assumption. }
  destruct has.
  - step H. step H.
    apply goal_loop_cells in H. destruct H as (Hm & rows & Hd & HF).
    cbn [matches_data goals_data] in *.
    eexists. exists rows. split; [exact Hm |]. split; [exact Hd |].
    split; [exact Hcells |].
    apply Forall2_map_pair.
    assert (Hgo : goals_of m = v18).
    { unfold goals_of. destruct (Py.contains "goals" m) as [[|] |]; try contradiction;
        try discriminate Hhas.
      rewrite E17 in *. rewrite <- Hhas, E18. reflexivity. }
    rewrite Hgo. eapply Forall2_impl; [| exact HF].
    intros g rw (H1 & H2 & H3 & H4). unfold goal_cells. cbn [fst snd].
    rewrite H1. repeat split; assumption.
  - apply ret_inv in H. destruct H as [-> ->]. cbn [matches_data goals_data].
    eexists. exists []. split; [reflexivity |]. split; [now rewrite app_nil_r |].
    split; [exact Hcells |].
    assert (Hgo : goals_of m = []).
    { unfold goals_of. destruct (Py.contains "goals" m) as [[|] |]; try reflexivity.
      destruct (Py.getitem m "goals"); [| reflexivity].
      now rewrite <- Hhas. }
    rewrite Hgo. constructor.
Qed.

Lemma match_loop_cells matches w s w' :
  for_each match_body matches loop_start w = (Ret s, w') ->
  Forall2 match_cells matches (matches_data s) /\
  Forall2 goal_cells (goal_events matches) (goals_data s).
Proof.
  intro H.
  pose (I := fun (pre : list json) (t : match_loop) (u : world) =>
    Forall2 match_cells pre (matches_data t) /\
    Forall2 goal_cells (goal_events pre) (goals_data t)).
  apply (for_each_prefix match_body I) with (pre := []) in H.
  - exact H.
  - clear H. intros pre m t u t' u' (Hm & Hg) Hb.
    apply match_body_cells in Hb.
    destruct Hb as (mrow & grows & Hmd & Hgd & Hc & HF).
    split.
    + rewrite Hmd. apply Forall2_app; [exact Hm |].
      constructor; [exact Hc | constructor].
    + rewrite Hgd, goal_events_app. apply Forall2_app; [exact Hg |].
      cbn [goal_events flat_map]. now rewrite app_nil_r.
  - split; constructor.
Qed.

(** A run of the stage that returns two file names, with its loop. *)
Lemma fetch_matches_loop ts resp w mf gf w' :
  fetch_champions_league_matches ts resp w = (Ret (Some (Some mf, Some gf)), w') ->
  exists matches s w1,
    matches_of resp matches /\
    for_each match_body matches loop_start w = (Ret s, w1) /\
    read_file mf (wfiles w') = Some (matches_header :: matches_data s) /\
    read_file gf (wfiles w') = Some (goals_header :: goals_data s).
Proof.
  intro H. pose proof H as H0. apply fetch_matches_ret in H0.
  destruct H0 as (matches & mrows & grows & Hmo & -> & -> & _ & Hrm & Hrg & _).
  unfold fetch_champions_league_matches in H.
  apply try_except_ret_inv in H.
  destruct H as [H | (e & _ & _ & Habs)]; [| discriminate Habs].
  unfold matches_try in H.
  apply bind_ret_inv in H. destruct H as (data & w0 & Hdata & H).
  destruct resp as [e | | | d]; try discriminate Hdata.
  cbn [fetch_json] in Hdata. apply ret_inv in Hdata. destruct Hdata as [-> ->].
  step H. destruct v; [| apply ret_inv in H; destruct H; discriminate].
  step H. step H.
  apply bind_ret_inv in H. destruct H as (s & w1 & Hloop & H).
  destruct Hmo as (d' & m' & Hd' & _ & Hm' & Hi'). inversion Hd'; subst d'.
  assert (m' = v) by congruence. subst m'.
  assert (matches = v0) by congruence. subst v0.
  exists matches, s, w1.
  split; [exists d, v; repeat split; assumption |].
  split; [exact Hloop |].
  cbv zeta in H.
  remember ("matches_" +++ ts +++ ".csv") as mfile eqn:Hmfile.
  remember ("goals_" +++ ts +++ ".csv") as gfile eqn:Hgfile.
  assert (Hne : String.eqb mfile gfile = false) by (subst; reflexivity).
  unfold bind at 1, open_w at 1 in H. unfold bind at 1, writerow at 1 in H.
  unfold bind at 1 in H. rewrite writerows_spec in H.
  unfold bind at 1, open_w at 1 in H. unfold bind at 1, writerow at 1 in H.
  unfold bind at 1 in H. rewrite writerows_spec in H.
  unfold ret in H. cbn [wreg wfiles] in H.
  assert (Hw' : w' = snd (Ret (Some (Some mfile, Some gfile)), w')) by reflexivity.
  rewrite <- H in Hw'. cbn [snd] in Hw'. rewrite Hw'. cbn [wfiles].
  split.
  { rewrite read_writerows_other by exact Hne.
    rewrite read_append_other by exact Hne.
    rewrite read_open_other by (now apply String.eqb_neq).
    rewrite (read_writerows_same _ _ _ [matches_header]); [reflexivity |].
    cbn [append_row]. rewrite String.eqb_refl. apply read_file_head. }
  { rewrite (read_writerows_same _ _ _ [goals_header]); [reflexivity |].
    cbn [append_row]. rewrite String.eqb_refl. apply read_file_head. }
Qed.

Lemma Forall2_and {A B} (P Q : A -> B -> Prop) l l' :
  Forall2 P l l' -> Forall2 Q l l' -> Forall2 (fun a b => P a b /\ Q a b) l l'.
Proof.
  intro HP. induction HP; intro HQ; inversion HQ; subst; constructor; auto.
Qed.

Lemma Forall2_In_l {A B} (R : A -> B -> Prop) l l' x :
  Forall2 R l l' -> In x l -> exists y, In y l' /\ R x y.
Proof.
  induction 1 as [| a b l l' Hab HF IH]; simpl; intro Hin; [contradiction |].
  destruct Hin as [-> | Hin].
  - exists b. split; [now left | exact Hab].
  - destruct (IH Hin) as (y & Hy & HR). exists y. split; [now right | exact HR].
Qed.

Lemma Forall2_In_r {A B} (R : A -> B -> Prop) l l' y :
  Forall2 R l l' -> In y l' -> exists x, In x l /\ R x y.
Proof.
  induction 1 as [| a b l l' Hab HF IH]; simpl; intro Hin; [contradiction |].
  destruct Hin as [-> | Hin].
  - exists a. split; [now left | exact Hab].
  - destruct (IH Hin) as (x & Hx & HR). exists x. split; [now right | exact HR].
Qed.

Lemma matches_of_fun resp a b : matches_of resp a -> matches_of resp b -> a = b.
Proof.
  intros (d & m & -> & _ & Hm & Hi) (d' & m' & Hd & _ & Hm' & Hi').
  inversion Hd; subst d'. congruence.
Qed.

Lemma goal_events_In mg matches : In mg (goal_events matches) -> In (fst mg) matches.
Proof.
  unfold goal_events. intro H. apply in_flat_map in H.
  destruct H as (m & Hm & Hin). apply in_map_iff in Hin.
  destruct Hin as (g & <- & _). exact Hm.
Qed.

(** Both characterisations of a run that returns two file names. *)
Lemma fetch_matches_full ts resp w mf gf w' :
  fetch_champions_league_matches ts resp w = (Ret (Some (Some mf, Some gf)), w') ->
  exists matches mrows grows,
    matches_of resp matches /\
    read_file mf (wfiles w') = Some (matches_header :: mrows) /\
    read_file gf (wfiles w') = Some (goals_header :: grows) /\
    Forall2 (fun m rw => match_cells m rw /\ match_row_rel (wreg w') m rw)
            matches mrows /\
    Forall2 (fun mg rw => goal_cells mg rw /\ goal_row_rel (wreg w') mg rw)
            (goal_events matches) grows.
Proof.
  intro H. pose proof H as H0.
  apply fetch_matches_ret in H0.
  destruct H0 as (matches & mrows & grows & Hmo & _ & _ & _ & Hrm & Hrg & HFm & HFg & _).
  apply fetch_matches_loop in H.
  destruct H as (matches' & s & w1 & Hmo' & Hloop & Hrm' & Hrg').
  assert (matches' = matches) by eauto using matches_of_fun. subst matches'.
  assert (mrows = matches_data s) by congruence.
  assert (grows = goals_data s) by congruence. subst mrows grows.
  apply match_loop_cells in Hloop. destruct Hloop as (Hcm & Hcg).
  exists matches, (matches_data s), (goals_data s).
  repeat (split; [assumption |]).
  split; apply Forall2_and; assumption.
Qed.

(** X11. In a run of the matches stage that returns its file names, the
    matches file holds the header and one row of eight cells per match, in
    the order of the response; the row is keyed by the match's own id from
    the response, copies its date and status, and carries as home and
    away team ids the ids the registry holds for the two team names. *)
Theorem match_rows_follow_the_response ts resp w mf gf w' :
  fetch_champions_league_matches ts resp w = (Ret (Some (Some mf, Some gf)), w') ->
  exists matches mrows,
    matches_of resp matches /\
    read_file mf (wfiles w') = Some (matches_header :: mrows) /\
    Forall2
      (fun m rw =>
         match_cells m rw /\
         exists hn an hid aid,
           home_name m = Ret hn /\
           away_name m = Ret an /\
           registry_id (wreg w') hn = Some hid /\
           registry_id (wreg w') an = Some aid /\
           cell 3 rw = JNum hid /\
           cell 4 rw = JNum aid)
      matches mrows.
Proof.
  intro H. apply fetch_matches_full in H.
  destruct H as (matches & mrows & grows & Hmo & Hrm & _ & HF & _).
  exists matches, mrows. split; [exact Hmo |]. split; [exact Hrm |].
  eapply Forall2_impl; [| exact HF].
  intros m rw (Hc & hn & an & hid & aid & mid & md & date & hs & aws & st
               & H1 & H2 & H3 & H4 & _ & _ & _ & _ & ->).
  split; [exact Hc |]. exists hn, an, hid, aid. cbn [cell nth].
  repeat split; assumption.
Qed.

(** X12. In a run of the matches stage that returns its file names, every
    goal row has six cells, carries the id of the match the goal event
    belongs to, which is the match id of a row of the matches file of
    the same run, and carries the event's minute and score, the empty
    string and the empty object where the event has none. *)
Theorem goal_rows_point_to_their_match ts resp w mf gf w' :
  fetch_champions_league_matches ts resp w = (Ret (Some (Some mf, Some gf)), w') ->
  exists matches mrows grows,
    matches_of resp matches /\
    read_file mf (wfiles w') = Some (matches_header :: mrows) /\
    read_file gf (wfiles w') = Some (goals_header :: grows) /\
    Forall2 goal_cells (goal_events matches) grows /\
    Forall (fun rw => In (cell 1 rw) (map (cell 0) mrows)) grows.
Proof.
  intro H. apply fetch_matches_full in H.
  destruct H as (matches & mrows & grows & Hmo & Hrm & Hrg & HFm & HFg).
  exists matches, mrows, grows.
  repeat (split; [assumption |]).
  split.
  - eapply Forall2_impl; [| exact HFg]. now intros mg rw (Hc & _).
  - apply Forall_forall. intros rw Hin.
    destruct (Forall2_In_r _ _ _ _ HFg Hin) as (mg & Hmg & (Hid & _) & _).
    apply goal_events_In in Hmg.
    destruct (Forall2_In_l _ _ _ _ HFm Hmg) as (mrow & Hmrow & (Hid' & _) & _).
    assert (E : cell 1 rw = cell 0 mrow) by congruence.
    rewrite E. now apply in_map.
Qed.

(** The matches stage returns a bare [None] only off the missing branch. *)
Lemma fetch_matches_None_inv ts resp w w' :
  fetch_champions_league_matches ts resp w = (Ret None, w') ->
  exists data, resp = Body data /\ Py.contains "matches" data = Ret false.
Proof.
  intro H. unfold fetch_champions_league_matches in H.
  apply try_except_ret_inv in H.
  destruct H as [H | (e & _ & _ & Habs)]; [| discriminate Habs].
  unfold matches_try in H.
  apply bind_ret_inv in H. destruct H as (data & w0 & Hdata & H).
  destruct resp as [e | | | d]; try discriminate Hdata.
  cbn [fetch_json] in Hdata. apply ret_inv in Hdata. destruct Hdata as [-> ->].
  step H. destruct v; [| now exists d].
  exfalso. step H. step H.
  apply bind_ret_inv in H. destruct H as (s & w1 & _ & H).
  do 6 (apply bind_ret_inv in H; destruct H as (? & ? & _ & H)).
  apply ret_inv in H. destruct H as [Habs _]. discriminate Habs.
Qed.

(** X13. The main block is its three fetch calls followed by the teams
    export. Provided the three requests raise nothing but [Exception]s,
    the fetch calls end in one of two ways: all three return, or the run
    stops with a [TypeError] at the unpacking of the matches result; and
    it stops there exactly when the matches response parsed to a value
    without a matches collection. *)
Theorem fetches_end_with_results_or_the_unpack_error ts1 ts2 ts3 ts4 r1 r2 r3 :
  (forall e, r1 = GetRaises e -> is_Exception e = true) ->
  (forall e, r2 = GetRaises e -> is_Exception e = true) ->
  (forall e, r3 = GetRaises e -> is_Exception e = true) ->
  (forall w,
      main ts1 ts2 ts3 ts4 r1 r2 r3 w =
      bind (main_fetches ts1 ts2 ts3 r1 r2 r3)
           (fun v => bind (save_teams_table ts4)
              (fun teams => ret {| teams_table := teams;
                                   matches_table := fst (snd (fst v));
                                   goals_table := snd (snd (fst v));
                                   standings_table := fst (fst v);
                                   scorers_table := snd v |})) w) /\
  (forall w o w',
      main_fetches ts1 ts2 ts3 r1 r2 r3 w = (o, w') ->
      (exists v, o = Ret v) \/
      (o = Raise TypeError /\
       exists data, r2 = Body data /\ Py.contains "matches" data = Ret false)) /\
  (forall data w,
      r2 = Body data -> Py.contains "matches" data = Ret false ->
      exists w', main_fetches ts1 ts2 ts3 r1 r2 r3 w = (Raise TypeError, w')).
Proof.
  intros H1 H2 H3.
  split; [| split].
  - intro w. unfold main, main_fetches, bind.
    destruct (fetch_champions_league_standings ts1 r1 w) as [[v1 | e] w1]; [| reflexivity].
    destruct (fetch_champions_league_matches ts2 r2 w1) as [[v2 | e] w2]; [| reflexivity].
    destruct (unpack2 v2 w2) as [[p | e] w2']; [| reflexivity].
    destruct (fetch_top_scorers ts3 r3 w2') as [[v3 | e] w3]; [| reflexivity].
    reflexivity.
  - intros w o w' H. unfold main_fetches in H.
    destruct (try_except_total (standings_try ts1 r1) None w (roe_standings_try ts1 r1 H1))
      as (v1 & w1 & E1).
    fold (fetch_champions_league_standings ts1 r1) in E1.
    unfold bind at 1 in H. rewrite E1 in H.
    destruct (try_except_total (matches_try ts2 r2) (Some (None, None)) w1
                (roe_matches_try ts2 r2 H2)) as (v2 & w2 & E2).
    fold (fetch_champions_league_matches ts2 r2) in E2.
    unfold bind at 1 in H. rewrite E2 in H.
    destruct v2 as [p |].
    + left. unfold bind at 1 in H. cbn [unpack2 ret] in H.
      destruct (try_except_total (scorers_try ts3 r3) None w2 (roe_scorers_try ts3 r3 H3))
        as (v3 & w3 & E3).
      fold (fetch_top_scorers ts3 r3) in E3.
      unfold bind at 1 in H. rewrite E3 in H. unfold ret in H.
      inversion H. eauto.
    + right. unfold bind at 1 in H. cbn [unpack2 raise] in H.
      inversion H; subst. split; [reflexivity |].
      eapply fetch_matches_None_inv; exact E2.
  - intros data w -> Hd.
    destruct (try_except_total (standings_try ts1 r1) None w (roe_standings_try ts1 r1 H1))
      as (v1 & w1 & E1).
    fold (fetch_champions_league_standings ts1 r1) in E1.
    assert (E : fetch_champions_league_matches ts2 (Body data) w1 = (Ret None, w1)).
    { unfold fetch_champions_league_matches, matches_try, try_except, bind, lift. simpl.
      rewrite Hd. reflexivity. }
    exists w1. unfold main_fetches. unfold bind at 1. rewrite E1.
    unfold bind at 1. rewrite E. reflexivity.
Qed.

(** * The whole run: the keys between the tables *)

Lemma insert_by_id_In x y l : In y (x :: l) -> In y (insert_by_id x l).
Proof.
  induction l as [| z l IH]; simpl; intro H; [exact H |].
  destruct (t_id (snd x) <=? t_id (snd z)); simpl in *; [exact H |].
  destruct H as [H | [H | H]]; auto.
Qed.

Lemma sorted_by_id_In y l : In y l -> In y (sorted_by_id l).
Proof.
  induction l as [| x l IH]; simpl; intro H; [contradiction |].
  apply insert_by_id_In. destruct H as [H | H]; [now left | right; auto].
Qed.

(** The export lists every id the registry holds. *)
Lemma export_covers_registry ts w f w' :
  save_teams_table ts w = (Ret f, w') ->
  wreg w' = wreg w /\
  exists trows,
    read_file f (wfiles w') = Some (teams_header :: trows) /\
    forall team_name tid,
      registry_id (wreg w) team_name = Some tid ->
      In (JNum tid) (map (cell 0) trows).
Proof.
  intro H. destruct (save_teams_table_spec ts w) as (w2 & E & Hreg & Hread).
  cbv zeta in E. rewrite H in E.
  assert (Hf : f = "teams_" +++ ts +++ ".csv") by congruence.
  assert (Hw : w2 = w') by congruence. subst w2.
  split; [exact Hreg |]. eexists. split; [rewrite Hf; exact Hread |].
  intros n tid Hid. unfold registry_id in Hid.
  destruct (teams_lookup (key_of n) (teams_dict (wreg w))) as [t |] eqn:El;
    [| discriminate].
  inversion Hid; subst. apply teams_lookup_In, sorted_by_id_In in El.
  rewrite map_map. apply in_map_iff. exists (key_of n, t). split; [reflexivity | exact El].
Qed.

Lemma Forall2_Forall_r {A B} (R : A -> B -> Prop) (P : B -> Prop) l l' :
  Forall2 R l l' -> (forall x y, R x y -> P y) -> Forall P l'.
Proof. induction 1; intro HP; constructor; eauto. Qed.

Lemma fetch_matches_Some_inv ts resp w a b w' :
  fetch_champions_league_matches ts resp w = (Ret (Some (a, b)), w') ->
  (a = None /\ b = None) \/
  (a = Some ("matches_" +++ ts +++ ".csv") /\ b = Some ("goals_" +++ ts +++ ".csv")).
Proof.
  intro H. unfold fetch_champions_league_matches in H.
  apply try_except_ret_inv in H.
  destruct H as [H | (e & _ & _ & Habs)]; [| left; now inversion Habs].
  right. unfold matches_try in H.
  apply bind_ret_inv in H. destruct H as (data & w0 & _ & H).
  apply bind_ret_inv in H. destruct H as (has & w1 & _ & H).
  destruct has; [| apply ret_inv in H; destruct H; discriminate].
  do 9 (apply bind_ret_inv in H; destruct H as (? & ? & _ & H)).
  apply ret_inv in H. destruct H as [E _]. now inversion E.
Qed.

(** Names of different stages differ whatever the timestamps. *)
Ltac names_differ := apply String.eqb_neq; reflexivity.

(** X14. When a whole run ends with its tables, every file the run names
    is there at the end with its header, and every team id in it is a team
    id of the teams file: the home and away ids of a match row, the team
    id of a goal row, of a standings row and of a scorers row. *)
Theorem run_team_ids_are_in_the_teams_file ts1 ts2 ts3 ts4 r1 r2 r3 w tbl w' :
  main ts1 ts2 ts3 ts4 r1 r2 r3 w = (Ret tbl, w') ->
  exists trows,
    read_file (teams_table tbl) (wfiles w') = Some (teams_header :: trows) /\
    (forall f, standings_table tbl = Some f ->
       exists rows,
         read_file f (wfiles w') = Some (standings_header :: rows) /\
         Forall (fun rw => In (cell 1 rw) (map (cell 0) trows)) rows) /\
    (forall f, matches_table tbl = Some f ->
       exists rows,
         read_file f (wfiles w') = Some (matches_header :: rows) /\
         Forall (fun rw => In (cell 3 rw) (map (cell 0) trows) /\
                           In (cell 4 rw) (map (cell 0) trows)) rows) /\
    (forall f, goals_table tbl = Some f ->
       exists rows,
         read_file f (wfiles w') = Some (goals_header :: rows) /\
         Forall (fun rw => In (cell 2 rw) (map (cell 0) trows)) rows) /\
    (forall f, scorers_table tbl = Some f ->
       exists rows,
         read_file f (wfiles w') = Some (scorers_header :: rows) /\
         Forall (fun rw => In (cell 2 rw) (map (cell 0) trows)) rows).
Proof.
  intro H. apply main_ret_inv in H.
  destruct H as (w1 & w2 & w3 & Hst & Hma & Hsc & Hte).
  pose proof (grows_matches ts2 r2 _ _ _ Hma) as (Lm & _ & Fm).
  pose proof (grows_scorers ts3 r3 _ _ _ Hsc) as (Ls & _ & Fs).
  pose proof (grows_save_teams ts4 _ _ _ Hte) as (_ & _ & Ft).
  apply export_covers_registry in Hte.
  destruct Hte as (Hreg & trows & Hread & Hcov).
  exists trows. split; [exact Hread |].
  split; [| split; [| split]].
  - intros f Hf. rewrite Hf in Hst. apply fetch_standings_ret in Hst.
    destruct Hst as (entries & rows & _ & -> & _ & Hr & _ & HF).
    exists rows. split.
    + rewrite Ft, Fs, Fm; [exact Hr | | |]; simpl;
        intros [E | [E | []]] || intros [E | []]; revert E; names_differ.
    + eapply Forall2_Forall_r; [exact HF |].
      intros e rw (n & tid & _ & Hid & Hc & _). rewrite Hc.
      apply (Hcov n). eauto using registry_id_le.
  - intros f Hf. rewrite Hf in Hma.
    destruct (fetch_matches_Some_inv _ _ _ _ _ _ Hma) as [[Habs _] | [_ Hg]];
      [discriminate Habs |].
    rewrite Hg in Hma. apply fetch_matches_ret in Hma.
    destruct Hma as (matches & mrows & grows & _ & -> & _ & _ & Hr & _ & HF & _).
    exists mrows. split.
    + rewrite Ft, Fs; [exact Hr | |]; simpl; intros [E | []]; revert E; names_differ.
    + eapply Forall2_Forall_r; [exact HF |].
      intros m rw (hn & an & hid & aid & mid & md & date & hs & aws & st
                   & _ & _ & H3 & H4 & _ & _ & _ & _ & ->).
      cbn [cell nth]. split; [apply (Hcov hn) | apply (Hcov an)];
        eauto using registry_id_le.
  - intros f Hf. rewrite Hf in Hma.
    destruct (fetch_matches_Some_inv _ _ _ _ _ _ Hma) as [[_ Habs] | [Hm _]];
      [discriminate Habs |].
    rewrite Hm in Hma. apply fetch_matches_ret in Hma.
    destruct Hma as (matches & mrows & grows & _ & _ & -> & _ & _ & Hr & _ & HF & _).
    exists grows. split.
    + rewrite Ft, Fs; [exact Hr | |]; simpl; intros [E | []]; revert E; names_differ.
    + eapply Forall2_Forall_r; [exact HF |].
      intros mg rw (hn & an & hid & aid & gn & sc & gid & mid & sname & minute & score
                    & _ & _ & H3 & H4 & _ & _ & _ & _ & ->).
      cbn [cell nth]. destruct (Py.eq gn hn); [apply (Hcov hn) | apply (Hcov an)];
        eauto using registry_id_le.
  - intros f Hf. rewrite Hf in Hsc. apply fetch_scorers_ret in Hsc.
    destruct Hsc as (scorers & rows & _ & -> & _ & Hr & _ & HF).
    exists rows. split.
    + rewrite Ft; [exact Hr |]; simpl; intros [E | []]; revert E; names_differ.
    + eapply Forall2_Forall_r; [exact HF |].
      intros e rw (n & tid & _ & Hid & _ & Hc & _). rewrite Hc.
      now apply (Hcov n).
Qed.

(** * The whole run: the registry as the first sightings of all stages *)

Lemma resolves_nil r : resolves [] r r.
Proof. split; [constructor |]. intro fs. now exists []. Qed.

Lemma resolve_all_app a b w :
  resolve_all (a ++ b) w =
  bind (resolve_all a) (fun i => bind (resolve_all b) (fun j => ret (i ++ j))) w.
Proof.
  revert w. induction a as [| [n api] a IH]; intro w.
  - cbn [app resolve_all]. unfold bind, ret.
    destruct (resolve_all b w) as [[j | e] w1]; reflexivity.
  - cbn [app resolve_all]. unfold bind.
    destruct (get_or_create_team_id n api w) as [[i | e] w1]; [| reflexivity].
    rewrite IH. unfold bind, ret.
    destruct (resolve_all a w1) as [[i' | e] w2]; [| reflexivity].
    destruct (resolve_all b w2) as [[j | e] w3]; reflexivity.
Qed.

Lemma resolves_app a b r1 r2 r3 :
  resolves a r1 r2 -> resolves b r2 r3 -> resolves (a ++ b) r1 r3.
Proof.
  intros (Ha & Hra) (Hb & Hrb). split; [apply Forall_app; now split |].
  intro fs. destruct (Hra fs) as (i & Ei). destruct (Hrb fs) as (j & Ej).
  exists (i ++ j). rewrite resolve_all_app. unfold bind. now rewrite Ei, Ej.
Qed.

Lemma resolves_one n a w i w' :
  get_or_create_team_id n a w = (Ret i, w') ->
  resolves [(n, a)] (wreg w) (wreg w').
Proof.
  intro H.
  destruct (is_hashable n) eqn:Hh.
  2:{ unfold get_or_create_team_id, bind, lift, hash_key in H.
      rewrite Hh in H. discriminate H. }
  assert (Hk : hash_key n = Ret (key_of n)) by (unfold hash_key; now rewrite Hh).
  split; [constructor; [exact Hh | constructor] |].
  intro fs. exists [i]. cbn [resolve_all]. unfold bind at 1.
  destruct (teams_lookup (key_of n) (teams_dict (wreg w))) as [t |] eqn:Hl.
  - rewrite (get_or_create_known _ a _ _ _ Hk Hl) in H. inversion H; subst.
    now rewrite (get_or_create_known n a (key_of n) t {| wreg := wreg w'; wfiles := fs |} Hk Hl).
  - rewrite (get_or_create_new _ a _ _ Hk Hl) in H. inversion H; subst.
    now rewrite (get_or_create_new n a (key_of n) {| wreg := wreg w; wfiles := fs |} Hk Hl).
Qed.

Lemma standings_body_resolves f idx e idx' w w' :
  standings_body f idx e w = (Ret idx', w') ->
  resolves [entry_call e] (wreg w) (wreg w').
Proof.
  intro H. unfold standings_body in H.
  do 4 step H.
  apply bind_ret_inv in H. destruct H as (tid & w1 & Hid & H).
  do 9 step H.
  apply bind_ret_inv in H. destruct H as (u & w2 & Hw & H).
  apply ret_inv in H. destruct H as [_ ->].
  apply writerow_inv in Hw. destruct Hw as (_ & Hr & _). rewrite Hr.
  unfold entry_call, team_name_of, team_api_id_of.
  assert (v1 = v) by congruence. subst v1.
  rewrite E. cbn [obind]. rewrite E0, E2. cbn [oget].
  eapply resolves_one; exact Hid.
Qed.

Lemma scorers_body_resolves f idx e idx' w w' :
  scorers_body f idx e w = (Ret idx', w') ->
  resolves [entry_call e] (wreg w) (wreg w').
Proof.
  intro H. unfold scorers_body in H.
  do 4 step H.
  apply bind_ret_inv in H. destruct H as (tid & w1 & Hid & H).
  do 5 step H.
  apply bind_ret_inv in H. destruct H as (u & w2 & Hw & H).
  apply ret_inv in H. destruct H as [_ ->].
  apply writerow_inv in Hw. destruct Hw as (_ & Hr & _). rewrite Hr.
  unfold entry_call, team_name_of, team_api_id_of.
  assert (v1 = v) by congruence. subst v1.
  rewrite E. cbn [obind]. rewrite E0, E2. cbn [oget].
  eapply resolves_one; exact Hid.
Qed.

Lemma match_body_resolves s m s' w w' :
  match_body s m w = (Ret s', w') ->
  resolves (match_calls m) (wreg w) (wreg w').
Proof.
  intro H. unfold match_body in H.
  do 4 step H.
  apply bind_ret_inv in H. destruct H as (hid & w1 & Hhome & H).
  do 4 step H.
  apply bind_ret_inv in H. destruct H as (aid & w2 & Haway & H).
  do 10 step H.
  apply bind_ret_inv in H. destruct H as (has & w3 & Hhas & H).
  apply contains_and_truthy in Hhas. destruct Hhas as [-> _].
  assert (Hw : w' = w2).
  { destruct has.
    - step H. step H. apply goal_loop_ret in H. now destruct H as (-> & _).
    - apply ret_inv in H. now destruct H as [_ ->]. }
  subst w'. unfold match_calls, home_name, away_name.
  rewrite E, E3. cbn [obind]. rewrite E0, E4.
  assert (v1 = v) by congruence. assert (v5 = v3) by congruence. subst v1 v5.
  rewrite E2, E6. cbn [oget].
  apply (resolves_app [(v0, v2)] [(v4, v6)] _ (wreg w1));
    eapply resolves_one; eassumption.
Qed.

(** A loop whose every step resolves the calls of its element. *)
Lemma loop_resolves {A S} (body : S -> A -> M S) (calls : A -> list (json * json)) :
  (forall s x w s' w', body s x w = (Ret s', w') ->
                       resolves (calls x) (wreg w) (wreg w')) ->
  forall l s w s' w',
    for_each body l s w = (Ret s', w') ->
    resolves (flat_map calls l) (wreg w) (wreg w').
Proof.
  intros Hb l s w s' w' H.
  pose (I := fun (pre : list A) (_ : S) (u : world) =>
    resolves (flat_map calls pre) (wreg w) (wreg u)).
  apply (for_each_prefix body I) with (pre := []) in H.
  - exact H.
  - intros pre x t u t' u' HI Hx. unfold I in *.
    rewrite flat_map_app. cbn [flat_map]. rewrite app_nil_r.
    eapply resolves_app; [exact HI | eapply Hb; exact Hx].
  - apply resolves_nil.
Qed.

Lemma flat_map_single {A B} (f : A -> B) l : flat_map (fun x => [f x]) l = map f l.
Proof. induction l as [| x l IH]; simpl; [| rewrite IH]; reflexivity. Qed.

Lemma standings_resolves ts resp entries w f w' :
  standings_table_of resp entries ->
  fetch_champions_league_standings ts resp w = (Ret (Some f), w') ->
  resolves (map entry_call entries) (wreg w) (wreg w').
Proof.
  intros (data & s & g & tbl & -> & Hc & Hs & Hg & Htbl & Hit) H.
  unfold fetch_champions_league_standings in H.
  apply try_except_ret_inv in H.
  destruct H as [H | (e & _ & _ & Habs)]; [| discriminate Habs].
  unfold standings_try in H.
  apply bind_ret_inv in H. destruct H as (d & w0 & Hdata & H).
  cbn [fetch_json] in Hdata. apply ret_inv in Hdata. destruct Hdata as [-> ->].
  apply bind_ret_inv in H. destruct H as (ne & w0 & Hne & H).
  apply contains_and_inv in Hne. destruct Hne as [-> _].
  destruct ne; [| apply ret_inv in H; destruct H; discriminate].
  do 3 step H. cbv zeta in H.
  apply bind_ret_inv in H. destruct H as (u1 & w1 & Ho & H).
  apply bind_ret_inv in H. destruct H as (u2 & w2 & Hw & H).
  step H.
  apply bind_ret_inv in H. destruct H as (idx' & w3 & Hloop & H).
  apply ret_inv in H. destruct H as [_ ->].
  unfold open_w in Ho. inversion Ho; subst w1. clear Ho.
  apply writerow_inv in Hw. destruct Hw as (_ & Hr & _).
  assert (v2 = entries) by congruence. subst v2.
  rewrite <- flat_map_single.
  apply (loop_resolves _ (fun x => [entry_call x])) in Hloop.
  - rewrite Hr in Hloop. exact Hloop.
  - intros. eapply standings_body_resolves; eassumption.
Qed.

Lemma scorers_resolves ts resp scorers w f w' :
  scorers_of resp scorers ->
  fetch_top_scorers ts resp w = (Ret (Some f), w') ->
  resolves (map entry_call scorers) (wreg w) (wreg w').
Proof.
  intros (data & l & -> & Hc & Hl & Hit) H.
  unfold fetch_top_scorers in H.
  apply try_except_ret_inv in H.
  destruct H as [H | (e & _ & _ & Habs)]; [| discriminate Habs].
  unfold scorers_try in H.
  apply bind_ret_inv in H. destruct H as (d & w0 & Hdata & H).
  cbn [fetch_json] in Hdata. apply ret_inv in Hdata. destruct Hdata as [-> ->].
  step H. destruct v; [| apply ret_inv in H; destruct H; discriminate].
  step H. cbv zeta in H.
  apply bind_ret_inv in H. destruct H as (u1 & w1 & Ho & H).
  apply bind_ret_inv in H. destruct H as (u2 & w2 & Hw & H).
  step H.
  apply bind_ret_inv in H. destruct H as (idx' & w3 & Hloop & H).
  apply ret_inv in H. destruct H as [_ ->].
  unfold open_w in Ho. inversion Ho; subst w1. clear Ho.
  apply writerow_inv in Hw. destruct Hw as (_ & Hr & _).
  assert (v0 = scorers) by congruence. subst v0.
  rewrite <- flat_map_single.
  apply (loop_resolves _ (fun x => [entry_call x])) in Hloop.
  - rewrite Hr in Hloop. exact Hloop.
  - intros. eapply scorers_body_resolves; eassumption.
Qed.

Lemma matches_resolves ts resp matches w mf gf w' :
  matches_of resp matches ->
  fetch_champions_league_matches ts resp w = (Ret (Some (Some mf, Some gf)), w') ->
  resolves (flat_map match_calls matches) (wreg w) (wreg w').
Proof.
  intros Hmo H. pose proof H as H0.
  apply fetch_matches_loop in H0.
  destruct H0 as (matches' & s & w1 & Hmo' & Hloop & _).
  assert (matches' = matches) by eauto using matches_of_fun. subst matches'.
  assert (Hreg : wreg w' = wreg w1).
  { unfold fetch_champions_league_matches in H.
    apply try_except_ret_inv in H.
    destruct H as [H | (e & _ & _ & Habs)]; [| discriminate Habs].
    unfold matches_try in H.
    apply bind_ret_inv in H. destruct H as (data & w0 & Hdata & H).
    destruct resp as [e | | | d]; try discriminate Hdata.
    cbn [fetch_json] in Hdata. apply ret_inv in Hdata. destruct Hdata as [-> ->].
    step H. destruct v; [| apply ret_inv in H; destruct H; discriminate].
    step H. step H.
    apply bind_ret_inv in H. destruct H as (s2 & w2 & Hloop2 & H).
    destruct Hmo as (d' & m' & Hd' & _ & Hm' & Hi'). inversion Hd'; subst d'.
    assert (m' = v) by congruence. subst m'.
    assert (matches = v0) by congruence. subst v0.
    unfold loop_start in Hloop.
    assert (Hw2 : w2 = w1) by congruence. subst w2.
    cbv zeta in H.
    unfold bind at 1, open_w at 1 in H. unfold bind at 1, writerow at 1 in H.
    unfold bind at 1 in H. rewrite writerows_spec in H.
    unfold bind at 1, open_w at 1 in H. unfold bind at 1, writerow at 1 in H.
    unfold bind at 1 in H. rewrite writerows_spec in H.
    unfold ret in H. cbn [wreg wfiles] in H.
    assert (Hw' : w' = snd (Ret (Some (Some mf, Some gf)), w')) by reflexivity.
    rewrite <- H in Hw'. cbn [snd] in Hw'. now rewrite Hw'. }
  rewrite Hreg. eapply (loop_resolves match_body match_calls); [| exact Hloop].
  intros. eapply match_body_resolves; eassumption.
Qed.

(** X15. When a whole run from the empty registry ends with its tables and
    each of the three stages produced its file, the registry is exactly
    the first sightings, numbered from 1, of the resolutions of the run in
    order: the team of every standings entry, then the home and the away
    team of every match, then the team of every scorer; and the teams file
    holds one row [i, name, api id] per first sighting, in that order. *)
Theorem run_registry_is_the_first_sightings_of_all_stages
  ts1 ts2 ts3 ts4 r1 r2 r3 w tbl w' entries matches scorers sf mf cf :
  wreg w = initial_registry ->
  main ts1 ts2 ts3 ts4 r1 r2 r3 w = (Ret tbl, w') ->
  standings_table_of r1 entries -> standings_table tbl = Some sf ->
  matches_of r2 matches -> matches_table tbl = Some mf ->
  scorers_of r3 scorers -> scorers_table tbl = Some cf ->
  teams_dict (wreg w') =
    number_from 1 (first_sightings call_key
      (map entry_call entries ++ flat_map match_calls matches
         ++ map entry_call scorers)) /\
  read_file (teams_table tbl) (wfiles w') =
    Some (teams_header ::
          map (fun ic => [JNum (Z.of_nat (fst ic)); fst (snd ic); snd (snd ic)])
              (combine
                 (seq 1 (List.length (first_sightings call_key
                    (map entry_call entries ++ flat_map match_calls matches
                       ++ map entry_call scorers))))
                 (first_sightings call_key
                    (map entry_call entries ++ flat_map match_calls matches
                       ++ map entry_call scorers)))).
Proof.
  intros Hw H He Hsf Hm Hmf Hs Hcf.
  apply main_ret_inv in H. destruct H as (w1 & w2 & w3 & Hst & Hma & Hsc & Hte).
  rewrite Hsf in Hst. rewrite Hmf in Hma. rewrite Hcf in Hsc.
  destruct (fetch_matches_Some_inv _ _ _ _ _ _ Hma) as [[Habs _] | [_ Hg]];
    [discriminate Habs |].
  rewrite Hg in Hma.
  pose proof (standings_resolves _ _ _ _ _ _ He Hst) as R1.
  pose proof (matches_resolves _ _ _ _ _ _ _ Hm Hma) as R2.
  pose proof (scorers_resolves _ _ _ _ _ _ Hs Hsc) as R3.
  pose proof (resolves_app _ _ _ _ _ R1 (resolves_app _ _ _ _ _ R2 R3)) as (Hh & R).
  destruct (R (wfiles w)) as (ids & Hrun).
  assert (Hw0 : {| wreg := wreg w; wfiles := wfiles w |} = w) by (now destruct w).
  rewrite Hw0 in Hrun.
  pose proof (resolve_all_initial _ w Hh Hw) as Hinit. cbv zeta in Hinit.
  rewrite Hinit in Hrun.
  assert (Hr3 : wreg w3 =
                {| teams_dict := number_from 1 (first_sightings call_key
                     (map entry_call entries ++ flat_map match_calls matches
                        ++ map entry_call scorers));
                   team_id_counter := 1 + Z.of_nat (List.length (first_sightings call_key
                     (map entry_call entries ++ flat_map match_calls matches
                        ++ map entry_call scorers))) |}) by congruence.
  destruct (save_teams_table_spec ts4 w3) as (w4 & E & Hreg & Hread).
  cbv zeta in E. rewrite Hte in E.
  assert (Hf : teams_table tbl = "teams_" +++ ts4 +++ ".csv") by congruence.
  assert (Hw4 : w4 = w') by congruence. subst w4.
  rewrite Hreg, Hr3. cbn [teams_dict]. split; [reflexivity |].
  rewrite Hf, Hread, Hr3. cbn [teams_dict].
  rewrite sorted_number_from. now rewrite (rows_number_from _ 1%nat).
Qed.

(** * Concrete runs of the whole-run properties *)

Example sample_main_run_result :
  sample_main_run = (Ret sample_tables, snd sample_main_run) /\
  read_file "teams_20260101_120003.csv" (wfiles (snd sample_main_run)) =
    Some [teams_header;
          [JNum 1; JStr "SL Benfica"; JNum 1903];
          [JNum 2; JStr "Ajax"; JNum 678];
          [JNum 3; JStr "FC Porto"; JNum 503]] /\
  read_file "standings_20260101_120000.csv" (wfiles (snd sample_main_run)) =
    Some [standings_header;
          [JNum 1; JNum 1; JNum 2; JNum 4; JNum 3; JNum 1; JNum 0; JNum 7;
           JNum 9; JNum 2; JNum 7];
          [JNum 2; JNum 2; JNum 1; JNum 4; JNum 3; JNum 1; JNum 0; JNum 10;
           JNum 9; JNum 2; JNum 7]] /\
  read_file "scorers_20260101_120002.csv" (wfiles (snd sample_main_run)) =
    Some [scorers_header;
          [JNum 1; JStr "Tadic"; JNum 2; JNum 5; JNum 2; JNum 0];
          [JNum 2; JStr "Taremi"; JNum 3; JNum 0; JNum 0; JNum 0]].
Proof. repeat split; vm_compute; reflexivity. Qed.

Lemma registry_entries_are_never_changed_witness :
  teams_lookup (KStr "Ajax")
    (teams_dict (wreg (snd (fetch_champions_league_matches sample_ts
                              (Body sample_payload) ajax_world))))
  = Some {| t_id := 1; t_name := JStr "Ajax"; t_api_id := JNum 678 |}.
Proof.
  apply (proj1 (proj2 (registry_entries_are_never_changed sample_ts sample_ts
                         sample_ts sample_ts (Body sample_payload) JsonError JsonError))
           ajax_world
           (fst (fetch_champions_league_matches sample_ts (Body sample_payload) ajax_world))
           (snd (fetch_champions_league_matches sample_ts (Body sample_payload) ajax_world))).
  - apply surjective_pairing.
  - reflexivity.
Defined.

Lemma stages_keep_the_registry_well_numbered_witness :
  well_numbered (wreg (snd sample_main_run)).
Proof.
  apply (proj2 (proj2 (proj2
           (stages_keep_the_registry_well_numbered
              "20260101_120000" "20260101_120001" "20260101_120002" "20260101_120003"
              (Body sample_standings_payload) (Body sample_payload)
              (Body sample_scorers_payload) initial_world initial_well_numbered)))
           (fst sample_main_run)).
  apply surjective_pairing.
Defined.

Lemma run_gives_each_team_its_own_id_witness :
  (forall n1 n2 i,
      registry_id (wreg (snd sample_main_run)) n1 = Some i ->
      registry_id (wreg (snd sample_main_run)) n2 = Some i ->
      key_of n1 = key_of n2) /\
  (forall n i, registry_id (wreg (snd sample_main_run)) n = Some i ->
               1 <= i < team_id_counter (wreg (snd sample_main_run))).
Proof.
  apply (run_gives_each_team_its_own_id
           "20260101_120000" "20260101_120001" "20260101_120002" "20260101_120003"
           (Body sample_standings_payload) (Body sample_payload)
           (Body sample_scorers_payload) initial_world (fst sample_main_run)).
  - reflexivity.
  - apply surjective_pairing.
Defined.

Lemma a_stage_writes_only_its_own_files_witness :
  read_file "standings_20260101_120000.csv"
    (wfiles (snd (fetch_top_scorers "20260101_120000" (Body sample_scorers_payload)
                    (snd sample_main_run))))
  = read_file "standings_20260101_120000.csv" (wfiles (snd sample_main_run)).
Proof.
  apply (proj1 (proj2 (proj2 (a_stage_writes_only_its_own_files "20260101_120000"
                                (Body sample_scorers_payload)
                                "standings_20260101_120000.csv")))
           (snd sample_main_run)
           (fst (fetch_top_scorers "20260101_120000" (Body sample_scorers_payload)
                   (snd sample_main_run)))).
  - apply String.eqb_neq. reflexivity.
  - apply surjective_pairing.
Defined.

Lemma a_failing_match_leaves_no_file_witness :
  fetch_champions_league_matches sample_ts (Body broken_payload) ajax_world
    = (Ret (Some (None, None)),
       snd (for_each match_body
              [one_match (JNum 1) []; JObj [("id", JNum 202)]] loop_start ajax_world)) /\
  (forall f,
      read_file f (wfiles (snd (for_each match_body
                                  [one_match (JNum 1) []; JObj [("id", JNum 202)]]
                                  loop_start ajax_world)))
      = read_file f (wfiles ajax_world)) /\
  registry_le (wreg ajax_world)
    (wreg (snd (for_each match_body
                  [one_match (JNum 1) []; JObj [("id", JNum 202)]]
                  loop_start ajax_world))).
Proof.
  apply (a_failing_match_leaves_no_file sample_ts (Body broken_payload)
           [one_match (JNum 1) []; JObj [("id", JNum 202)]] ajax_world KeyError).
  - unfold matches_of. do 2 eexists. repeat split; reflexivity.
  - vm_compute. reflexivity.
Defined.

Lemma run_exports_every_registered_team_witness :
  teams_table sample_tables = "teams_20260101_120003.csv" /\
  read_file (teams_table sample_tables) (wfiles (snd sample_main_run)) =
    Some (teams_header ::
          map (fun kt => team_row (snd kt)) (teams_dict (wreg (snd sample_main_run)))) /\
  map (fun kt => cell 0 (team_row (snd kt))) (teams_dict (wreg (snd sample_main_run)))
    = count_from_1 (List.length (teams_dict (wreg (snd sample_main_run)))).
Proof.
  apply (run_exports_every_registered_team
           "20260101_120000" "20260101_120001" "20260101_120002" "20260101_120003"
           (Body sample_standings_payload) (Body sample_payload)
           (Body sample_scorers_payload) initial_world).
  - reflexivity.
  - vm_compute. reflexivity.
Defined.

Lemma standings_rows_follow_the_table_witness :
  exists entries rows,
    standings_table_of (Body sample_standings_payload) entries /\
    "standings_20260101_120000.csv" = "standings_" +++ sample_ts +++ ".csv" /\
    read_file "standings_20260101_120000.csv"
      (wfiles (snd (fetch_champions_league_standings sample_ts
                      (Body sample_standings_payload) initial_world)))
      = Some (standings_header :: rows) /\
    map (cell 0) rows = count_from_1 (List.length rows) /\
    Forall2 (standing_row_rel
               (wreg (snd (fetch_champions_league_standings sample_ts
                             (Body sample_standings_payload) initial_world))))
            entries rows.
Proof.
  apply (standings_rows_follow_the_table sample_ts (Body sample_standings_payload)
           initial_world).
  vm_compute. reflexivity.
Defined.

Lemma standings_read_only_the_first_group_witness :
  fetch_champions_league_standings sample_ts (Body sample_standings_payload) ajax_world =
  fetch_champions_league_standings sample_ts (Body one_group_standings_payload) ajax_world.
Proof.
  eapply (standings_read_only_the_first_group sample_ts sample_standings_payload
            one_group_standings_payload); reflexivity.
Defined.

Lemma scorers_rows_follow_the_response_witness :
  exists scorers rows,
    scorers_of (Body sample_scorers_payload) scorers /\
    "scorers_20260101_120000.csv" = "scorers_" +++ sample_ts +++ ".csv" /\
    read_file "scorers_20260101_120000.csv"
      (wfiles (snd (fetch_top_scorers sample_ts (Body sample_scorers_payload)
                      initial_world)))
      = Some (scorers_header :: rows) /\
    map (cell 0) rows = count_from_1 (List.length rows) /\
    Forall2 (scorer_row_rel
               (wreg (snd (fetch_top_scorers sample_ts (Body sample_scorers_payload)
                             initial_world))))
            scorers rows.
Proof.
  apply (scorers_rows_follow_the_response sample_ts (Body sample_scorers_payload)
           initial_world).
  vm_compute. reflexivity.
Defined.


Lemma match_rows_follow_the_response_witness :
  exists matches mrows,
    matches_of (Body sample_payload) matches /\
    read_file "matches_20260101_120000.csv" (wfiles sample_world)
      = Some (matches_header :: mrows) /\
    Forall2
      (fun m rw =>
         match_cells m rw /\
         exists hn an hid aid,
           home_name m = Ret hn /\
           away_name m = Ret an /\
           registry_id (wreg sample_world) hn = Some hid /\
           registry_id (wreg sample_world) an = Some aid /\
           cell 3 rw = JNum hid /\
           cell 4 rw = JNum aid)
      matches mrows.
Proof.
  apply (match_rows_follow_the_response sample_ts (Body sample_payload) initial_world
           "matches_20260101_120000.csv" "goals_20260101_120000.csv" sample_world).
  vm_compute. reflexivity.
Defined.

Lemma goal_rows_point_to_their_match_witness :
  exists matches mrows grows,
    matches_of (Body sample_payload) matches /\
    read_file "matches_20260101_120000.csv" (wfiles sample_world)
      = Some (matches_header :: mrows) /\
    read_file "goals_20260101_120000.csv" (wfiles sample_world)
      = Some (goals_header :: grows) /\
    Forall2 goal_cells (goal_events matches) grows /\
    Forall (fun rw => In (cell 1 rw) (map (cell 0) mrows)) grows.
Proof.
  apply (goal_rows_point_to_their_match sample_ts (Body sample_payload) initial_world
           "matches_20260101_120000.csv" "goals_20260101_120000.csv" sample_world).
  vm_compute. reflexivity.
Defined.

Lemma fetches_end_with_results_or_the_unpack_error_witness :
  exists w',
    main_fetches "20260101_120000" "20260101_120001" "20260101_120002"
      (Body sample_standings_payload) (Body (JObj [("message", JStr "no data")]))
      (Body sample_scorers_payload) initial_world = (Raise TypeError, w').
Proof.
  apply (proj2 (proj2 (fetches_end_with_results_or_the_unpack_error
           "20260101_120000" "20260101_120001" "20260101_120002" "20260101_120003"
           (Body sample_standings_payload) (Body (JObj [("message", JStr "no data")]))
           (Body sample_scorers_payload)
           ltac:(intros e H; discriminate H)
           ltac:(intros e H; discriminate H)
           ltac:(intros e H; discriminate H)))
         (JObj [("message", JStr "no data")]) initial_world).
  - reflexivity.
  - reflexivity.
Defined.

Lemma run_team_ids_are_in_the_teams_file_witness :
  exists trows,
    read_file (teams_table sample_tables) (wfiles (snd sample_main_run))
      = Some (teams_header :: trows) /\
    (forall f, standings_table sample_tables = Some f ->
       exists rows,
         read_file f (wfiles (snd sample_main_run)) = Some (standings_header :: rows) /\
         Forall (fun rw => In (cell 1 rw) (map (cell 0) trows)) rows) /\
    (forall f, matches_table sample_tables = Some f ->
       exists rows,
         read_file f (wfiles (snd sample_main_run)) = Some (matches_header :: rows) /\
         Forall (fun rw => In (cell 3 rw) (map (cell 0) trows) /\
                           In (cell 4 rw) (map (cell 0) trows)) rows) /\
    (forall f, goals_table sample_tables = Some f ->
       exists rows,
         read_file f (wfiles (snd sample_main_run)) = Some (goals_header :: rows) /\
         Forall (fun rw => In (cell 2 rw) (map (cell 0) trows)) rows) /\
    (forall f, scorers_table sample_tables = Some f ->
       exists rows,
         read_file f (wfiles (snd sample_main_run)) = Some (scorers_header :: rows) /\
         Forall (fun rw => In (cell 2 rw) (map (cell 0) trows)) rows).
Proof.
  apply (run_team_ids_are_in_the_teams_file
           "20260101_120000" "20260101_120001" "20260101_120002" "20260101_120003"
           (Body sample_standings_payload) (Body sample_payload)
           (Body sample_scorers_payload) initial_world).
  vm_compute. reflexivity.
Defined.

Lemma run_registry_is_the_first_sightings_witness :
  map (fun kt => (t_id (snd kt), t_name (snd kt))) (teams_dict (wreg (snd sample_main_run)))
    = [(1, JStr "SL Benfica"); (2, JStr "Ajax"); (3, JStr "FC Porto")].
Proof.
  destruct (run_registry_is_the_first_sightings_of_all_stages
              "20260101_120000" "20260101_120001" "20260101_120002" "20260101_120003"
              (Body sample_standings_payload) (Body sample_payload)
              (Body sample_scorers_payload) initial_world sample_tables
              (snd sample_main_run)
              [standings_entry 2 (team_obj 1903 "SL Benfica") 7;
               standings_entry 1 (team_obj 678 "Ajax") 10]
              sample_matches
              [JObj [("player", JObj [("id", JNum 7); ("name", JStr "Tadic")]);
                     ("team", team_obj 678 "Ajax");
                     ("goals", JNum 5); ("assists", JNum 2)];
               JObj [("player", JObj [("id", JNum 8); ("name", JStr "Taremi")]);
                     ("team", team_obj 503 "FC Porto")]]
              "standings_20260101_120000.csv" "matches_20260101_120001.csv"
              "scorers_20260101_120002.csv") as [Hd _].
  - reflexivity.
  - vm_compute. reflexivity.
  - unfold standings_table_of. do 4 eexists. repeat split; reflexivity.
  - reflexivity.
  - unfold matches_of. do 2 eexists. repeat split; reflexivity.
  - reflexivity.
  - unfold scorers_of. do 2 eexists. repeat split; reflexivity.
  - reflexivity.
  - rewrite Hd. vm_compute. reflexivity.
Defined.
